(** * CF-Progress-Management: the data-synchronisation engine

    A shallow embedding of the backend's sync engine
    ([services/codeforcesService.ts], [services/dataSyncService.ts],
    [services/cronJobService.ts], [models/Student.ts]) and the properties
    of its reconciliation logic, followed by the HTTP layer that calls it
    ([utils/responseHandler.ts], [controllers/codeforcesController.ts],
    [controllers/cronJobController.ts]).

    The TypeScript code is asynchronous and effectful.  It is embedded in a
    state-and-exception monad over a [World] that holds the four MongoDB
    collections, the clock, the log of timers and HTTP requests, and the
    static fields of [CronJobService].  The remote API and database faults
    are oracles indexed by the number of the request (resp. database
    operation), so that every theorem holds whatever the remote answers and
    whenever the database fails.

    Modelling decisions:
    - numbers that the code compares or stores (ratings, ids, times in
      milliseconds) are [Z]; counters that the code only increments are [nat];
    - an [await] is a sequencing point: the code has a single thread of
      control, and each function is the composition of its awaited steps.
      The one place where promises run together is [Promise.allSettled] in
      [getUserStats]: its three calls set their timers one after the other,
      wait for them together, and send their requests back to back;
    - the clock advances by the timers that the code awaits, and by nothing
      else;
    - a collection is the list of its documents in insertion order; a query
      takes the first match.  A stored student carries the paths that the
      schema declares; [createdAt], [updatedAt] and [__v], which Mongoose
      maintains by itself, are left out, and no statement speaks of them.
      [findById] casts its argument to an ObjectId, and [save] validates the
      loaded document against the schema of [models/Student.ts] before the
      pre-save hook runs.  [create] validates the new document against the
      schema of [models/Submission.ts], resp. [models/RatingChange.ts], and
      checks the unique index that the schema declares on the dedup key.  A
      lost connection is a fault of the oracle.  Strings are sequences of
      characters with a code below 256;
    - a controller is run for the list of the replies it sends on [res];
      what it writes to the console is left out. *)

From Stdlib Require Import ZArith List String Ascii Bool Arith Lia DecimalString.
Import ListNotations.

Open Scope string_scope.
Open Scope list_scope.
Open Scope Z_scope.

(** ** JavaScript helpers *)

(** [s.includes(sub)] *)
Fixpoint includes (s sub : string) : bool :=
  String.prefix sub s ||
  match s with
  | EmptyString => false
  | String _ rest => includes rest sub
  end.

(** [a || b] on an optional string: [undefined] and the empty string are falsy. *)
Definition orString (a : option string) (b : string) : string :=
  match a with
  | Some s => if String.eqb s EmptyString then b else s
  | None => b
  end.

(** [l || []] *)
Definition orEmpty {A : Type} (l : option (list A)) : list A :=
  match l with Some l => l | None => [] end.

(** Truthiness of an optional number: [null], [undefined] and [0] are falsy. *)
Definition truthy (n : option Z) : bool :=
  match n with
  | Some v => negb (v =? 0)
  | None => false
  end.

(** Template-literal rendering of an integer. *)
Definition string_of_Z (z : Z) : string := NilZero.string_of_int (Z.to_int z).

Definition string_of_bool (b : bool) : string := if b then "true" else "false".

Definition option_Z_eqb (a b : option Z) : bool :=
  match a, b with
  | Some x, Some y => x =? y
  | None, None => true
  | _, _ => false
  end.

(** A value between double quotes, as error messages show it. *)
Definition doubleQuote : string := String (ascii_of_nat 34) EmptyString.

Definition quoted (s : string) : string := (doubleQuote ++ s ++ doubleQuote)%string.

(** [parts.join(separator)] *)
Fixpoint join (separator : string) (parts : list string) : string :=
  match parts with
  | [] => EmptyString
  | [p] => p
  | p :: rest => (p ++ separator ++ join separator rest)%string
  end.

(** ** Regular expressions

    The patterns of the schema validators are anchored at both ends, so that
    [pattern.test(s)] asks whether the whole of [s] matches.  Matching is by
    derivatives. *)
Inductive Regex :=
| Nothing
| Empty
| Class (member : ascii -> bool)
| Cat (a b : Regex)
| Alt (a b : Regex)
| Star (a : Regex).

Fixpoint nullable (r : Regex) : bool :=
  match r with
  | Nothing => false
  | Empty => true
  | Class _ => false
  | Cat a b => nullable a && nullable b
  | Alt a b => nullable a || nullable b
  | Star _ => true
  end.

Fixpoint derive (c : ascii) (r : Regex) : Regex :=
  match r with
  | Nothing => Nothing
  | Empty => Nothing
  | Class member => if member c then Empty else Nothing
  | Cat a b =>
      if nullable a then Alt (Cat (derive c a) b) (derive c b)
      else Cat (derive c a) b
  | Alt a b => Alt (derive c a) (derive c b)
  | Star a => Cat (derive c a) (Star a)
  end.

Fixpoint test (r : Regex) (s : string) : bool :=
  match s with
  | EmptyString => nullable r
  | String c rest => test (derive c r) rest
  end.

(** [r+], [r?] and [r{0,n}] *)
Definition Plus (r : Regex) : Regex := Cat r (Star r).

Definition Opt (r : Regex) : Regex := Alt Empty r.

Fixpoint UpTo (n : nat) (r : Regex) : Regex :=
  match n with
  | O => Empty
  | S n => Opt (Cat r (UpTo n r))
  end.

Definition inRange (lo hi : string) (c : ascii) : bool :=
  match lo, hi with
  | String l _, String h _ =>
      (nat_of_ascii l <=? nat_of_ascii c)%nat && (nat_of_ascii c <=? nat_of_ascii h)%nat
  | _, _ => false
  end.

Definition isChar (x : string) (c : ascii) : bool := inRange x x c.

(** [\d] and [\s]; of the white space of JavaScript, the characters with a
    code below 256. *)
Definition isDigit (c : ascii) : bool := inRange "0" "9" c.

Definition isSpace (c : ascii) : bool :=
  existsb (Nat.eqb (nat_of_ascii c)) [9; 10; 11; 12; 13; 32; 160]%nat.

(** ** Data model *)

(** [CodeforcesUser] (codeforcesService.ts), optional fields as [option]. *)
Module CodeforcesUser.
Record t := mk {
  handle : string;
  email : option string;
  vkId : option string;
  openId : option string;
  firstName : option string;
  lastName : option string;
  country : option string;
  city : option string;
  organization : option string;
  contribution : option Z;
  rank : option string;
  rating : option Z;
  maxRank : option string;
  maxRating : option Z;
  lastOnlineTimeSeconds : option Z;
  registrationTimeSeconds : option Z;
  friendOfCount : option Z;
  avatar : option string;
  titlePhoto : option string }.
End CodeforcesUser.

(** [CodeforcesRatingChange] (codeforcesService.ts) *)
Module CodeforcesRatingChange.
Record t := mk {
  contestId : Z;
  contestName : string;
  handle : string;
  rank : Z;
  ratingUpdateTimeSeconds : Z;
  oldRating : Z;
  newRating : Z }.
End CodeforcesRatingChange.

(** The [problem] and [author] sub-documents of a submission (types/models.ts). *)
Module Problem.
Record t := mk {
  contestId : option Z;
  index : string;
  name : string;
  type : string;
  rating : option Z;
  tags : list string }.
End Problem.

Module Author.
Record t := mk {
  contestId : option Z;
  members : list string;        (* Array<{ handle: string }> *)
  participantType : string;
  ghost : bool;
  startTimeSeconds : option Z }.
End Author.

(** [ISubmission] (types/models.ts): a submission as the remote API returns it. *)
Module ISubmission.
Record t := mk {
  id : Z;
  contestId : option Z;
  creationTimeSeconds : Z;
  relativeTimeSeconds : Z;
  problem : Problem.t;
  author : Author.t;
  programmingLanguage : string;
  verdict : string;
  testset : string;
  passedTestCount : Z;
  timeConsumedMillis : Z;
  memoryConsumedBytes : Z }.
End ISubmission.

(** [IContest] (types/models.ts) *)
Module IContest.
Record t := mk {
  contestId : Z;
  contestName : string;
  phase : string;
  frozen : bool;
  durationSeconds : Z;
  startTimeSeconds : Z;
  relativeTimeSeconds : option Z }.
End IContest.

(** A stored [Student] document (models/Student.ts, types/models.ts).
    [_id] is the ObjectId in its string form, dates are milliseconds. *)
Module Student.
Record t := mk {
  _id : string;
  name : string;
  email : string;
  phoneNumber : string;
  codeforcesHandle : string;
  currentRating : option Z;
  maxRating : option Z;
  lastDataUpdate : option Z;
  emailNotificationsEnabled : bool;
  reminderEmailCount : Z }.

Definition set_currentRating (v : option Z) (d : t) : t :=
  mk (_id d) (name d) (email d) (phoneNumber d) (codeforcesHandle d)
     v (maxRating d) (lastDataUpdate d)
     (emailNotificationsEnabled d) (reminderEmailCount d).

Definition set_maxRating (v : option Z) (d : t) : t :=
  mk (_id d) (name d) (email d) (phoneNumber d) (codeforcesHandle d)
     (currentRating d) v (lastDataUpdate d)
     (emailNotificationsEnabled d) (reminderEmailCount d).

Definition set_lastDataUpdate (v : option Z) (d : t) : t :=
  mk (_id d) (name d) (email d) (phoneNumber d) (codeforcesHandle d)
     (currentRating d) (maxRating d) v
     (emailNotificationsEnabled d) (reminderEmailCount d).
End Student.

(** A stored [Submission] document (models/Submission.ts). *)
Module Submission.
Record t := mk {
  studentId : string;
  codeforcesHandle : string;
  submissionId : Z;
  contestId : option Z;
  creationTimeSeconds : Z;
  relativeTimeSeconds : Z;
  problem : Problem.t;
  author : Author.t;
  programmingLanguage : string;
  verdict : string;
  testset : string;
  passedTestCount : Z;
  timeConsumedMillis : Z;
  memoryConsumedBytes : Z }.
End Submission.

(** A stored [RatingChange] document (models/RatingChange.ts). *)
Module RatingChange.
Record t := mk {
  studentId : string;
  codeforcesHandle : string;
  contestId : Z;
  contestName : string;
  handle : string;
  rank : Z;
  ratingUpdateTimeSeconds : Z;
  oldRating : Z;
  newRating : Z }.
End RatingChange.

(** A stored [Contest] document (models/Contest.ts) has the fields of [IContest]. *)
Module Contest.
Definition t := IContest.t.
End Contest.

(** ** The validators of [StudentSchema] (models/Student.ts) *)

(** [/^[^\s@]+@[^\s@]+\.[^\s@]+$/] *)
Definition emailPattern : Regex :=
  let plain := Class (fun c => negb (isSpace c || isChar "@" c)) in
  Cat (Plus plain) (Cat (Class (isChar "@"))
    (Cat (Plus plain) (Cat (Class (isChar ".")) (Plus plain)))).

(** [/^[\+]?[1-9][\d]{0,15}$/] *)
Definition phonePattern : Regex :=
  Cat (Opt (Class (isChar "+"))) (Cat (Class (inRange "1" "9")) (UpTo 15 (Class isDigit))).

(** [/^[a-zA-Z0-9_-]+$/] *)
Definition handlePattern : Regex :=
  Plus (Class (fun c => inRange "a" "z" c || inRange "A" "Z" c || inRange "0" "9" c
                        || isChar "_" c || isChar "-" c)).

(** The built-in validators.  Each is given the value and the message of the
    schema, and returns the message when the value is refused.  [required]
    refuses the empty string; [match] accepts it; [min] and [max] accept
    [null]. *)
Module Validator.
Definition required (v message : string) : option string :=
  if (String.length v =? 0)%nat then Some message else None.

Definition minlength (n : nat) (v message : string) : option string :=
  if (n <=? String.length v)%nat then None else Some message.

Definition maxlength (n : nat) (v message : string) : option string :=
  if (String.length v <=? n)%nat then None else Some message.

Definition match_ (pattern : Regex) (v message : string) : option string :=
  if (String.length v =? 0)%nat || test pattern v then None else Some message.

Definition min (bound : Z) (v : option Z) (message : string) : option string :=
  match v with
  | Some x => if bound <=? x then None else Some message
  | None => None
  end.

Definition max (bound : Z) (v : option Z) (message : string) : option string :=
  match v with
  | Some x => if x <=? bound then None else Some message
  | None => None
  end.
End Validator.

(** The validators of one path run in order, [required] first; the first
    that refuses the value gives the error of the path. *)
Fixpoint firstFailure (checks : list (option string)) : option string :=
  match checks with
  | [] => None
  | Some message :: _ => Some message
  | None :: rest => firstFailure rest
  end.

Definition validatePath (path : string) (checks : list (option string))
  : list (string * string) :=
  match firstFailure checks with
  | Some message => [(path, message)]
  | None => []
  end.

(** [doc.validate()] on a loaded document: the paths that failed, with their
    messages, in the order of the schema. *)
Definition validateStudent (d : Student.t) : list (string * string) :=
  validatePath "name"
    [ Validator.required (Student.name d) "Name is required";
      Validator.minlength 2 (Student.name d) "Name must be at least 2 characters long";
      Validator.maxlength 100 (Student.name d) "Name cannot exceed 100 characters" ]
  ++ validatePath "email"
    [ Validator.required (Student.email d) "Email is required";
      Validator.match_ emailPattern (Student.email d) "Please provide a valid email address" ]
  ++ validatePath "phoneNumber"
    [ Validator.required (Student.phoneNumber d) "Phone number is required";
      Validator.match_ phonePattern (Student.phoneNumber d)
        "Please provide a valid phone number" ]
  ++ validatePath "codeforcesHandle"
    [ Validator.required (Student.codeforcesHandle d) "Codeforces handle is required";
      Validator.minlength 3 (Student.codeforcesHandle d)
        "Codeforces handle must be at least 3 characters long";
      Validator.maxlength 24 (Student.codeforcesHandle d)
        "Codeforces handle cannot exceed 24 characters";
      Validator.match_ handlePattern (Student.codeforcesHandle d)
        "Codeforces handle can only contain letters, numbers, underscores, and hyphens" ]
  ++ validatePath "currentRating"
    [ Validator.min 0 (Student.currentRating d) "Rating cannot be negative";
      Validator.max 5000 (Student.currentRating d) "Rating cannot exceed 5000" ]
  ++ validatePath "maxRating"
    [ Validator.min 0 (Student.maxRating d) "Rating cannot be negative";
      Validator.max 5000 (Student.maxRating d) "Rating cannot exceed 5000" ]
  ++ validatePath "reminderEmailCount"
    [ Validator.min 0 (Some (Student.reminderEmailCount d))
        "Reminder email count cannot be negative" ].

(** ** The validators of [SubmissionSchema] and [RatingChangeSchema]
    (models/Submission.ts, models/RatingChange.ts) *)

(** The message of a [required: true] that gives no message of its own. *)
Definition requiredMessage (path : string) : string :=
  ("Path `" ++ path ++ "` is required.")%string.

(** A required string path: [key] is the key of the error in the document,
    [path] the path in the schema that declares it. *)
Definition requiredPath (key path value : string) : list (string * string) :=
  validatePath key [Validator.required value (requiredMessage path)].

(** The members of [author.members], each a sub-document with a required
    [handle]. *)
Fixpoint validateMembers (i : nat) (members : list string) : list (string * string) :=
  match members with
  | [] => []
  | handle :: rest =>
      requiredPath ("author.members." ++ string_of_Z (Z.of_nat i) ++ ".handle")%string
        "handle" handle
      ++ validateMembers (S i) rest
  end.

(** [doc.validate()] on a new submission.  The required numbers, the boolean
    and the id of the student are present in every document that the sync
    builds; a required string is refused when it is empty. *)
Definition validateSubmission (d : Submission.t) : list (string * string) :=
  requiredPath "codeforcesHandle" "codeforcesHandle" (Submission.codeforcesHandle d)
  ++ requiredPath "problem.index" "problem.index" (Problem.index (Submission.problem d))
  ++ requiredPath "problem.name" "problem.name" (Problem.name (Submission.problem d))
  ++ requiredPath "problem.type" "problem.type" (Problem.type (Submission.problem d))
  ++ validateMembers 0 (Author.members (Submission.author d))
  ++ requiredPath "author.participantType" "author.participantType"
       (Author.participantType (Submission.author d))
  ++ requiredPath "programmingLanguage" "programmingLanguage"
       (Submission.programmingLanguage d)
  ++ requiredPath "verdict" "verdict" (Submission.verdict d)
  ++ requiredPath "testset" "testset" (Submission.testset d).

(** [doc.validate()] on a new rating change. *)
Definition validateRatingChange (d : RatingChange.t) : list (string * string) :=
  requiredPath "codeforcesHandle" "codeforcesHandle" (RatingChange.codeforcesHandle d)
  ++ requiredPath "contestName" "contestName" (RatingChange.contestName d)
  ++ requiredPath "handle" "handle" (RatingChange.handle d).

(** A Mongoose document held in memory: the field values and the paths
    assigned since it was loaded.  [save] writes the modified paths only. *)
Inductive StudentPath := MaxRatingPath | LastDataUpdatePath.

Definition StudentPath_eqb (a b : StudentPath) : bool :=
  match a, b with
  | MaxRatingPath, MaxRatingPath => true
  | LastDataUpdatePath, LastDataUpdatePath => true
  | _, _ => false
  end.

Module IStudentDocument.
Record t := mk {
  fields : Student.t;
  modifiedPaths : list StudentPath }.

(** A document as a query returns it: nothing modified yet. *)
Definition hydrate (d : Student.t) : t := mk d [].

Definition isModified (p : StudentPath) (d : t) : bool :=
  existsb (StudentPath_eqb p) (modifiedPaths d).

(** [doc.maxRating = v]: the path is marked modified when the value changes. *)
Definition assign_maxRating (v : option Z) (d : t) : t :=
  if option_Z_eqb (Student.maxRating (fields d)) v then d
  else mk (Student.set_maxRating v (fields d)) (MaxRatingPath :: modifiedPaths d).

(** [doc.lastDataUpdate = v] *)
Definition assign_lastDataUpdate (v : option Z) (d : t) : t :=
  if option_Z_eqb (Student.lastDataUpdate (fields d)) v then d
  else mk (Student.set_lastDataUpdate v (fields d)) (LastDataUpdatePath :: modifiedPaths d).
End IStudentDocument.

(** [SyncSummary], [SyncResult] and the entries of [GlobalSyncStats]
    (dataSyncService.ts). *)
Module SyncSummary.
Record t := mk {
  submissionsAdded : nat;
  ratingChangesAdded : nat;
  contestsAdded : nat;
  currentRating : option Z;
  maxRating : option Z }.
End SyncSummary.

Module SyncResult.
Record t := mk {
  success : bool;
  message : string;
  data : option SyncSummary.t;
  error : option string }.
End SyncResult.

Module StudentSync.
Record t := mk {
  studentId : string;
  handle : string;
  result : SyncResult.t }.
End StudentSync.

Module GlobalSyncStats.
Record t := mk {
  totalStudents : nat;
  successfulSyncs : nat;
  failedSyncs : nat;
  results : list StudentSync.t }.
End GlobalSyncStats.

(** The result of [CodeforcesService.getUserStats]. *)
Module UserStats.
Record t := mk {
  user : CodeforcesUser.t;
  ratingChanges : list CodeforcesRatingChange.t;
  submissionsCount : nat }.
End UserStats.

(** The [Partial<IStudentDocument>] that [updateStudentRatings] builds: a key
    is present when its value is [Some]. *)
Module StudentUpdate.
Record t := mk {
  currentRating : option Z;
  maxRating : option Z }.

(** [Object.keys(update).length] *)
Definition keys (u : t) : nat :=
  ((match currentRating u with Some _ => 1 | None => 0 end)
   + (match maxRating u with Some _ => 1 | None => 0 end))%nat.

(** The effect of [{ $set: update }] on a stored document. *)
Definition apply (u : t) (d : Student.t) : Student.t :=
  let d := match currentRating u with
           | Some r => Student.set_currentRating (Some r) d
           | None => d
           end in
  match maxRating u with
  | Some r => Student.set_maxRating (Some r) d
  | None => d
  end.
End StudentUpdate.

(** The static state of [CronJobService] (cronJobService.ts). *)
Module LastResult.
Record t := mk {
  success : bool;
  studentsProcessed : nat;
  errors : nat;
  duration : Z }.
End LastResult.

Module CronJobStatus.
Record t := mk {
  isRunning : bool;
  lastRun : option Z;
  nextRun : option Z;
  lastResult : option LastResult.t;
  schedule : string;
  enabled : bool }.

Definition set_isRunning (v : bool) (s : t) : t :=
  mk v (lastRun s) (nextRun s) (lastResult s) (schedule s) (enabled s).

Definition set_lastRun (v : option Z) (s : t) : t :=
  mk (isRunning s) v (nextRun s) (lastResult s) (schedule s) (enabled s).

Definition set_nextRun (v : option Z) (s : t) : t :=
  mk (isRunning s) (lastRun s) v (lastResult s) (schedule s) (enabled s).

Definition set_lastResult (v : option LastResult.t) (s : t) : t :=
  mk (isRunning s) (lastRun s) (nextRun s) v (schedule s) (enabled s).

Definition set_schedule (v : string) (s : t) : t :=
  mk (isRunning s) (lastRun s) (nextRun s) (lastResult s) v (enabled s).

Definition set_enabled (v : bool) (s : t) : t :=
  mk (isRunning s) (lastRun s) (nextRun s) (lastResult s) (schedule s) v.
End CronJobStatus.

Module CronJobConfig.
Record t := mk {
  schedule : string;
  enabled : bool;
  timezone : option string }.
End CronJobConfig.

(** The closure handed to [cron.schedule]: [() => this.executeSync(forceAll)]. *)
Inductive Callback := ExecuteSync (forceAll : bool).

Module ScheduledTask.
Record t := mk {
  expression : string;
  callback : Callback;
  timezone : string }.
End ScheduledTask.

(** ** The world *)

(** What the process does to the outside, in order: timers it sets and HTTP
    requests it sends. *)
Inductive Event :=
| EvDelay (ms : Z)
| EvRequest (url : string).

Record World := mkWorld {
  students : list Student.t;
  contests : list Contest.t;
  submissions : list Submission.t;
  ratingChanges : list RatingChange.t;
  dbOps : nat;                          (* database operations issued so far *)
  requests : nat;                       (* HTTP requests sent so far *)
  now : Z;                              (* Date.now() *)
  trace : list Event;
  cronTask : option ScheduledTask.t;
  jobStatus : CronJobStatus.t }.

Definition with_students (v : list Student.t) (w : World) : World :=
  mkWorld v (contests w) (submissions w) (ratingChanges w) (dbOps w)
          (requests w) (now w) (trace w) (cronTask w) (jobStatus w).

Definition with_contests (v : list Contest.t) (w : World) : World :=
  mkWorld (students w) v (submissions w) (ratingChanges w) (dbOps w)
          (requests w) (now w) (trace w) (cronTask w) (jobStatus w).

Definition with_submissions (v : list Submission.t) (w : World) : World :=
  mkWorld (students w) (contests w) v (ratingChanges w) (dbOps w)
          (requests w) (now w) (trace w) (cronTask w) (jobStatus w).

Definition with_ratingChanges (v : list RatingChange.t) (w : World) : World :=
  mkWorld (students w) (contests w) (submissions w) v (dbOps w)
          (requests w) (now w) (trace w) (cronTask w) (jobStatus w).

Definition with_dbOps (v : nat) (w : World) : World :=
  mkWorld (students w) (contests w) (submissions w) (ratingChanges w) v
          (requests w) (now w) (trace w) (cronTask w) (jobStatus w).

Definition with_requests (v : nat) (w : World) : World :=
  mkWorld (students w) (contests w) (submissions w) (ratingChanges w) (dbOps w)
          v (now w) (trace w) (cronTask w) (jobStatus w).

Definition with_now (v : Z) (w : World) : World :=
  mkWorld (students w) (contests w) (submissions w) (ratingChanges w) (dbOps w)
          (requests w) v (trace w) (cronTask w) (jobStatus w).

Definition with_trace (v : list Event) (w : World) : World :=
  mkWorld (students w) (contests w) (submissions w) (ratingChanges w) (dbOps w)
          (requests w) (now w) v (cronTask w) (jobStatus w).

Definition with_cronTask (v : option ScheduledTask.t) (w : World) : World :=
  mkWorld (students w) (contests w) (submissions w) (ratingChanges w) (dbOps w)
          (requests w) (now w) (trace w) v (jobStatus w).

Definition with_jobStatus (v : CronJobStatus.t) (w : World) : World :=
  mkWorld (students w) (contests w) (submissions w) (ratingChanges w) (dbOps w)
          (requests w) (now w) (trace w) (cronTask w) v.

(** ** The monad: state passing with JavaScript exceptions *)

Inductive JsError :=
| Error (message : string)
| AxiosError (status : option Z) (code : option string) (message : string).

(** [(error as Error).message] *)
Definition message (e : JsError) : string :=
  match e with
  | Error m => m
  | AxiosError _ _ m => m
  end.

Inductive Outcome (A : Type) :=
| Ok (value : A)
| Throw (error : JsError).
Arguments Ok {A} value.
Arguments Throw {A} error.

Definition M (A : Type) : Type := World -> Outcome A * World.

Definition ret {A} (a : A) : M A := fun w => (Ok a, w).

Definition throw {A} (e : JsError) : M A := fun w => (Throw e, w).

Definition bind {A B} (m : M A) (k : A -> M B) : M B :=
  fun w =>
    match m w with
    | (Ok a, w') => k a w'
    | (Throw e, w') => (Throw e, w')
    end.

(** [try { m } catch (error) { handler }] *)
Definition tryCatch {A} (m : M A) (handler : JsError -> M A) : M A :=
  fun w =>
    match m w with
    | (Ok a, w') => (Ok a, w')
    | (Throw e, w') => handler e w'
    end.

(** [try { m } finally { fin }] *)
Definition tryFinally {A} (m : M A) (fin : M unit) : M A :=
  fun w =>
    match m w with
    | (r, w') =>
        match fin w' with
        | (Ok _, w'') => (r, w'')
        | (Throw e, w'') => (Throw e, w'')
        end
    end.

(** The settled state of a promise: what [Promise.allSettled] collects. *)
Definition settle {A} (m : M A) : M (Outcome A) :=
  fun w => match m w with (r, w') => (Ok r, w') end.

Declare Scope monad_scope.
Delimit Scope monad_scope with monad.
Notation "x <- m ;; k" := (bind m (fun x => k))
  (at level 61, m at next level, right associativity) : monad_scope.
Notation "m ;; k" := (bind m (fun _ => k))
  (at level 61, right associativity) : monad_scope.
Open Scope monad_scope.

Definition gets {A} (f : World -> A) : M A := fun w => (Ok (f w), w).

Definition modify (f : World -> World) : M unit := fun w => (Ok tt, f w).

(** [for (const x of l) { body }], the loop's local variables in [acc]. *)
Fixpoint forOf {A S} (l : list A) (body : A -> S -> M S) (acc : S) : M S :=
  match l with
  | [] => ret acc
  | x :: rest => acc' <- body x acc ;; forOf rest body acc'
  end.

(** [await new Promise(resolve => setTimeout(resolve, ms))] *)
Definition delay (ms : Z) : M unit :=
  modify (fun w => with_now (now w + ms) (with_trace (trace w ++ [EvDelay ms]) w)).

(** The two halves of it, for promises that wait together: [setTimeout] is
    called, and the clock reaches the time at which the timer fires. *)
Definition setTimer (ms : Z) : M unit :=
  modify (fun w => with_trace (trace w ++ [EvDelay ms]) w).

Definition elapse (ms : Z) : M unit :=
  modify (fun w => with_now (now w + ms) w).

(** [Date.now()] and [new Date()] *)
Definition Date_now : M Z := gets now.

(** ** The environment *)

(** [CodeforcesApiResponse<T>] (codeforcesService.ts) *)
Module CodeforcesApiResponse.
Record t (T : Type) := mk {
  status : string;
  result : T;
  comment : option string }.
Arguments mk {T} status result comment.
Arguments status {T} _.
Arguments result {T} _.
Arguments comment {T} _.
End CodeforcesApiResponse.

(** What [axios.get] does: it resolves to a response body, or rejects with an
    Axios error carrying [error.response?.status], [error.code] and a message. *)
Inductive AxiosResult (T : Type) :=
| Resolved (data : CodeforcesApiResponse.t T)
| Rejected (status : option Z) (code : option string) (message : string).
Arguments Resolved {T} data.
Arguments Rejected {T} status code message.

(** The remote API, one oracle per endpoint family.  The answer may depend on
    the URL and on the number of requests sent before; [result] is [None] when
    the body carries no result. *)
Record Remote := mkRemote {
  user_info : nat -> string -> AxiosResult (option (list CodeforcesUser.t));
  user_rating : nat -> string -> AxiosResult (option (list CodeforcesRatingChange.t));
  user_status : nat -> string -> AxiosResult (option (list ISubmission.t));
  contest_list : nat -> string -> AxiosResult (option (list IContest.t)) }.

(** What [parseInt] returns: an integer, or [NaN] for a string that does not
    start with a number. *)
Inductive JsInt :=
| NaN
| Int (value : Z).

(** Everything the code reads and does not control.
    - [dbFault n]: the message of the error the [n]-th database operation fails
      with (a lost connection, a timeout, ...), if it fails;
    - [isObjectId id]: Mongoose can cast the string [id] to an ObjectId;
    - [cron_validate], [nextRunAfter]: node-cron's [validate] and the date
      arithmetic of [calculateNextRun] (schedule, now);
    - [SYNC_THRESHOLD_HOURS]: [parseInt] of the environment variable, [None]
      when it is unset or empty. *)
Record Env := mkEnv {
  remote : Remote;
  dbFault : nat -> option string;
  isObjectId : string -> bool;
  cron_validate : string -> bool;
  nextRunAfter : string -> Z -> Z;
  SYNC_THRESHOLD_HOURS : option JsInt }.

(** ** CodeforcesService: the remote client (codeforcesService.ts) *)

Definition BASE_URL : string := "https://codeforces.com/api".
Definition REQUEST_DELAY : Z := 200.

(** [axios.get(url, ...)]: the request is logged and numbered, the oracle answers. *)
Definition axios_get {T} (api : nat -> string -> AxiosResult T) (url : string)
  : M (CodeforcesApiResponse.t T) :=
  fun w =>
    let w' := with_requests (S (requests w)) (with_trace (trace w ++ [EvRequest url]) w) in
    match api (requests w) url with
    | Resolved data => (Ok data, w')
    | Rejected st code msg => (Throw (AxiosError st code msg), w')
    end.

Definition option_string_eqb (a : option string) (b : string) : bool :=
  match a with
  | Some s => String.eqb s b
  | None => false
  end.

Definition option_Z_is (a : option Z) (b : Z) : bool :=
  match a with
  | Some x => x =? b
  | None => false
  end.

(** The [catch] block of [makeRequest]. *)
Definition makeRequest_catch {T} (error : JsError) : M T :=
  match error with
  | AxiosError st code msg =>
      if option_Z_is st 400 then
        throw (Error "Invalid request parameters")
      else if option_Z_is st 503 then
        throw (Error "Codeforces API is temporarily unavailable")
      else if option_string_eqb code "ECONNABORTED" then
        throw (Error "Request timeout - Codeforces API is slow to respond")
      else if option_string_eqb code "ENOTFOUND" then
        throw (Error "Cannot connect to Codeforces API - check your internet connection")
      else
        throw (Error ("Failed to fetch data from Codeforces: " ++ msg)%string)
  | Error msg =>
      throw (Error ("Failed to fetch data from Codeforces: " ++ msg)%string)
  end.

Definition makeRequest {T} (api : nat -> string -> AxiosResult T) (endpoint : string) : M T :=
  tryCatch
    (delay REQUEST_DELAY ;;
     response <- axios_get api (BASE_URL ++ endpoint)%string ;;
     if negb (String.eqb (CodeforcesApiResponse.status response) "OK") then
       throw (Error ("Codeforces API error: "
                     ++ orString (CodeforcesApiResponse.comment response) "Unknown error")%string)
     else
       ret (CodeforcesApiResponse.result response))
    makeRequest_catch.

(** [makeRequest] from the point at which its timer has fired. *)
Definition makeRequest_fired {T} (api : nat -> string -> AxiosResult T) (endpoint : string)
  : M T :=
  tryCatch
    (response <- axios_get api (BASE_URL ++ endpoint)%string ;;
     if negb (String.eqb (CodeforcesApiResponse.status response) "OK") then
       throw (Error ("Codeforces API error: "
                     ++ orString (CodeforcesApiResponse.comment response) "Unknown error")%string)
     else
       ret (CodeforcesApiResponse.result response))
    makeRequest_catch.

Section Service.

Variable E : Env.

Definition getUserInfo (handle : string) : M CodeforcesUser.t :=
  users <- makeRequest (user_info (remote E)) ("/user.info?handles=" ++ handle)%string ;;
  match users with
  | None | Some [] => throw (Error ("User '" ++ handle ++ "' not found")%string)
  | Some (u :: _) => ret u
  end.

Definition getUserRatingChanges (handle : string) : M (list CodeforcesRatingChange.t) :=
  tryCatch
    (ratingChanges <- makeRequest (user_rating (remote E))
                                  ("/user.rating?handle=" ++ handle)%string ;;
     ret (orEmpty ratingChanges))
    (fun error =>
       if includes (message error) "not found" || includes (message error) "rating"
       then ret []
       else throw error).

Definition getUserSubmissions (handle : string) (from count : option Z)
  : M (list ISubmission.t) :=
  let endpoint := ("/user.status?handle=" ++ handle)%string in
  let endpoint :=
    match from with
    | Some f => (endpoint ++ "&from=" ++ string_of_Z f)%string
    | None => endpoint
    end in
  let endpoint :=
    match count with
    | Some c => (endpoint ++ "&count=" ++ string_of_Z c)%string
    | None => endpoint
    end in
  tryCatch
    (submissions <- makeRequest (user_status (remote E)) endpoint ;;
     ret (orEmpty submissions))
    (fun error =>
       if includes (message error) "not found" then ret [] else throw error).

Definition getContests (gym : option bool) : M (list IContest.t) :=
  let endpoint := "/contest.list" in
  let endpoint :=
    match gym with
    | Some g => (endpoint ++ "?gym=" ++ string_of_bool g)%string
    | None => endpoint
    end in
  contests <- makeRequest (contest_list (remote E)) endpoint ;;
  ret (orEmpty contests).

Definition validateHandle (handle : string) : M bool :=
  tryCatch (getUserInfo handle ;; ret true) (fun _ => ret false).

(** The three fetches from the point at which the timer of their
    [makeRequest] has fired. *)
Definition getUserInfo_fired (handle : string) : M CodeforcesUser.t :=
  users <- makeRequest_fired (user_info (remote E)) ("/user.info?handles=" ++ handle)%string ;;
  match users with
  | None | Some [] => throw (Error ("User '" ++ handle ++ "' not found")%string)
  | Some (u :: _) => ret u
  end.

Definition getUserRatingChanges_fired (handle : string) : M (list CodeforcesRatingChange.t) :=
  tryCatch
    (ratingChanges <- makeRequest_fired (user_rating (remote E))
                                        ("/user.rating?handle=" ++ handle)%string ;;
     ret (orEmpty ratingChanges))
    (fun error =>
       if includes (message error) "not found" || includes (message error) "rating"
       then ret []
       else throw error).

Definition getUserSubmissions_fired (handle : string) (from count : option Z)
  : M (list ISubmission.t) :=
  let endpoint := ("/user.status?handle=" ++ handle)%string in
  let endpoint :=
    match from with
    | Some f => (endpoint ++ "&from=" ++ string_of_Z f)%string
    | None => endpoint
    end in
  let endpoint :=
    match count with
    | Some c => (endpoint ++ "&count=" ++ string_of_Z c)%string
    | None => endpoint
    end in
  tryCatch
    (submissions <- makeRequest_fired (user_status (remote E)) endpoint ;;
     ret (orEmpty submissions))
    (fun error =>
       if includes (message error) "not found" then ret [] else throw error).

(** [Promise.allSettled] calls the three fetches one after the other; each
    runs up to the [await] of its timer, so the three timers are set before
    any of them fires.  They fire together, in the order in which they were
    set, and each fetch then sends its request: the three requests leave back
    to back, [REQUEST_DELAY] after the call.  The fetches share no state, so
    that each is settled here as soon as its request is sent. *)
Definition getUserStats (handle : string) : M UserStats.t :=
  setTimer REQUEST_DELAY ;;
  setTimer REQUEST_DELAY ;;
  setTimer REQUEST_DELAY ;;
  elapse REQUEST_DELAY ;;
  user <- settle (getUserInfo_fired handle) ;;
  ratingChanges <- settle (getUserRatingChanges_fired handle) ;;
  submissions <- settle (getUserSubmissions_fired handle (Some 1) (Some 1)) ;;
  let userData := match user with Ok v => Some v | Throw _ => None end in
  let ratingData := match ratingChanges with Ok v => v | Throw _ => [] end in
  match userData with
  | None => throw (Error ("User '" ++ handle ++ "' not found")%string)
  | Some userData =>
      totalSubmissions <-
        tryCatch (allSubmissions <- getUserSubmissions handle None None ;;
                  ret (List.length allSubmissions))
                 (fun _ => ret 0%nat) ;;
      ret (UserStats.mk userData ratingData totalSubmissions)
  end.

(** ** Persistence: the Mongoose models *)

(** One round trip to the database: it is numbered, and fails when the
    fault oracle says so. *)
Definition dbOp {A} (action : M A) : M A :=
  fun w =>
    let w' := with_dbOps (S (dbOps w)) w in
    match dbFault E (dbOps w) with
    | Some msg => (Throw (Error msg), w')
    | None => action w'
    end.

(** Update the first element that satisfies [p], as [updateOne] does. *)
Fixpoint updateFirst {A} (p : A -> bool) (f : A -> A) (l : list A) : list A :=
  match l with
  | [] => []
  | x :: rest => if p x then f x :: rest else x :: updateFirst p f rest
  end.

Definition hasId (id : string) (d : Student.t) : bool := String.eqb (Student._id d) id.

(** The error with which Mongoose rejects a query whose [_id] is not an
    ObjectId. *)
Definition CastError_ObjectId (value : string) : JsError :=
  Error ("Cast to ObjectId failed for value " ++ quoted value
         ++ " (type string) at path " ++ quoted "_id"
         ++ " for model " ++ quoted "Student")%string.

(** [Student.findById(id)]: the id is cast before the query is sent. *)
Definition Student_findById (id : string) : M (option IStudentDocument.t) :=
  if negb (isObjectId E id) then throw (CastError_ObjectId id)
  else
    dbOp (gets (fun w => option_map IStudentDocument.hydrate (find (hasId id) (students w)))).

(** [Student.findOne({ codeforcesHandle: handle })] *)
Definition Student_findOne (handle : string) : M (option IStudentDocument.t) :=
  dbOp (gets (fun w =>
    option_map IStudentDocument.hydrate
      (find (fun d => String.eqb (Student.codeforcesHandle d) handle) (students w)))).

(** [Student.find({})] *)
Definition Student_find_all : M (list IStudentDocument.t) :=
  dbOp (gets (fun w => map IStudentDocument.hydrate (students w))).

(** The filter [{ $or: [{ lastDataUpdate: null }, { lastDataUpdate: { $lt: t } }] }] *)
Definition isStale (thresholdTime : Z) (d : Student.t) : bool :=
  match Student.lastDataUpdate d with
  | None => true
  | Some t => t <? thresholdTime
  end.

(** The error with which Mongoose rejects a query that compares a date
    path with [new Date(NaN)]. *)
Definition CastError_Date : JsError :=
  Error ("Cast to date failed for value " ++ quoted "Invalid Date"
         ++ " (type Date) at path " ++ quoted "lastDataUpdate"
         ++ " for model " ++ quoted "Student")%string.

(** [Student.find] with the filter above; [thresholdTime] is [None] for an
    invalid date, which is refused before the query is sent. *)
Definition Student_find_stale (thresholdTime : option Z) : M (list IStudentDocument.t) :=
  match thresholdTime with
  | None => throw CastError_Date
  | Some thresholdTime =>
      dbOp (gets (fun w =>
        map IStudentDocument.hydrate (filter (isStale thresholdTime) (students w))))
  end.

(** [Student.updateOne({ _id: id }, update)] *)
Definition Student_updateOne (id : string) (update : StudentUpdate.t) : M unit :=
  dbOp (modify (fun w =>
    with_students (updateFirst (hasId id) (StudentUpdate.apply update) (students w)) w)).

(** [this.currentRating > this.maxRating], an unset number compared as [null]. *)
Definition js_gt (a b : option Z) : bool :=
  match a, b with
  | Some x, Some y => y <? x
  | Some x, None => 0 <? x
  | None, Some y => y <? 0
  | None, None => false
  end.

(** [StudentSchema.pre('save', ...)] (models/Student.ts) *)
Definition preSave (this : IStudentDocument.t) : IStudentDocument.t :=
  let currentRating := Student.currentRating (IStudentDocument.fields this) in
  let maxRating := Student.maxRating (IStudentDocument.fields this) in
  if truthy currentRating && (negb (truthy maxRating) || js_gt currentRating maxRating)
  then IStudentDocument.assign_maxRating currentRating this
  else this.

(** The [$set] that [save] sends: the modified paths with their values. *)
Definition writeModified (doc : IStudentDocument.t) (stored : Student.t) : Student.t :=
  let stored :=
    if IStudentDocument.isModified MaxRatingPath doc
    then Student.set_maxRating (Student.maxRating (IStudentDocument.fields doc)) stored
    else stored in
  if IStudentDocument.isModified LastDataUpdatePath doc
  then Student.set_lastDataUpdate (Student.lastDataUpdate (IStudentDocument.fields doc)) stored
  else stored.

(** The [ValidationError] of a document of the model [model]. *)
Definition ValidationErrorOf (model : string) (failures : list (string * string))
  : JsError :=
  Error (model ++ " validation failed: "
         ++ join ", " (map (fun failure => fst failure ++ ": " ++ snd failure) failures))%string.

(** The [ValidationError] that [save] rejects with. *)
Definition ValidationError (failures : list (string * string)) : JsError :=
  ValidationErrorOf "Student" failures.

(** [doc.save()] on a loaded document.  Mongoose first validates the
    document as it is held in memory; then the pre-save hook of the schema
    runs; then one operation goes to the database: the update that writes the
    modified paths to the stored document with the same [_id], or, when no
    path is modified, the query that checks that this document is still
    stored.  Either fails when the document is gone; the message of that
    error is cut short here. *)
Definition Student_save (doc : IStudentDocument.t) : M IStudentDocument.t :=
  match validateStudent (IStudentDocument.fields doc) with
  | failure :: failures => throw (ValidationError (failure :: failures))
  | [] =>
      let doc := preSave doc in
      let id := Student._id (IStudentDocument.fields doc) in
      dbOp (fun w =>
        if existsb (hasId id) (students w)
        then (Ok (IStudentDocument.hydrate (IStudentDocument.fields doc)),
              with_students (updateFirst (hasId id) (writeModified doc) (students w)) w)
        else (Throw (Error "No document found for query"), w))
  end.

Definition hasSubmissionId (id : Z) (d : Submission.t) : bool :=
  Submission.submissionId d =? id.

(** [Submission.exists({ submissionId: id })] *)
Definition Submission_exists (id : Z) : M bool :=
  dbOp (gets (fun w => existsb (hasSubmissionId id) (submissions w))).

(** [Submission.create(doc)]: the new document is validated first, and a
    document that the schema refuses is not sent to the database;
    [submissionId] carries a unique index. *)
Definition Submission_create (doc : Submission.t) : M unit :=
  match validateSubmission doc with
  | failure :: failures =>
      throw (ValidationErrorOf "Submission" (failure :: failures))
  | [] =>
      dbOp (fun w =>
        if existsb (hasSubmissionId (Submission.submissionId doc)) (submissions w)
        then (Throw (Error "E11000 duplicate key error"), w)
        else (Ok tt, with_submissions (submissions w ++ [doc]) w))
  end.

Definition hasRatingKey (handle : string) (contestId : Z) (d : RatingChange.t) : bool :=
  String.eqb (RatingChange.codeforcesHandle d) handle && (RatingChange.contestId d =? contestId).

(** [RatingChange.exists({ codeforcesHandle: handle, contestId })] *)
Definition RatingChange_exists (handle : string) (contestId : Z) : M bool :=
  dbOp (gets (fun w => existsb (hasRatingKey handle contestId) (ratingChanges w))).

(** [RatingChange.create(doc)]: validated first, as above; the pair
    (codeforcesHandle, contestId) carries a unique index. *)
Definition RatingChange_create (doc : RatingChange.t) : M unit :=
  match validateRatingChange doc with
  | failure :: failures =>
      throw (ValidationErrorOf "RatingChange" (failure :: failures))
  | [] =>
      dbOp (fun w =>
        if existsb (hasRatingKey (RatingChange.codeforcesHandle doc)
                      (RatingChange.contestId doc)) (ratingChanges w)
        then (Throw (Error "E11000 duplicate key error"), w)
        else (Ok tt, with_ratingChanges (ratingChanges w ++ [doc]) w))
  end.

Definition hasContestId (id : Z) (d : Contest.t) : bool := IContest.contestId d =? id.

(** The effect of [{ $set: c }] on a stored contest: a key that [c] lacks is
    left as it is. *)
Definition setContest (c : IContest.t) (stored : Contest.t) : Contest.t :=
  IContest.mk (IContest.contestId c) (IContest.contestName c) (IContest.phase c)
    (IContest.frozen c) (IContest.durationSeconds c) (IContest.startTimeSeconds c)
    (match IContest.relativeTimeSeconds c with
     | Some r => Some r
     | None => IContest.relativeTimeSeconds stored
     end).

(** [Contest.updateOne({ contestId: c.contestId }, c, { upsert: true })];
    the result is [res.upsertedCount]. *)
Definition Contest_upsert (c : IContest.t) : M nat :=
  dbOp (fun w =>
    if existsb (hasContestId (IContest.contestId c)) (contests w)
    then (Ok 0%nat,
          with_contests (updateFirst (hasContestId (IContest.contestId c)) (setContest c)
                                     (contests w)) w)
    else (Ok 1%nat, with_contests (contests w ++ [c]) w)).

(** ** DataSyncService (dataSyncService.ts) *)

Definition API_DELAY_MS : Z := 200.          (* declared; the code never reads it *)
Definition STUDENT_DELAY_MS : Z := 1000.

(** Download the global contest list once per sync round. *)
Definition syncContests : M nat :=
  tryCatch
    (contests <- getContests (Some false) ;;
     forOf contests
       (fun c inserted =>
          upsertedCount <- Contest_upsert c ;;
          ret (if (0 <? upsertedCount)%nat then S inserted else inserted))
       0%nat)
    (fun _ => ret 0%nat).

(** The document that [syncSubmissions] creates for a fetched submission. *)
Definition newSubmission (studentId handle : string) (s : ISubmission.t) : Submission.t :=
  Submission.mk studentId handle (ISubmission.id s) (ISubmission.contestId s)
    (ISubmission.creationTimeSeconds s) (ISubmission.relativeTimeSeconds s)
    (ISubmission.problem s) (ISubmission.author s) (ISubmission.programmingLanguage s)
    (ISubmission.verdict s) (ISubmission.testset s) (ISubmission.passedTestCount s)
    (ISubmission.timeConsumedMillis s) (ISubmission.memoryConsumedBytes s).

(** The body of the loop of [syncSubmissions]. *)
Definition syncSubmission (handle studentId : string) (s : ISubmission.t) (added : nat)
  : M nat :=
  exists_ <- Submission_exists (ISubmission.id s) ;;
  if exists_ : bool then ret added
  else (Submission_create (newSubmission studentId handle s) ;;
        ret (S added)).

(** Sync all submissions for a single handle. *)
Definition syncSubmissions (handle studentId : string) : M nat :=
  submissions <- getUserSubmissions handle None None ;;
  forOf submissions (syncSubmission handle studentId) 0%nat.

(** The document that [syncRatingChanges] creates for a fetched rating change. *)
Definition newRatingChange (studentId handle : string) (rc : CodeforcesRatingChange.t)
  : RatingChange.t :=
  RatingChange.mk studentId handle (CodeforcesRatingChange.contestId rc)
    (CodeforcesRatingChange.contestName rc) (CodeforcesRatingChange.handle rc)
    (CodeforcesRatingChange.rank rc) (CodeforcesRatingChange.ratingUpdateTimeSeconds rc)
    (CodeforcesRatingChange.oldRating rc) (CodeforcesRatingChange.newRating rc).

(** The body of the loop of [syncRatingChanges]. *)
Definition syncRatingChange (handle studentId : string) (rc : CodeforcesRatingChange.t)
  (added : nat) : M nat :=
  exists_ <- RatingChange_exists handle (CodeforcesRatingChange.contestId rc) ;;
  if exists_ : bool then ret added
  else (RatingChange_create (newRatingChange studentId handle rc) ;;
        ret (S added)).

(** Sync rating changes (contest history). *)
Definition syncRatingChanges (handle studentId : string)
  (changes : list CodeforcesRatingChange.t) : M nat :=
  forOf changes (syncRatingChange handle studentId) 0%nat.

(** Update current & max rating on the Student doc. *)
Definition updateStudentRatings (studentId : string) (user : CodeforcesUser.t) : M unit :=
  let update := StudentUpdate.mk (CodeforcesUser.rating user) (CodeforcesUser.maxRating user) in
  if (0 <? StudentUpdate.keys update)%nat
  then Student_updateOne studentId update
  else ret tt.

(** Syncs everything for a given handle (helper used by the public API). *)
Definition syncHandle (handle : string) (student : option IStudentDocument.t)
  : M SyncResult.t :=
  tryCatch
    (found <- match student with
              | Some s => ret (Some s)
              | None => Student_findOne handle
              end ;;
     match found with
     | None =>
         ret (SyncResult.mk false ("No student with handle " ++ handle)%string None None)
     | Some student =>
         valid <- validateHandle handle ;;
         if negb valid then
           ret (SyncResult.mk false ("Invalid handle '" ++ handle ++ "'")%string None None)
         else
           (stats <- getUserStats handle ;;
            let user := UserStats.user stats in
            let ratingChanges := UserStats.ratingChanges stats in
            let studentId := Student._id (IStudentDocument.fields student) in
            contestsAdded <- syncContests ;;
            submissionsAdded <- syncSubmissions handle studentId ;;
            ratingChangesAdded <- syncRatingChanges handle studentId ratingChanges ;;
            updateStudentRatings studentId user ;;
            date <- Date_now ;;
            let student := IStudentDocument.assign_lastDataUpdate (Some date) student in
            Student_save student ;;
            ret (SyncResult.mk true ("Synced '" ++ handle ++ "' successfully")%string
                   (Some (SyncSummary.mk submissionsAdded ratingChangesAdded contestsAdded
                            (CodeforcesUser.rating user) (CodeforcesUser.maxRating user)))
                   None))
     end)
    (fun err =>
       ret (SyncResult.mk false ("Sync failed for '" ++ handle ++ "'")%string None
              (Some (message err)))).

(** Sync a single student by Mongo ID. *)
Definition syncStudentData (studentId : string) : M SyncResult.t :=
  student <- Student_findById studentId ;;
  match student with
  | None => ret (SyncResult.mk false "Student not found" None None)
  | Some student =>
      syncHandle (Student.codeforcesHandle (IStudentDocument.fields student)) (Some student)
  end.

(** The local variables of the loop of [syncAllStudents]. *)
Record BatchAcc := mkBatchAcc {
  acc_results : list StudentSync.t;
  acc_successfulSyncs : nat;
  acc_failedSyncs : nat }.

(** The body of the loop of [syncAllStudents]. *)
Definition syncOneOfAll (student : IStudentDocument.t) (acc : BatchAcc) : M BatchAcc :=
  let doc := IStudentDocument.fields student in
  res <- syncHandle (Student.codeforcesHandle doc) (Some student) ;;
  let results :=
    acc_results acc ++ [StudentSync.mk (Student._id doc) (Student.codeforcesHandle doc) res] in
  let acc :=
    if SyncResult.success res
    then mkBatchAcc results (S (acc_successfulSyncs acc)) (acc_failedSyncs acc)
    else mkBatchAcc results (acc_successfulSyncs acc) (S (acc_failedSyncs acc)) in
  delay STUDENT_DELAY_MS ;;
  ret acc.

(** Sync all students in the database. *)
Definition syncAllStudents : M GlobalSyncStats.t :=
  students <- Student_find_all ;;
  acc <- forOf students syncOneOfAll (mkBatchAcc [] 0 0) ;;
  ret (GlobalSyncStats.mk (List.length students) (acc_successfulSyncs acc)
         (acc_failedSyncs acc) (acc_results acc)).

(** ** CronJobService (cronJobService.ts) *)

Definition update_status (f : CronJobStatus.t -> CronJobStatus.t) : M unit :=
  modify (fun w => with_jobStatus (f (jobStatus w)) w).

(** Calculate next run time.  The arithmetic on the schedule is the
    environment's [nextRunAfter]; the guard is the code's. *)
Definition calculateNextRun : M (option Z) :=
  gets (fun w =>
    match cronTask w with
    | None => None
    | Some _ =>
        if negb (CronJobStatus.enabled (jobStatus w)) then None
        else Some (nextRunAfter E (CronJobStatus.schedule (jobStatus w)) (now w))
    end).

(** Stop the running cron job. *)
Definition stopJob : M bool :=
  tryCatch
    (modify (fun w =>
       match cronTask w with
       | Some _ => with_cronTask None w
       | None => w
       end) ;;
     update_status (CronJobStatus.set_enabled false) ;;
     update_status (CronJobStatus.set_nextRun None) ;;
     ret true)
    (fun _ => ret false).

(** Start the cron job with the given configuration.  In the object literal
    that becomes [jobStatus], [calculateNextRun()] is evaluated before the
    assignment, on the status that [stopJob] left. *)
Definition startJob (config : CronJobConfig.t) : M bool :=
  tryCatch
    (stopJob ;;
     if negb (cron_validate E (CronJobConfig.schedule config)) then
       throw (Error ("Invalid cron schedule: " ++ CronJobConfig.schedule config)%string)
     else
       (modify (with_cronTask
                  (Some (ScheduledTask.mk (CronJobConfig.schedule config) (ExecuteSync true)
                                          (orString (CronJobConfig.timezone config) "UTC")))) ;;
        nextRun <- calculateNextRun ;;
        update_status (fun st =>
          CronJobStatus.set_nextRun nextRun
            (CronJobStatus.set_schedule (CronJobConfig.schedule config)
               (CronJobStatus.set_enabled true st))) ;;
        ret true))
    (fun _ =>
       update_status (CronJobStatus.set_enabled false) ;;
       ret false).

(** Get ALL students (for scheduled syncs). *)
Definition getAllStudents : M (list IStudentDocument.t) := Student_find_all.

(** [parseInt(process.env.SYNC_THRESHOLD_HOURS || '24')] *)
Definition hoursThreshold : JsInt :=
  match SYNC_THRESHOLD_HOURS E with
  | Some h => h
  | None => Int 24
  end.

(** [new Date(now - hours * 60 * 60 * 1000)]: an invalid date when [hours] is
    [NaN]. *)
Definition hoursBefore (hours : JsInt) (now : Z) : option Z :=
  match hours with
  | Int h => Some (now - h * 60 * 60 * 1000)
  | NaN => None
  end.

(** Get students that need data updates (for manual syncs). *)
Definition getStudentsNeedingUpdate : M (list IStudentDocument.t) :=
  date <- Date_now ;;
  let thresholdTime := hoursBefore hoursThreshold date in
  Student_find_stale thresholdTime.

(** The local variables of the loop of [executeSync]. *)
Record CronAcc := mkCronAcc {
  acc_processed : nat;
  acc_errors : nat }.

(** The body of the loop of [executeSync]. *)
Definition executeSyncOne (student : IStudentDocument.t) (acc : CronAcc) : M CronAcc :=
  tryCatch
    (result <- syncStudentData (Student._id (IStudentDocument.fields student)) ;;
     let acc :=
       if SyncResult.success result
       then mkCronAcc (S (acc_processed acc)) (acc_errors acc)
       else mkCronAcc (acc_processed acc) (S (acc_errors acc)) in
     delay 1000 ;;
     ret acc)
    (fun _ => ret (mkCronAcc (acc_processed acc) (S (acc_errors acc)))).

Definition set_lastResult (success : bool) (studentsProcessed errors : nat) (startTime : Z)
  : M unit :=
  date <- Date_now ;;
  update_status (CronJobStatus.set_lastResult
    (Some (LastResult.mk success studentsProcessed errors (date - startTime)))).

(** The [try] block of [executeSync]. *)
Definition executeSync_try (forceAll : bool) (startTime : Z) : M unit :=
  studentsNeedingUpdate <-
    (if forceAll then getAllStudents else getStudentsNeedingUpdate) ;;
  match studentsNeedingUpdate with
  | [] => set_lastResult true 0 0 startTime
  | _ :: _ =>
      acc <- forOf studentsNeedingUpdate executeSyncOne (mkCronAcc 0 0) ;;
      set_lastResult (acc_errors acc =? 0)%nat (acc_processed acc) (acc_errors acc)
                     startTime
  end.

(** The [catch] block of [executeSync]. *)
Definition executeSync_catch (startTime : Z) (error : JsError) : M unit :=
  set_lastResult false 0 1 startTime.

(** The [finally] block of [executeSync]. *)
Definition executeSync_finally : M unit :=
  update_status (CronJobStatus.set_isRunning false) ;;
  nextRun <- calculateNextRun ;;
  update_status (CronJobStatus.set_nextRun nextRun).

(** Execute the data synchronization job. *)
Definition executeSync (forceAll : bool) : M unit :=
  isRunning <- gets (fun w => CronJobStatus.isRunning (jobStatus w)) ;;
  if isRunning : bool then ret tt
  else
    (startTime <- Date_now ;;
     update_status (CronJobStatus.set_isRunning true) ;;
     date <- Date_now ;;
     update_status (CronJobStatus.set_lastRun (Some date)) ;;
     tryFinally
       (tryCatch (executeSync_try forceAll startTime) (executeSync_catch startTime))
       executeSync_finally).

(** What node-cron does when the schedule fires: it calls the callback of the
    registered task. *)
Definition cronTick : M unit :=
  task <- gets cronTask ;;
  match task with
  | Some t => match ScheduledTask.callback t with ExecuteSync forceAll => executeSync forceAll end
  | None => ret tt
  end.

(** Trigger manual sync (bypass schedule) - uses threshold logic. *)
Definition triggerManualSync : M bool :=
  tryCatch (executeSync false ;; ret true) (fun _ => ret false).

End Service.

(** ** DataSyncService.getSyncStats (dataSyncService.ts) *)

Module LastSync.
Record t := mk {
  studentId : string;
  handle : string;
  lastUpdate : option Z }.
End LastSync.

Module SyncStats.
Record t := mk {
  totalStudents : nat;
  studentsWithData : nat;
  studentsNeedingUpdate : nat;
  totalSubmissions : nat;
  totalRatingChanges : nat;
  lastSyncTimes : list LastSync.t }.
End SyncStats.

(** [Promise.all] of two settled promises: both values, or the rejection of
    the first of them that rejected. *)
Definition both {A B} (a : Outcome A) (b : Outcome B) : Outcome (A * B) :=
  match a, b with
  | Ok x, Ok y => Ok (x, y)
  | Throw e, _ => Throw e
  | Ok _, Throw e => Throw e
  end.

(** [await] of a promise that has settled. *)
Definition await {A} (r : Outcome A) : M A := fun w => (r, w).

(** [Model.countDocuments(filter)] on the students. *)
Definition Student_countDocuments (E : Env) (filter_ : Student.t -> bool) : M nat :=
  dbOp E (gets (fun w => List.length (filter filter_ (students w)))).

(** [Submission.countDocuments({})] and [RatingChange.countDocuments({})] *)
Definition Submission_countDocuments (E : Env) : M nat :=
  dbOp E (gets (fun w => List.length (submissions w))).

Definition RatingChange_countDocuments (E : Env) : M nat :=
  dbOp E (gets (fun w => List.length (ratingChanges w))).

(** [Student.find({}, { _id: 1, codeforcesHandle: 1, lastDataUpdate: 1 }).lean()]
    followed by the [map] that builds [lastSyncTimes]. *)
Definition lastSyncTime (student : Student.t) : LastSync.t :=
  LastSync.mk (Student._id student) (Student.codeforcesHandle student)
    (Student.lastDataUpdate student).

Definition Student_find_lean (E : Env) : M (list Student.t) :=
  dbOp E (gets students).

(** The filter [{ lastDataUpdate: { $ne: null } }] *)
Definition hasData (d : Student.t) : bool :=
  match Student.lastDataUpdate d with
  | Some _ => true
  | None => false
  end.

(** Get sync statistics.  The six queries of [Promise.all] are all issued,
    in the order of the array, before the first result is looked at. *)
Definition getSyncStats (E : Env) : M SyncStats.t :=
  date <- Date_now ;;
  let oneDayAgo := date - 24 * 60 * 60 * 1000 in
  p1 <- settle (Student_countDocuments E (fun _ => true)) ;;
  p2 <- settle (Student_countDocuments E hasData) ;;
  p3 <- settle (Student_countDocuments E (isStale oneDayAgo)) ;;
  p4 <- settle (Submission_countDocuments E) ;;
  p5 <- settle (RatingChange_countDocuments E) ;;
  p6 <- settle (Student_find_lean E) ;;
  all <- await (both p1 (both p2 (both p3 (both p4 (both p5 p6))))) ;;
  match all with
  | (totalStudents, (studentsWithData, (studentsNeedingUpdate,
      (totalSubmissions, (totalRatingChanges, students))))) =>
      let lastSyncTimes := map lastSyncTime students in
      ret (SyncStats.mk totalStudents studentsWithData studentsNeedingUpdate
             totalSubmissions totalRatingChanges lastSyncTimes)
  end.

(** ** CronJobService: configuration and status (cronJobService.ts) *)

(** The variables of [process.env] that the code reads besides
    [SYNC_THRESHOLD_HOURS]; [None] when a variable is unset. *)
Record ProcessEnv := mkProcessEnv {
  CRON_SCHEDULE : option string;
  CRON_ENABLED : option string;
  CRON_TIMEZONE : option string;
  NODE_ENV : option string }.

(** The initial value of the static field [jobStatus]. *)
Definition initialJobStatus (P : ProcessEnv) : CronJobStatus.t :=
  CronJobStatus.mk false None None None (orString (CRON_SCHEDULE P) "0 2 * * *") false.

(** Get current job status. *)
Definition getStatus (E : Env) : M CronJobStatus.t :=
  status <- gets jobStatus ;;
  nextRun <- calculateNextRun E ;;
  ret (CronJobStatus.set_nextRun nextRun status).

(** Update cron job configuration. *)
Definition updateConfig (E : Env) (config : CronJobConfig.t) : M bool :=
  tryCatch
    (if CronJobConfig.enabled config then startJob E config else stopJob)
    (fun _ => ret false).

(** Initialize and start the cron job system. *)
Definition initialize (E : Env) (P : ProcessEnv) : M unit :=
  let config :=
    CronJobConfig.mk (orString (CRON_SCHEDULE P) "0 2 * * *")
      (negb (option_string_eqb (CRON_ENABLED P) "false"))
      (Some (orString (CRON_TIMEZONE P) "UTC")) in
  update_status (CronJobStatus.set_schedule (CronJobConfig.schedule config)) ;;
  update_status (CronJobStatus.set_enabled (CronJobConfig.enabled config)) ;;
  if CronJobConfig.enabled config then (startJob E config ;; ret tt) else ret tt.

(** ** The HTTP layer (utils/responseHandler.ts and the controllers) *)

(** The [data] of a reply, one constructor per type that the controllers
    below send. *)
Inductive ResponseData :=
| NoData
| HandleData (valid : bool) (userInfo : CodeforcesUser.t)
| SummaryData (data : option SyncSummary.t)
| BatchData (result : GlobalSyncStats.t)
| StatusData (status : CronJobStatus.t).

(** [ApiResponse<T>] (types/models.ts) *)
Module ApiResponse.
Record t := mk {
  success : bool;
  message : string;
  data : ResponseData;
  error : option string }.
End ApiResponse.

(** One reply sent on express's [res]: [res.status(statusCode).json(body)]. *)
Module Response.
Record t := mk {
  statusCode : Z;
  body : ApiResponse.t }.
End Response.

(** A controller is run for the replies it sends on [res], in order. *)
Definition sendSuccess (data : ResponseData) (message : string) (statusCode : Z)
  : list Response.t :=
  [Response.mk statusCode (ApiResponse.mk true message data None)].

Definition sendError (P : ProcessEnv) (message : string) (statusCode : Z)
  (error : option string) : list Response.t :=
  [Response.mk statusCode
     (ApiResponse.mk false message NoData
        (if option_string_eqb (NODE_ENV P) "development" then error else None))].

(** controllers/codeforcesController.ts *)
Module CodeforcesController.

(** Validate a Codeforces handle. *)
Definition validateHandle (E : Env) (P : ProcessEnv) (handle : string)
  : M (list Response.t) :=
  tryCatch
    (if String.eqb handle EmptyString then
       ret (sendError P "Handle is required" 400 None)
     else
       (isValid <- validateHandle E handle ;;
        if negb isValid then
          ret (sendError P ("Codeforces handle '" ++ handle ++ "' not found")%string 404 None)
        else
          (userInfo <- getUserInfo E handle ;;
           ret (sendSuccess (HandleData true userInfo) "Handle is valid" 200))))
    (fun error => ret (sendError P "Failed to validate handle" 500 (Some (message error)))).

(** Force sync student data (immediate sync without waiting for cron). *)
Definition forceSyncStudent (E : Env) (P : ProcessEnv) (id : string)
  : M (list Response.t) :=
  tryCatch
    (student <- Student_findById E id ;;
     match student with
     | None => ret (sendError P "Student not found" 404 None)
     | Some student =>
         result <- syncStudentData E id ;;
         if SyncResult.success result then
           ret (sendSuccess (SummaryData (SyncResult.data result))
                  ("Force sync completed for "
                   ++ Student.codeforcesHandle (IStudentDocument.fields student))%string 200)
         else
           ret (sendError P (SyncResult.message result) 400 (SyncResult.error result))
     end)
    (fun error =>
       ret (sendError P "Failed to force sync student data" 500 (Some (message error)))).

(** Sync data for a specific student. *)
Definition syncStudentData (E : Env) (P : ProcessEnv) (id : string)
  : M (list Response.t) :=
  tryCatch
    (result <- syncStudentData E id ;;
     if SyncResult.success result then
       ret (sendSuccess (SummaryData (SyncResult.data result)) (SyncResult.message result) 200)
     else
       ret (sendError P (SyncResult.message result) 400 (SyncResult.error result)))
    (fun error => ret (sendError P "Failed to sync student data" 500 (Some (message error)))).

(** Sync data for all students. *)
Definition syncAllStudents (E : Env) (P : ProcessEnv) : M (list Response.t) :=
  tryCatch
    (result <- syncAllStudents E ;;
     ret (sendSuccess (BatchData result)
            ("Sync completed: "
             ++ string_of_Z (Z.of_nat (GlobalSyncStats.successfulSyncs result)) ++ "/"
             ++ string_of_Z (Z.of_nat (GlobalSyncStats.totalStudents result))
             ++ " successful")%string 200))
    (fun error => ret (sendError P "Failed to sync all students" 500 (Some (message error)))).

End CodeforcesController.

(** The body of a request to the cron routes, for the bodies whose [schedule]
    and [timezone] are strings when they are present: [None] stands for an
    absent key, and for an [enabled] that is not a boolean. *)
Module CronRequestBody.
Record t := mk {
  schedule : option string;
  enabled : option bool;
  timezone : option string }.
End CronRequestBody.

(** controllers/cronJobController.ts *)
Module CronJobController.

(** Start cron job. *)
Definition startJob (E : Env) (P : ProcessEnv) (body : CronRequestBody.t)
  : M (list Response.t) :=
  tryCatch
    (let config :=
       CronJobConfig.mk
         (orString (CronRequestBody.schedule body) (orString (CRON_SCHEDULE P) "0 2 * * *"))
         true
         (Some (orString (CronRequestBody.timezone body) "UTC")) in
     success <- startJob E config ;;
     if success : bool then
       (status <- getStatus E ;;
        ret (sendSuccess (StatusData status) "Cron job started successfully" 200))
     else
       ret (sendError P "Failed to start cron job" 400 None))
    (fun error => ret (sendError P "Failed to start cron job" 500 (Some (message error)))).

(** Stop cron job. *)
Definition stopJob (E : Env) (P : ProcessEnv) : M (list Response.t) :=
  tryCatch
    (success <- stopJob ;;
     if success : bool then
       (status <- getStatus E ;;
        ret (sendSuccess (StatusData status) "Cron job stopped successfully" 200))
     else
       ret (sendError P "Failed to stop cron job" 400 None))
    (fun error => ret (sendError P "Failed to stop cron job" 500 (Some (message error)))).

(** Update cron job configuration. *)
Definition updateConfig (E : Env) (P : ProcessEnv) (body : CronRequestBody.t)
  : M (list Response.t) :=
  tryCatch
    (match CronRequestBody.schedule body, CronRequestBody.enabled body with
     | Some schedule, Some enabled =>
         if String.eqb schedule EmptyString then
           ret (sendError P "Schedule and enabled status are required" 400 None)
         else
           (let config :=
              CronJobConfig.mk schedule enabled
                (Some (orString (CronRequestBody.timezone body) "UTC")) in
            success <- updateConfig E config ;;
            if success : bool then
              (status <- getStatus E ;;
               ret (sendSuccess (StatusData status)
                      "Cron job configuration updated successfully" 200))
            else
              ret (sendError P "Failed to update cron job configuration" 400 None))
     | _, _ => ret (sendError P "Schedule and enabled status are required" 400 None)
     end)
    (fun error =>
       ret (sendError P "Failed to update cron job configuration" 500
              (Some (message error)))).

(** Trigger manual sync. *)
Definition triggerManualSync (E : Env) (P : ProcessEnv) : M (list Response.t) :=
  tryCatch
    (success <- triggerManualSync E ;;
     if success : bool then
       (status <- getStatus E ;;
        ret (sendSuccess (StatusData status) "Manual sync triggered successfully" 200))
     else
       ret (sendError P "Failed to trigger manual sync" 400 None))
    (fun error =>
       ret (sendError P "Failed to trigger manual sync" 500 (Some (message error)))).

(** Get cron job status. *)
Definition getStatus (E : Env) (P : ProcessEnv) : M (list Response.t) :=
  tryCatch
    (status <- getStatus E ;;
     ret (sendSuccess (StatusData status) "Cron job status retrieved successfully" 200))
    (fun error =>
       ret (sendError P "Failed to get cron job status" 500 (Some (message error)))).

End CronJobController.

(** ** The statistics of [getProblemStats] (controllers/codeforcesController.ts)

    The part of the endpoint that is integer arithmetic on the submissions
    it has loaded: the accepted ones, the distinct problems among them, the
    hardest rating and the rating buckets. *)

(** [submissions.filter(sub => sub.verdict === 'OK')] *)
Definition acceptedSubmissions (submissions : list Submission.t) : list Submission.t :=
  filter (fun sub => String.eqb (Submission.verdict sub) "OK") submissions.

(** The template [`${sub.problem.contestId}-${sub.problem.index}`] *)
Definition problemKey (sub : Submission.t) : string :=
  ((match Problem.contestId (Submission.problem sub) with
    | Some c => string_of_Z c
    | None => "undefined"
    end) ++ "-" ++ Problem.index (Submission.problem sub))%string.

(** [new Set(acceptedSubmissions.map(...)).size] *)
Definition uniqueProblemsSolved (accepted : list Submission.t) : nat :=
  List.length (nodup string_dec (map problemKey accepted)).

(** [acceptedSubmissions.filter(sub => sub.problem.rating).map(sub => sub.problem.rating)] *)
Definition ratingsOfSolved (accepted : list Submission.t) : list Z :=
  map (fun sub => match Problem.rating (Submission.problem sub) with
                  | Some r => r
                  | None => 0
                  end)
      (filter (fun sub => truthy (Problem.rating (Submission.problem sub))) accepted).

(** [ratingsOfSolved.length > 0 ? Math.max(...ratingsOfSolved) : 0] *)
Definition mostDifficultRating (ratingsOfSolved : list Z) : Z :=
  match ratingsOfSolved with
  | [] => 0
  | r :: rest => fold_left Z.max rest r
  end.

(** The object [ratingBuckets], its keys in the order of the literal. *)
Definition emptyBuckets : list (string * nat) :=
  [("800-1000", 0%nat); ("1100-1300", 0%nat); ("1400-1600", 0%nat); ("1700-1900", 0%nat);
   ("2000-2200", 0%nat); ("2300+", 0%nat); ("Unrated", 0%nat)].

(** [buckets[key]++] on a key of the object. *)
Fixpoint increment (key : string) (buckets : list (string * nat)) : list (string * nat) :=
  match buckets with
  | [] => []
  | (k, n) :: rest =>
      if String.eqb k key then (k, S n) :: rest else (k, n) :: increment key rest
  end.

(** The chain of comparisons in the body of the [forEach]. *)
Definition bucketOf (rating : option Z) : string :=
  if negb (truthy rating) then "Unrated"
  else match rating with
       | None => "Unrated"
       | Some rating =>
           if rating <=? 1000 then "800-1000"
           else if rating <=? 1300 then "1100-1300"
           else if rating <=? 1600 then "1400-1600"
           else if rating <=? 1900 then "1700-1900"
           else if rating <=? 2200 then "2000-2200"
           else "2300+"
       end.

Definition ratingBuckets (accepted : list Submission.t) : list (string * nat) :=
  fold_left (fun buckets sub =>
               increment (bucketOf (Problem.rating (Submission.problem sub))) buckets)
            accepted emptyBuckets.

(** ** Sample data *)

Definition sampleUser (handle : string) (rating maxRating : option Z) : CodeforcesUser.t :=
  CodeforcesUser.mk handle None None None None None None None None None None
    rating None maxRating None None None None None.

Definition sampleSubmission (id : Z) : ISubmission.t :=
  ISubmission.mk id (Some 1500) 1700000000 120
    (Problem.mk (Some 1500) "A" "Watermelon" "PROGRAMMING" (Some 800) ["math"])
    (Author.mk (Some 1500) ["tourist"] "CONTESTANT" false None)
    "GNU C++17" "OK" "TESTS" 20 15 0.

(** A submission whose verdict is empty. *)
Definition unjudgedSubmission (id : Z) : ISubmission.t :=
  ISubmission.mk id (Some 1500) 1700000000 120
    (Problem.mk (Some 1500) "A" "Watermelon" "PROGRAMMING" (Some 800) ["math"])
    (Author.mk (Some 1500) ["tourist"] "CONTESTANT" false None)
    "GNU C++17" EmptyString "TESTS" 20 15 0.

Definition sampleRatingChange (contestId : Z) : CodeforcesRatingChange.t :=
  CodeforcesRatingChange.mk contestId "Round" "tourist" 1 1700000000 1500 1600.

Definition sampleContest (contestId : Z) : IContest.t :=
  IContest.mk contestId "Round" "FINISHED" false 7200 1700000000 None.

Definition sampleStudent (id handle : string) (currentRating maxRating lastDataUpdate : option Z)
  : Student.t :=
  Student.mk id "Gennady" "g@example.com" "15550100" handle
    currentRating maxRating lastDataUpdate true 0.

Definition respond {T} (result : T) : AxiosResult (option T) :=
  Resolved (CodeforcesApiResponse.mk "OK" (Some result) None).

(** A remote that always answers with the same data. *)
Definition steadyRemote (users : list CodeforcesUser.t)
  (ratings : list CodeforcesRatingChange.t) (subs : list ISubmission.t)
  (cons : list IContest.t) : Remote :=
  mkRemote (fun _ _ => respond users) (fun _ _ => respond ratings)
           (fun _ _ => respond subs) (fun _ _ => respond cons).

Definition sampleEnv (r : Remote) : Env :=
  mkEnv r (fun _ => None) (fun _ => true) (fun _ => true) (fun _ t => t + 3600000) None.

Definition idleStatus : CronJobStatus.t :=
  CronJobStatus.mk false None None None "0 2 * * *" false.

Definition sampleWorld (students : list Student.t) (now : Z) : World :=
  mkWorld students [] [] [] 0 0 now [] None idleStatus.

(** A remote whose lists repeat a record, and a store that already holds one
    of the fetched submissions (synced earlier for a team mate). *)
Definition busyRemote : Remote :=
  steadyRemote [sampleUser "tourist" (Some 1600) (Some 1700)]
    [sampleRatingChange 1; sampleRatingChange 2; sampleRatingChange 1]
    [sampleSubmission 10; sampleSubmission 11; sampleSubmission 10]
    [sampleContest 1].

Definition busyWorld : World :=
  with_submissions [newSubmission "s0" "petr1" (sampleSubmission 11)]
    (sampleWorld [sampleStudent "s1" "tourist" (Some 1500) None None] 1000).

(** A remote that does not know the handle [petr1]. *)
Definition pickyRemote : Remote :=
  mkRemote
    (fun _ url =>
       if includes url "petr1"
       then Resolved (CodeforcesApiResponse.mk "FAILED" None
                        (Some "handles: User with handle petr1 not found"))
       else respond [sampleUser "tourist" (Some 1600) (Some 1700)])
    (fun _ _ => respond []) (fun _ _ => respond []) (fun _ _ => respond []).

(** The strings that every version of the driver casts to an ObjectId:
    24 hexadecimal digits. *)
Definition isHexDigit (c : ascii) : bool :=
  inRange "0" "9" c || inRange "a" "f" c || inRange "A" "F" c.

Definition is24Hex (s : string) : bool :=
  (String.length s =? 24)%nat && forallb isHexDigit (list_ascii_of_string s).

(** An environment that casts these strings only.  [sampleEnv] casts every
    string: the short ids of the samples stand for ObjectIds. *)
Definition strictEnv (r : Remote) : Env :=
  mkEnv r (fun _ => None) is24Hex (fun _ => true) (fun _ t => t + 3600000) None.

(** An environment whose database fails on its first operation. *)
Definition brokenEnv : Env :=
  mkEnv busyRemote
    (fun n => match n with O => Some "connection closed" | S _ => None end)
    (fun _ => true) (fun _ => true) (fun _ t => t + 3600000) None.

(** ** Vocabulary of the specification *)

(** The fault oracle lets every database operation through. *)
Definition DbHealthy (E : Env) : Prop := forall n, dbFault E n = None.

(** What [makeRequest] turns the answer of the remote into: the result, or the
    error it throws. *)
Definition fetched {T} (answer : AxiosResult T) : Outcome T :=
  match answer with
  | Resolved data =>
      if negb (String.eqb (CodeforcesApiResponse.status data) "OK") then
        Throw (Error ("Failed to fetch data from Codeforces: "
                      ++ ("Codeforces API error: "
                          ++ orString (CodeforcesApiResponse.comment data) "Unknown error"))%string)
      else Ok (CodeforcesApiResponse.result data)
  | Rejected st code msg =>
      if option_Z_is st 400 then
        Throw (Error "Invalid request parameters")
      else if option_Z_is st 503 then
        Throw (Error "Codeforces API is temporarily unavailable")
      else if option_string_eqb code "ECONNABORTED" then
        Throw (Error "Request timeout - Codeforces API is slow to respond")
      else if option_string_eqb code "ENOTFOUND" then
        Throw (Error "Cannot connect to Codeforces API - check your internet connection")
      else
        Throw (Error ("Failed to fetch data from Codeforces: " ++ msg)%string)
  end.

(** The world after one [makeRequest] to [url]. *)
Definition sent (url : string) (w : World) : World :=
  with_requests (S (requests w))
    (with_trace ((trace w ++ [EvDelay REQUEST_DELAY]) ++ [EvRequest url])
       (with_now (now w + REQUEST_DELAY) w)).

(** The world after the request to [url] of a [makeRequest] whose timer has
    fired. *)
Definition requested (url : string) (w : World) : World :=
  with_requests (S (requests w)) (with_trace (trace w ++ [EvRequest url]) w).

(** What [makeRequest] calls that wait together add to the trace: their
    timers are set one after the other and, once these have fired, their
    requests are sent in the same order.  A call on its own is a round of
    one. *)
Definition round (urls : list string) : list Event :=
  map (fun _ => EvDelay REQUEST_DELAY) urls ++ map EvRequest urls.

(** A stretch of the trace that consists of [n] such rounds: every request
    is behind a timer of [REQUEST_DELAY] of its own. *)
Inductive PacedRequests : nat -> list Event -> Prop :=
| Paced_nil : PacedRequests 0 []
| Paced_cons urls n rest :
    urls <> [] ->
    PacedRequests n rest ->
    PacedRequests (S n) (round urls ++ rest).

(** The requests of the [Promise.allSettled] of [getUserStats]. *)
Definition statsUrls (handle : string) : list string :=
  [ (BASE_URL ++ "/user.info?handles=" ++ handle)%string;
    (BASE_URL ++ "/user.rating?handle=" ++ handle)%string;
    (BASE_URL ++ "/user.status?handle=" ++ handle ++ "&from=1&count=1")%string ].

(** The world after that [Promise.allSettled]. *)
Definition settled (handle : string) (w : World) : World :=
  with_requests (3 + requests w)
    (with_trace (trace w ++ round (statsUrls handle))
       (with_now (now w + REQUEST_DELAY) w)).

(** The records that a deduplicating pass over [l] inserts: those whose key
    is carried neither by a stored document nor by a record inserted before. *)
Fixpoint reconcile {R D} (present : R -> D -> bool) (new : R -> D)
  (l : list R) (store : list D) : list R :=
  match l with
  | [] => []
  | r :: rest =>
      if existsb (present r) store then reconcile present new rest store
      else r :: reconcile present new rest (store ++ [new r])
  end.

(** What "insert a fetched record if and only if its key is not stored yet"
    comes to for a whole pass: the store grew, at its end, by the documents of
    the records [inserted]; these are fetched records whose key was not
    stored, every fetched key that was not stored is among theirs, and no key
    was inserted twice.  [added] is their number. *)
Definition Reconciled {R D K} (keyR : R -> K) (keyD : D -> K) (new : R -> D)
  (fetched : list R) (store store' : list D) (added : nat) : Prop :=
  exists inserted,
    store' = store ++ map new inserted
    /\ added = List.length inserted
    /\ (forall r, In r inserted -> In r fetched /\ ~ In (keyR r) (map keyD store))
    /\ (forall r, In r fetched -> ~ In (keyR r) (map keyD store) ->
                  In (keyR r) (map keyR inserted))
    /\ NoDup (map keyR inserted).

(** The dedup key of a stored rating change and of a fetched one. *)
Definition ratingKeyOfDoc (d : RatingChange.t) : string * Z :=
  (RatingChange.codeforcesHandle d, RatingChange.contestId d).

Definition ratingKey (handle : string) (rc : CodeforcesRatingChange.t) : string * Z :=
  (handle, CodeforcesRatingChange.contestId rc).


(** A computation that never throws. *)
Definition total {A} (m : M A) : Prop := forall w, exists a, fst (m w) = Ok a.

(** A computation that leaves the world related by [R] to the one it started in. *)
Definition preserves (R : World -> World -> Prop) {A} (m : M A) : Prop :=
  forall w, R w (snd (m w)).

(** The relation "the component [f] of the world is unchanged". *)
Definition keeps {X} (f : World -> X) : World -> World -> Prop :=
  fun w w' => f w' = f w.

(** A stretch of the trace that starts with the check of [handle] against
    the remote: the timer and the request of [validateHandle]. *)
Definition startsWithCheck (handle : string) (seg : list Event) : Prop :=
  exists rest,
    seg = round [(BASE_URL ++ "/user.info?handles=" ++ handle)%string] ++ rest.

(** The relation "the trace grew by rounds of paced requests, and the clock
    by [REQUEST_DELAY] for each round". *)
Definition pacedExtension : World -> World -> Prop :=
  fun w w' =>
    exists n seg,
      trace w' = trace w ++ seg /\ PacedRequests n seg
      /\ now w' = now w + REQUEST_DELAY * Z.of_nat n.

(** A batch run from [w], student by student: the sync of each student
    starts in the world that the syncs of the students before it and the
    delays behind them have left, and gives the result of that student's
    entry; [w'] is the world after the delay behind the last one. *)
Inductive batchRuns (E : Env) : list Student.t -> World -> list StudentSync.t -> World -> Prop :=
| batch_nil w : batchRuns E [] w [] w
| batch_cons d rest w res w1 entries w' :
    syncHandle E (Student.codeforcesHandle d) (Some (IStudentDocument.hydrate d)) w
    = (Ok res, w1) ->
    batchRuns E rest (snd (delay STUDENT_DELAY_MS w1)) entries w' ->
    batchRuns E (d :: rest) w
      (StudentSync.mk (Student._id d) (Student.codeforcesHandle d) res :: entries) w'.

(** The world in which the [try] block of [executeSync] starts: the job is
    flagged as running and the start of the run is recorded. *)
Definition started (w : World) : World :=
  with_jobStatus
    (CronJobStatus.set_lastRun (Some (now w))
       (CronJobStatus.set_isRunning true (jobStatus w))) w.

(** The time before which a last update counts as stale, at the time of
    [w]; none when the threshold of the environment is not a number. *)
Definition thresholdTime (E : Env) (w : World) : option Z :=
  hoursBefore (hoursThreshold E) (now w).

(** The students that a run of [executeSync] started in [w] asks for: all of
    them when forced, the stale ones otherwise; none when the query cannot be
    built. *)
Definition selection (E : Env) (forceAll : bool) (w : World) : option (list Student.t) :=
  if forceAll then Some (students w)
  else option_map (fun t => filter (isStale t) (students w)) (thresholdTime E w).

(** The loop of [executeSync] from [w], student by student:
    [syncStudentData] is called with the id of each selected student, in
    order, in the world that the calls before it have left.  A call that
    returns is followed by a delay of 1000 ms; a call that throws is not.
    Each call is recorded with the world in which it starts and its outcome;
    [w'] is the world after the last. *)
Inductive syncedInTurn (E : Env)
  : list string -> World -> list (World * Outcome SyncResult.t) -> World -> Prop :=
| turn_nil w : syncedInTurn E [] w [] w
| turn_returns id ids w res w1 runs w' :
    syncStudentData E id w = (Ok res, w1) ->
    syncedInTurn E ids (snd (delay 1000 w1)) runs w' ->
    syncedInTurn E (id :: ids) w ((w, Ok res) :: runs) w'
| turn_throws id ids w e w1 runs w' :
    syncStudentData E id w = (Throw e, w1) ->
    syncedInTurn E ids w1 runs w' ->
    syncedInTurn E (id :: ids) w ((w, Throw e) :: runs) w'.

(** A call of the loop that counts as processed: it returned a result that
    reports success. *)
Definition reportsSuccess (run : World * Outcome SyncResult.t) : bool :=
  match snd run with
  | Ok res => SyncResult.success res
  | Throw _ => false
  end.

(** The [lastResult] of a run that started at [startTime], made the calls
    [runs] and ended its loop in [w]. *)
Definition summary (startTime : Z) (runs : list (World * Outcome SyncResult.t)) (w : World)
  : LastResult.t :=
  let errors := List.length (filter (fun run => negb (reportsSuccess run)) runs) in
  LastResult.mk (errors =? 0)%nat (List.length (filter reportsSuccess runs)) errors
    (now w - startTime).

(** The world in which a run ends: its result is recorded in the world [w]
    that its [try] or [catch] block has left, and the [finally] block has
    run. *)
Definition finished (E : Env) (result : LastResult.t) (w : World) : World :=
  snd (executeSync_finally E
         (with_jobStatus (CronJobStatus.set_lastResult (Some result) (jobStatus w)) w)).

(** The outcome of [getUserInfo handle] when its request is the [n]-th. *)
Definition profile (E : Env) (n : nat) (handle : string) : Outcome CodeforcesUser.t :=
  match fetched (user_info (remote E) n
                   (BASE_URL ++ "/user.info?handles=" ++ handle)%string) with
  | Ok (Some (u :: _)) => Ok u
  | Ok _ => Throw (Error ("User '" ++ handle ++ "' not found")%string)
  | Throw e => Throw e
  end.

(** The outcome of [getUserSubmissions handle] when its request is the [n]-th. *)
Definition submissionsFetch (E : Env) (n : nat) (handle : string)
  : Outcome (list ISubmission.t) :=
  match fetched (user_status (remote E) n
                   (BASE_URL ++ "/user.status?handle=" ++ handle)%string) with
  | Ok l => Ok (orEmpty l)
  | Throw e => if includes (message e) "not found" then Ok [] else Throw e
  end.





(** The relation "the students, submissions and rating changes are unchanged". *)
Definition sameRecords : World -> World -> Prop :=
  fun w w' =>
    students w' = students w /\ submissions w' = submissions w
    /\ ratingChanges w' = ratingChanges w.

(** A per-student entry of a batch run that reports success. *)
Definition succeeded (r : StudentSync.t) : bool :=
  SyncResult.success (StudentSync.result r).

(** The relation "the stored contests keep their ids, in order, and the ids
    added at the end repeat neither a stored id nor each other". *)
Definition contestsExtended (w w' : World) : Prop :=
  exists added,
    map IContest.contestId (contests w') = map IContest.contestId (contests w) ++ added
    /\ NoDup added
    /\ forall id, In id added -> ~ In id (map IContest.contestId (contests w)).

(** The relation "the stored submissions and rating changes are still there,
    as they were, and new ones were added behind them". *)
Definition recordsExtended (w w' : World) : Prop :=
  (exists added, submissions w' = submissions w ++ added)
  /\ (exists added, ratingChanges w' = ratingChanges w ++ added).

(** What the unique indexes of the schemas stand for: no two stored
    submissions, rating changes or contests carry the same key. *)
Definition keysDistinct (w : World) : Prop :=
  NoDup (map Submission.submissionId (submissions w))
  /\ NoDup (map ratingKeyOfDoc (ratingChanges w))
  /\ NoDup (map IContest.contestId (contests w)).

(** [d'] has the id, the name, the e-mail address, the phone number, the
    handle, the notification setting and the reminder count of [d]: of the
    paths of the schema, only the ratings and the last update may differ. *)
Definition ratingsOnly (d d' : Student.t) : Prop :=
  d' = Student.mk (Student._id d) (Student.name d) (Student.email d)
         (Student.phoneNumber d) (Student.codeforcesHandle d)
         (Student.currentRating d') (Student.maxRating d') (Student.lastDataUpdate d')
         (Student.emailNotificationsEnabled d) (Student.reminderEmailCount d).

(** The relation "the same students are stored, in the same order; the
    students selected by [touched] kept every path but their ratings and
    their last update, the others kept these as well". *)
Definition studentsKept (touched : string -> Prop) (w w' : World) : Prop :=
  Forall2 (fun d d' => ratingsOnly d d' /\ (~ touched (Student._id d) -> d' = d))
          (students w) (students w').

(** The relation "if the keys were distinct, they still are". *)
Definition keysKept (w w' : World) : Prop := keysDistinct w -> keysDistinct w'.

(** The time stamps of the stored students, in order. *)
Definition stamps (w : World) : list (option Z) :=
  map Student.lastDataUpdate (students w).

(** What a run of a sync from [w] may do to the stamps: change them only if
    it reports success. *)
Definition stampedOnlyOnSuccess (w : World) (run : Outcome SyncResult.t * World) : Prop :=
  match fst run with
  | Ok res => SyncResult.success res = true \/ stamps (snd run) = stamps w
  | Throw _ => stamps (snd run) = stamps w
  end.

(** The world after [stopJob]: no task is registered, the job is disabled and
    has no next run. *)
Definition stopped (w : World) : World :=
  with_jobStatus
    (CronJobStatus.set_nextRun None (CronJobStatus.set_enabled false (jobStatus w)))
    (with_cronTask None w).

(** The static fields of [CronJobService] agree with each other: a task is
    registered exactly when the status says [enabled]; the registered task
    runs the status's schedule, which node-cron accepts, and syncs all
    students; without a task there is no next run. *)
Definition cronConsistent (E : Env) (w : World) : Prop :=
  match cronTask w with
  | Some task =>
      CronJobStatus.enabled (jobStatus w) = true
      /\ ScheduledTask.expression task = CronJobStatus.schedule (jobStatus w)
      /\ ScheduledTask.callback task = ExecuteSync true
      /\ cron_validate E (ScheduledTask.expression task) = true
  | None =>
      CronJobStatus.enabled (jobStatus w) = false
      /\ CronJobStatus.nextRun (jobStatus w) = None
  end.

(** What [calculateNextRun] returns in [w]. *)
Definition nextRunOf (E : Env) (w : World) : option Z :=
  match cronTask w with
  | None => None
  | Some _ =>
      if CronJobStatus.enabled (jobStatus w)
      then Some (nextRunAfter E (CronJobStatus.schedule (jobStatus w)) (now w))
      else None
  end.

(** [buckets[key]] *)
Definition bucketCount (key : string) (buckets : list (string * nat)) : nat :=
  match find (fun entry => String.eqb (fst entry) key) buckets with
  | Some (_, n) => n
  | None => 0%nat
  end.

(** * Properties *)

(** ** The JavaScript helpers on examples *)

Example includes_inside :
  includes "User 'tourist' not found" "not found" = true.
Proof. reflexivity. Qed.

Example includes_absent :
  includes "Codeforces API is temporarily unavailable" "rating" = false.
Proof. reflexivity. Qed.

Example includes_empty s : includes s EmptyString = true.
Proof. destruct s; reflexivity. Qed.

Example endpoint_with_range :
  ("/user.status?handle=" ++ "tourist" ++ "&from=" ++ string_of_Z 1
     ++ "&count=" ++ string_of_Z 10)%string
  = "/user.status?handle=tourist&from=1&count=10".
Proof. reflexivity. Qed.

Example truthy_zero : truthy (Some 0) = false /\ truthy None = false /\ truthy (Some 5) = true.
Proof. repeat split. Qed.

(** ** The monad *)

Lemma bind_Ok {A B} (m : M A) (k : A -> M B) w a w' :
  m w = (Ok a, w') -> bind m k w = k a w'.
Proof. intros H. unfold bind. rewrite H. reflexivity. Qed.

Lemma bind_Throw {A B} (m : M A) (k : A -> M B) w e w' :
  m w = (Throw e, w') -> bind m k w = (Throw e, w').
Proof. intros H. unfold bind. rewrite H. reflexivity. Qed.

Lemma tryCatch_bind_Ok {A B} (m : M A) (k : A -> M B) (h : JsError -> M B) w a w' :
  m w = (Ok a, w') -> tryCatch (bind m k) h w = tryCatch (k a) h w'.
Proof. intros H. unfold tryCatch, bind. rewrite H. reflexivity. Qed.

Lemma total_ret {A} (a : A) : total (ret a).
Proof. intros w. exists a. reflexivity. Qed.

Lemma total_tryCatch {A} (m : M A) (h : JsError -> M A) :
  (forall e, total (h e)) -> total (tryCatch m h).
Proof.
  intros Hh w. unfold tryCatch. destruct (m w) as [[a | e] w'].
  - exists a. reflexivity.
  - apply Hh.
Qed.

(** ** Frame rules: what a computation leaves related *)

Section Frame.

Variable R : World -> World -> Prop.
Hypothesis R_refl : forall w, R w w.
Hypothesis R_trans : forall a b c, R a b -> R b c -> R a c.

Lemma preserves_ret {A} (a : A) : preserves R (ret a).
Proof. intros w. apply R_refl. Qed.

Lemma preserves_throw {A} e : preserves R (@throw A e).
Proof. intros w. apply R_refl. Qed.

Lemma preserves_gets {A} (f : World -> A) : preserves R (gets f).
Proof. intros w. apply R_refl. Qed.

Lemma preserves_bind {A B} (m : M A) (k : A -> M B) :
  preserves R m -> (forall a, preserves R (k a)) -> preserves R (bind m k).
Proof.
  intros Hm Hk w. unfold bind. specialize (Hm w).
  destruct (m w) as [[a | e] w']; simpl in *.
  - apply R_trans with w'; [exact Hm | apply Hk].
  - exact Hm.
Qed.

Lemma preserves_tryCatch {A} (m : M A) (h : JsError -> M A) :
  preserves R m -> (forall e, preserves R (h e)) -> preserves R (tryCatch m h).
Proof.
  intros Hm Hh w. unfold tryCatch. specialize (Hm w).
  destruct (m w) as [[a | e] w']; simpl in *.
  - exact Hm.
  - apply R_trans with w'; [exact Hm | apply Hh].
Qed.

Lemma preserves_settle {A} (m : M A) : preserves R m -> preserves R (settle m).
Proof.
  intros Hm w. unfold settle. specialize (Hm w).
  destruct (m w) as [r w']. exact Hm.
Qed.

Lemma preserves_forOf {A S} (body : A -> S -> M S) (l : list A) :
  (forall x acc, preserves R (body x acc)) -> forall acc, preserves R (forOf l body acc).
Proof.
  intros Hb. induction l as [| x rest IH]; intros acc; simpl.
  - apply preserves_ret.
  - apply preserves_bind; [apply Hb | exact IH].
Qed.

End Frame.

(** ** The remote client *)

Lemma makeRequest_run {T} (api : nat -> string -> AxiosResult T) endpoint w :
  makeRequest api endpoint w
  = (fetched (api (requests w) (BASE_URL ++ endpoint)%string),
     sent (BASE_URL ++ endpoint)%string w).
Proof.
  unfold makeRequest, tryCatch, bind, delay, modify, axios_get. cbn [requests with_now with_trace].
  destruct (api (requests w) (BASE_URL ++ endpoint)%string) as [data | st code msg];
    cbn [fetched makeRequest_catch].
  - destruct (negb (CodeforcesApiResponse.status data =? "OK")%string); reflexivity.
  - destruct (option_Z_is st 400); [reflexivity |].
    destruct (option_Z_is st 503); [reflexivity |].
    destruct (option_string_eqb code "ECONNABORTED"); [reflexivity |].
    destruct (option_string_eqb code "ENOTFOUND"); reflexivity.
Qed.

Lemma makeRequest_fired_run {T} (api : nat -> string -> AxiosResult T) endpoint w :
  makeRequest_fired api endpoint w
  = (fetched (api (requests w) (BASE_URL ++ endpoint)%string),
     requested (BASE_URL ++ endpoint)%string w).
Proof.
  unfold makeRequest_fired, tryCatch, bind, axios_get.
  destruct (api (requests w) (BASE_URL ++ endpoint)%string) as [data | st code msg];
    cbn [fetched makeRequest_catch].
  - destruct (negb (CodeforcesApiResponse.status data =? "OK")%string); reflexivity.
  - destruct (option_Z_is st 400); [reflexivity |].
    destruct (option_Z_is st 503); [reflexivity |].
    destruct (option_string_eqb code "ECONNABORTED"); [reflexivity |].
    destruct (option_string_eqb code "ENOTFOUND"); reflexivity.
Qed.

(** A call is its timer followed by what it does once the timer has fired. *)
Lemma delay_halves ms : delay ms = (setTimer ms ;; elapse ms).
Proof. reflexivity. Qed.

Lemma makeRequest_after_timer {T} (api : nat -> string -> AxiosResult T) endpoint w :
  makeRequest api endpoint w = makeRequest_fired api endpoint (snd (delay REQUEST_DELAY w)).
Proof. rewrite makeRequest_run, makeRequest_fired_run. reflexivity. Qed.

Lemma getUserInfo_after_timer E handle w :
  getUserInfo E handle w = getUserInfo_fired E handle (snd (delay REQUEST_DELAY w)).
Proof.
  unfold getUserInfo, getUserInfo_fired, bind. rewrite makeRequest_after_timer. reflexivity.
Qed.

Lemma getUserRatingChanges_after_timer E handle w :
  getUserRatingChanges E handle w
  = getUserRatingChanges_fired E handle (snd (delay REQUEST_DELAY w)).
Proof.
  unfold getUserRatingChanges, getUserRatingChanges_fired, tryCatch, bind.
  rewrite makeRequest_after_timer. reflexivity.
Qed.

Lemma getUserSubmissions_after_timer E handle from count w :
  getUserSubmissions E handle from count w
  = getUserSubmissions_fired E handle from count (snd (delay REQUEST_DELAY w)).
Proof.
  unfold getUserSubmissions, getUserSubmissions_fired, tryCatch, bind.
  rewrite makeRequest_after_timer. reflexivity.
Qed.

(** Descend through the structure of a computation; [leaf] closes the calls. *)
Ltac frame_with leaf :=
  repeat (intros;
    first
      [ leaf
      | apply preserves_ret; assumption
      | apply preserves_throw; assumption
      | apply preserves_gets; assumption
      | apply preserves_settle
      | apply preserves_bind; [assumption | | ]
      | apply preserves_tryCatch; [assumption | | ]
      | apply preserves_forOf; [assumption | assumption | ]
      | match goal with
        | |- preserves _ (match ?x with _ => _ end) => destruct x
        end ]).

Section ServiceFrame.

Variable E : Env.
Variable R : World -> World -> Prop.
Hypothesis R_refl : forall w, R w w.
Hypothesis R_trans : forall a b c, R a b -> R b c -> R a c.
Hypothesis R_sent : forall url w, R w (sent url w).
Hypothesis R_dbOps : forall w, R w (with_dbOps (S (dbOps w)) w).
Hypothesis R_contests : forall l w, R w (with_contests l w).
Hypothesis R_submissions : forall l w, R w (with_submissions l w).
Hypothesis R_ratingChanges : forall l w, R w (with_ratingChanges l w).
Hypothesis R_students : forall l w, R w (with_students l w).
Hypothesis R_timer : forall ms w, R w (snd (delay ms w)).
Hypothesis R_stats : forall handle, preserves R (getUserStats E handle).

Lemma makeRequest_preserves {T} (api : nat -> string -> AxiosResult T) endpoint :
  preserves R (makeRequest api endpoint).
Proof. intros w. rewrite makeRequest_run. apply R_sent. Qed.

Lemma getUserInfo_preserves handle : preserves R (getUserInfo E handle).
Proof. unfold getUserInfo. frame_with ltac:(apply makeRequest_preserves). Qed.

Lemma getUserSubmissions_preserves handle from count :
  preserves R (getUserSubmissions E handle from count).
Proof. unfold getUserSubmissions. frame_with ltac:(apply makeRequest_preserves). Qed.

Lemma getContests_preserves gym : preserves R (getContests E gym).
Proof. unfold getContests. frame_with ltac:(apply makeRequest_preserves). Qed.

Lemma validateHandle_preserves handle : preserves R (validateHandle E handle).
Proof. unfold validateHandle. frame_with ltac:(apply getUserInfo_preserves). Qed.

Lemma dbOp_preserves {A} (action : M A) :
  preserves R action -> preserves R (dbOp E action).
Proof.
  intros Ha w. unfold dbOp. destruct (dbFault E (dbOps w)); simpl.
  - apply R_dbOps.
  - apply R_trans with (with_dbOps (S (dbOps w)) w); [apply R_dbOps | apply Ha].
Qed.

Lemma Contest_upsert_preserves c : preserves R (Contest_upsert E c).
Proof.
  unfold Contest_upsert. apply dbOp_preserves. intros w.
  destruct (existsb _ _); simpl; apply R_contests.
Qed.

Lemma syncContests_preserves : preserves R (syncContests E).
Proof.
  unfold syncContests.
  frame_with ltac:(first [ apply getContests_preserves | apply Contest_upsert_preserves ]).
Qed.

Lemma Submission_exists_preserves id : preserves R (Submission_exists E id).
Proof. apply dbOp_preserves, preserves_gets; assumption. Qed.

Lemma Submission_create_preserves doc : preserves R (Submission_create E doc).
Proof.
  unfold Submission_create.
  destruct (validateSubmission doc); [| intros w; apply R_refl].
  apply dbOp_preserves. intros w. destruct (existsb _ _); simpl;
    [apply R_refl | apply R_submissions].
Qed.

Lemma syncSubmission_preserves handle studentId s added :
  preserves R (syncSubmission E handle studentId s added).
Proof.
  unfold syncSubmission.
  frame_with ltac:(first [ apply Submission_exists_preserves
                         | apply Submission_create_preserves ]).
Qed.

Lemma syncSubmissions_preserves handle studentId :
  preserves R (syncSubmissions E handle studentId).
Proof.
  unfold syncSubmissions.
  frame_with ltac:(first [ apply getUserSubmissions_preserves
                         | apply syncSubmission_preserves ]).
Qed.

Lemma RatingChange_exists_preserves handle cid : preserves R (RatingChange_exists E handle cid).
Proof. apply dbOp_preserves, preserves_gets; assumption. Qed.

Lemma RatingChange_create_preserves doc : preserves R (RatingChange_create E doc).
Proof.
  unfold RatingChange_create.
  destruct (validateRatingChange doc); [| intros w; apply R_refl].
  apply dbOp_preserves. intros w. destruct (existsb _ _); simpl;
    [apply R_refl | apply R_ratingChanges].
Qed.

Lemma syncRatingChange_preserves handle studentId rc added :
  preserves R (syncRatingChange E handle studentId rc added).
Proof.
  unfold syncRatingChange.
  frame_with ltac:(first [ apply RatingChange_exists_preserves
                         | apply RatingChange_create_preserves ]).
Qed.

Lemma syncRatingChanges_preserves handle studentId changes :
  preserves R (syncRatingChanges E handle studentId changes).
Proof. unfold syncRatingChanges. frame_with ltac:(apply syncRatingChange_preserves). Qed.

Lemma Student_lookup_preserves {A} (f : World -> A) : preserves R (dbOp E (gets f)).
Proof. apply dbOp_preserves, preserves_gets; assumption. Qed.

Lemma Student_updateOne_preserves id update : preserves R (Student_updateOne E id update).
Proof. apply dbOp_preserves. intros w. simpl. apply R_students. Qed.

Lemma updateStudentRatings_preserves id user : preserves R (updateStudentRatings E id user).
Proof. unfold updateStudentRatings. frame_with ltac:(apply Student_updateOne_preserves). Qed.

Lemma Student_save_preserves doc : preserves R (Student_save E doc).
Proof.
  unfold Student_save. destruct (validateStudent (IStudentDocument.fields doc)).
  - apply dbOp_preserves. intros w. destruct (existsb _ _); simpl;
      [apply R_students | apply R_refl].
  - apply preserves_throw; assumption.
Qed.

Lemma syncHandle_preserves handle student : preserves R (syncHandle E handle student).
Proof.
  unfold syncHandle, Student_findOne, Date_now.
  frame_with ltac:(first [ apply Student_lookup_preserves
                         | apply validateHandle_preserves
                         | apply R_stats
                         | apply syncContests_preserves
                         | apply syncSubmissions_preserves
                         | apply syncRatingChanges_preserves
                         | apply updateStudentRatings_preserves
                         | apply Student_save_preserves ]).
Qed.

(** With the student given, a sync starts with the check of the handle and
    goes on from the world that this check leaves. *)
Lemma syncHandle_after_validation handle student w valid w1 :
  validateHandle E handle w = (Ok valid, w1) ->
  R w1 (snd (syncHandle E handle (Some student) w)).
Proof.
  intros Hvalid. unfold syncHandle.
  rewrite (tryCatch_bind_Ok _ _ _ w (Some student) w eq_refl). cbv beta iota.
  rewrite (tryCatch_bind_Ok _ _ _ w valid w1 Hvalid).
  match goal with
  | |- R w1 (snd (?m w1)) => assert (Hrest : preserves R m); [| apply Hrest]
  end.
  unfold Date_now.
  frame_with ltac:(first [ apply R_stats
                         | apply syncContests_preserves
                         | apply syncSubmissions_preserves
                         | apply syncRatingChanges_preserves
                         | apply updateStudentRatings_preserves
                         | apply Student_save_preserves ]).
Qed.

Lemma Student_findById_preserves id : preserves R (Student_findById E id).
Proof.
  unfold Student_findById. destruct (negb (isObjectId E id)).
  - apply preserves_throw; assumption.
  - apply Student_lookup_preserves.
Qed.

Lemma syncStudentData_preserves studentId : preserves R (syncStudentData E studentId).
Proof.
  unfold syncStudentData.
  frame_with ltac:(first [ apply Student_findById_preserves | apply syncHandle_preserves ]).
Qed.

Lemma delay_preserves ms : preserves R (delay ms).
Proof. intros w. apply R_timer. Qed.

Lemma executeSyncOne_preserves student acc : preserves R (executeSyncOne E student acc).
Proof.
  unfold executeSyncOne.
  frame_with ltac:(first [ apply syncStudentData_preserves | apply delay_preserves ]).
Qed.

End ServiceFrame.

(** The same for [getUserStats], whose calls wait together. *)
Section StatsFrame.

Variable E : Env.
Variable R : World -> World -> Prop.
Hypothesis R_refl : forall w, R w w.
Hypothesis R_trans : forall a b c, R a b -> R b c -> R a c.
Hypothesis R_sent : forall url w, R w (sent url w).
Hypothesis R_setTimer : forall ms w, R w (snd (setTimer ms w)).
Hypothesis R_elapse : forall ms w, R w (snd (elapse ms w)).
Hypothesis R_requested : forall url w, R w (requested url w).

Lemma makeRequest_fired_preserves {T} (api : nat -> string -> AxiosResult T) endpoint :
  preserves R (makeRequest_fired api endpoint).
Proof. intros w. rewrite makeRequest_fired_run. apply R_requested. Qed.

Lemma getUserInfo_fired_preserves handle : preserves R (getUserInfo_fired E handle).
Proof. unfold getUserInfo_fired. frame_with ltac:(apply makeRequest_fired_preserves). Qed.

Lemma getUserRatingChanges_fired_preserves handle :
  preserves R (getUserRatingChanges_fired E handle).
Proof.
  unfold getUserRatingChanges_fired. frame_with ltac:(apply makeRequest_fired_preserves).
Qed.

Lemma getUserSubmissions_fired_preserves handle from count :
  preserves R (getUserSubmissions_fired E handle from count).
Proof.
  unfold getUserSubmissions_fired. frame_with ltac:(apply makeRequest_fired_preserves).
Qed.

Lemma setTimer_preserves ms : preserves R (setTimer ms).
Proof. intros w. apply R_setTimer. Qed.

Lemma elapse_preserves ms : preserves R (elapse ms).
Proof. intros w. apply R_elapse. Qed.

Lemma getUserStats_preserves handle : preserves R (getUserStats E handle).
Proof.
  unfold getUserStats.
  frame_with ltac:(first [ apply setTimer_preserves
                         | apply elapse_preserves
                         | apply getUserInfo_fired_preserves
                         | apply getUserRatingChanges_fired_preserves
                         | apply getUserSubmissions_fired_preserves
                         | apply getUserSubmissions_preserves; assumption ]).
Qed.

End StatsFrame.

(** ** Instances of the frame rules *)

Lemma keeps_refl {X} (f : World -> X) w : keeps f w w.
Proof. reflexivity. Qed.

Lemma keeps_trans {X} (f : World -> X) a b c : keeps f a b -> keeps f b c -> keeps f a c.
Proof. unfold keeps. intros H1 H2. rewrite H2. exact H1. Qed.

(** A relation that reads neither the trace, nor the clock, nor the count of
    the requests is kept by [getUserStats]. *)
Ltac stats_frame :=
  intros; apply getUserStats_preserves; try (intros; reflexivity).

(** ** The fetches of [getUserStats] *)

Lemma string_app_assoc (a b c : string) : ((a ++ b) ++ c = a ++ b ++ c)%string.
Proof. induction a as [| x a IH]; simpl; [reflexivity | rewrite IH; reflexivity]. Qed.

Lemma getUserInfo_fired_run E handle w :
  getUserInfo_fired E handle w
  = (profile E (requests w) handle,
     requested (BASE_URL ++ "/user.info?handles=" ++ handle)%string w).
Proof.
  unfold getUserInfo_fired, bind, profile. rewrite makeRequest_fired_run.
  destruct (fetched _) as [[[| u rest] |] | e]; reflexivity.
Qed.

Lemma getUserRatingChanges_fired_world E handle w :
  snd (getUserRatingChanges_fired E handle w)
  = requested (BASE_URL ++ "/user.rating?handle=" ++ handle)%string w.
Proof.
  unfold getUserRatingChanges_fired, tryCatch, bind. rewrite makeRequest_fired_run.
  destruct (fetched _) as [l | e]; [reflexivity |].
  destruct (_ || _); reflexivity.
Qed.

Lemma getUserSubmissions_fired_world E handle w :
  snd (getUserSubmissions_fired E handle (Some 1) (Some 1) w)
  = requested (BASE_URL ++ "/user.status?handle=" ++ handle ++ "&from=1&count=1")%string w.
Proof.
  assert (Hurl : ((("/user.status?handle=" ++ handle) ++ "&from=" ++ string_of_Z 1)
                  ++ "&count=" ++ string_of_Z 1
                  = "/user.status?handle=" ++ handle ++ "&from=1&count=1")%string).
  { change (string_of_Z 1) with "1". rewrite !string_app_assoc. reflexivity. }
  unfold getUserSubmissions_fired, tryCatch, bind. rewrite makeRequest_fired_run, Hurl.
  destruct (fetched _) as [l | e]; [reflexivity |].
  destruct (includes (message e) "not found"); reflexivity.
Qed.

Lemma getUserSubmissions_world E handle from count w :
  exists url, snd (getUserSubmissions E handle from count w) = sent url w.
Proof.
  unfold getUserSubmissions, tryCatch, bind. rewrite makeRequest_run.
  eexists. destruct (fetched _) as [l | e]; [reflexivity |].
  destruct (includes (message e) "not found"); reflexivity.
Qed.

Lemma World_ext (a b : World) :
  students a = students b -> contests a = contests b -> submissions a = submissions b ->
  ratingChanges a = ratingChanges b -> dbOps a = dbOps b -> requests a = requests b ->
  now a = now b -> trace a = trace b -> cronTask a = cronTask b ->
  jobStatus a = jobStatus b -> a = b.
Proof. destruct a, b. simpl. intros. subst. reflexivity. Qed.

Lemma bind_unit (m : M unit) {B} (k : unit -> M B) w :
  fst (m w) = Ok tt -> bind m k w = k tt (snd (m w)).
Proof. unfold bind. destruct (m w) as [[[] | e] w']; simpl; [reflexivity | discriminate]. Qed.

Lemma bind_settle {A B} (m : M A) (k : Outcome A -> M B) w :
  bind (settle m) k w = k (fst (m w)) (snd (m w)).
Proof. unfold bind, settle. destruct (m w); reflexivity. Qed.

Lemma settled_requested handle w :
  requested (BASE_URL ++ "/user.status?handle=" ++ handle ++ "&from=1&count=1")%string
    (requested (BASE_URL ++ "/user.rating?handle=" ++ handle)%string
       (requested (BASE_URL ++ "/user.info?handles=" ++ handle)%string
          (snd (elapse REQUEST_DELAY
             (snd (setTimer REQUEST_DELAY
                (snd (setTimer REQUEST_DELAY (snd (setTimer REQUEST_DELAY w))))))))))
  = settled handle w.
Proof.
  apply World_ext; try reflexivity.
  unfold settled, round, statsUrls.
  lazy [trace requested with_requests with_trace with_now elapse setTimer modify snd].
  cbn [map]. rewrite <- !app_assoc. reflexivity.
Qed.

(** [getUserStats] fails exactly when its profile fetch does, after the three
    requests that leave together; otherwise it returns that profile after a
    fourth request, which has a timer to itself. *)
Lemma getUserStats_exact E handle w :
  match profile E (requests w) handle with
  | Ok user =>
      exists ratingData count url,
        getUserStats E handle w
        = (Ok (UserStats.mk user ratingData count), sent url (settled handle w))
  | Throw _ =>
      getUserStats E handle w
      = (Throw (Error ("User '" ++ handle ++ "' not found")%string), settled handle w)
  end.
Proof.
  unfold getUserStats.
  rewrite 3 (bind_unit (setTimer REQUEST_DELAY)), (bind_unit (elapse REQUEST_DELAY));
    try reflexivity.
  rewrite bind_settle, getUserInfo_fired_run. cbn [fst snd].
  rewrite bind_settle, getUserRatingChanges_fired_world.
  rewrite bind_settle, getUserSubmissions_fired_world.
  rewrite settled_requested.
  change (requests (snd (elapse REQUEST_DELAY
            (snd (setTimer REQUEST_DELAY
               (snd (setTimer REQUEST_DELAY (snd (setTimer REQUEST_DELAY w)))))))))
    with (requests w).
  destruct (profile E (requests w) handle) as [user | e].
  - unfold tryCatch, bind.
    destruct (getUserSubmissions_world E handle None None (settled handle w)) as [url Hurl].
    destruct (getUserSubmissions E handle None None (settled handle w)) as [ra w4].
    simpl in Hurl. subst w4.
    destruct ra as [all | e]; eexists; eexists; eexists; reflexivity.
  - reflexivity.
Qed.

(** ** Pacing *)

Lemma PacedRequests_app n a m b :
  PacedRequests n a -> PacedRequests m b -> PacedRequests (n + m) (a ++ b).
Proof.
  intros Ha Hb. induction Ha as [| urls n rest Hurls Ha IH]; simpl.
  - exact Hb.
  - rewrite <- app_assoc. constructor; assumption.
Qed.

Lemma PacedRequests_round urls : urls <> [] -> PacedRequests 1 (round urls).
Proof.
  intros H. rewrite <- (app_nil_r (round urls)). constructor; [exact H | constructor].
Qed.

Lemma pacedExtension_refl w : pacedExtension w w.
Proof.
  exists 0%nat, []. split; [symmetry; apply app_nil_r |]. split; [constructor |].
  simpl. lia.
Qed.

Lemma pacedExtension_trans a b c :
  pacedExtension a b -> pacedExtension b c -> pacedExtension a c.
Proof.
  intros [n1 [s1 [E1 [P1 T1]]]] [n2 [s2 [E2 [P2 T2]]]].
  exists (n1 + n2)%nat, (s1 ++ s2). split; [| split].
  - rewrite E2, E1. symmetry. apply app_assoc.
  - apply PacedRequests_app; assumption.
  - rewrite T2, T1. lia.
Qed.

Lemma pacedExtension_sent url w : pacedExtension w (sent url w).
Proof.
  exists 1%nat, (round [url]). split; [| split].
  - simpl. rewrite <- app_assoc. reflexivity.
  - apply PacedRequests_round. discriminate.
  - simpl. unfold REQUEST_DELAY. lia.
Qed.

Lemma pacedExtension_same w w' :
  trace w' = trace w -> now w' = now w -> pacedExtension w w'.
Proof.
  intros Ht Hn. exists 0%nat, []. split; [rewrite Ht; symmetry; apply app_nil_r |].
  split; [constructor | rewrite Hn; simpl; lia].
Qed.

Lemma pacedExtension_settled handle w : pacedExtension w (settled handle w).
Proof.
  exists 1%nat, (round (statsUrls handle)). split; [reflexivity |].
  split; [apply PacedRequests_round; discriminate | simpl; unfold REQUEST_DELAY; lia].
Qed.

(** The three fetches of [getUserStats] are one round, its fourth another. *)
Lemma getUserStats_paced E handle : preserves pacedExtension (getUserStats E handle).
Proof.
  intros w. pose proof (getUserStats_exact E handle w) as H.
  destruct (profile E (requests w) handle) as [user | e].
  - destruct H as [ratingData [count [url H]]]. rewrite H. simpl.
    apply pacedExtension_trans with (settled handle w);
      [apply pacedExtension_settled | apply pacedExtension_sent].
  - rewrite H. apply pacedExtension_settled.
Qed.

Lemma getUserInfo_run E handle w :
  getUserInfo E handle w
  = (profile E (requests w) handle,
     sent (BASE_URL ++ "/user.info?handles=" ++ handle)%string w).
Proof.
  unfold getUserInfo, bind, profile. rewrite makeRequest_run.
  destruct (fetched _) as [[[| u rest] |] | e]; reflexivity.
Qed.

Lemma validateHandle_run E handle w :
  validateHandle E handle w
  = (Ok (match profile E (requests w) handle with Ok _ => true | Throw _ => false end),
     sent (BASE_URL ++ "/user.info?handles=" ++ handle)%string w).
Proof.
  unfold validateHandle, tryCatch, bind. rewrite getUserInfo_run.
  destruct (profile E (requests w) handle); reflexivity.
Qed.

(** A sync of one handle only adds rounds of paced requests to the trace. *)
Lemma syncHandle_paced E handle student :
  preserves pacedExtension (syncHandle E handle student).
Proof.
  apply syncHandle_preserves.
  - apply pacedExtension_refl.
  - apply pacedExtension_trans.
  - apply pacedExtension_sent.
  - intros w. apply pacedExtension_same; reflexivity.
  - intros l w. apply pacedExtension_same; reflexivity.
  - intros l w. apply pacedExtension_same; reflexivity.
  - intros l w. apply pacedExtension_same; reflexivity.
  - intros l w. apply pacedExtension_same; reflexivity.
  - apply getUserStats_paced.
Qed.

(** [syncHandle] catches whatever is thrown inside it. *)
Lemma syncHandle_total E handle student : total (syncHandle E handle student).
Proof.
  unfold syncHandle. apply total_tryCatch. intros e. apply total_ret.
Qed.

(** ** The batch run *)

Lemma filter_split_length {A} (p : A -> bool) (l : list A) :
  (List.length (filter p l) + List.length (filter (fun x => negb (p x)) l))%nat
  = List.length l.
Proof.
  induction l as [| x rest IH]; simpl; [reflexivity |].
  destruct (p x); simpl; lia.
Qed.

(** The request that checks the handle of a student. *)
Lemma syncHandle_checks_handle E handle student w :
  exists res w1 n rest,
    syncHandle E handle (Some student) w = (Ok res, w1)
    /\ trace w1
       = trace w ++ round [(BASE_URL ++ "/user.info?handles=" ++ handle)%string] ++ rest
    /\ PacedRequests n rest
    /\ now w1 = now w + REQUEST_DELAY * Z.of_nat (S n).
Proof.
  destruct (syncHandle_total E handle (Some student) w) as [res Hres].
  assert (Hrest : pacedExtension
                    (sent (BASE_URL ++ "/user.info?handles=" ++ handle)%string w)
                    (snd (syncHandle E handle (Some student) w))).
  { apply (syncHandle_after_validation E pacedExtension) with (valid :=
      match profile E (requests w) handle with Ok _ => true | Throw _ => false end).
    - apply pacedExtension_refl.
    - apply pacedExtension_trans.
    - apply pacedExtension_sent.
    - intros w0. apply pacedExtension_same; reflexivity.
    - intros l w0. apply pacedExtension_same; reflexivity.
    - intros l w0. apply pacedExtension_same; reflexivity.
    - intros l w0. apply pacedExtension_same; reflexivity.
    - intros l w0. apply pacedExtension_same; reflexivity.
    - apply getUserStats_paced.
    - apply validateHandle_run. }
  destruct (syncHandle E handle (Some student) w) as [r w1].
  cbn [fst snd] in Hres, Hrest. subst r.
  destruct Hrest as [n [rest [Htr [Hpaced Hnow]]]].
  exists res, w1, n, rest. split; [reflexivity |]. split; [| split; [exact Hpaced |]].
  - rewrite Htr. cbn [sent trace with_requests with_trace with_now round map].
    rewrite <- !app_assoc. reflexivity.
  - rewrite Hnow. cbn [sent now with_requests with_trace with_now].
    unfold REQUEST_DELAY. lia.
Qed.

Lemma syncOneOfAll_run E student acc w :
  exists res w1 n seg,
    syncHandle E (Student.codeforcesHandle (IStudentDocument.fields student)) (Some student) w
    = (Ok res, w1)
    /\ trace w1 = trace w ++ seg /\ PacedRequests n seg
    /\ now w1 = now w + REQUEST_DELAY * Z.of_nat n
    /\ (exists rest,
          seg = round [(BASE_URL ++ "/user.info?handles="
                        ++ Student.codeforcesHandle (IStudentDocument.fields student))%string]
                ++ rest)
    /\ syncOneOfAll E student acc w
       = (Ok (let entry := StudentSync.mk (Student._id (IStudentDocument.fields student))
                             (Student.codeforcesHandle (IStudentDocument.fields student)) res in
              if SyncResult.success res
              then mkBatchAcc (acc_results acc ++ [entry])
                              (S (acc_successfulSyncs acc)) (acc_failedSyncs acc)
              else mkBatchAcc (acc_results acc ++ [entry])
                              (acc_successfulSyncs acc) (S (acc_failedSyncs acc))),
          snd (delay STUDENT_DELAY_MS w1)).
Proof.
  set (h := Student.codeforcesHandle (IStudentDocument.fields student)).
  destruct (syncHandle_checks_handle E h student w)
    as [res [w1 [n [rest [Hrun [Htr [Hpaced Hnow]]]]]]].
  exists res, w1, (S n), (round [(BASE_URL ++ "/user.info?handles=" ++ h)%string] ++ rest).
  split; [exact Hrun |]. split; [exact Htr |].
  split; [apply Paced_cons; [discriminate | exact Hpaced] |].
  split; [exact Hnow |]. split; [exists rest; reflexivity |].
  unfold syncOneOfAll. fold h. unfold bind. rewrite Hrun.
  destruct (SyncResult.success res); reflexivity.
Qed.

Lemma syncAll_loop E l : forall acc w,
  exists acc' w' news segs,
    forOf (map IStudentDocument.hydrate l) (syncOneOfAll E) acc w = (Ok acc', w')
    /\ acc_results acc' = acc_results acc ++ news
    /\ map StudentSync.studentId news = map Student._id l
    /\ map StudentSync.handle news = map Student.codeforcesHandle l
    /\ acc_successfulSyncs acc'
       = (acc_successfulSyncs acc + List.length (filter succeeded news))%nat
    /\ acc_failedSyncs acc'
       = (acc_failedSyncs acc + List.length (filter (fun r => negb (succeeded r)) news))%nat
    /\ trace w' = trace w ++ flat_map (fun seg => snd seg ++ [EvDelay STUDENT_DELAY_MS]) segs
    /\ Forall (fun seg => PacedRequests (fst seg) (snd seg)) segs
    /\ List.length segs = List.length l
    /\ now w' = now w + REQUEST_DELAY * Z.of_nat (list_sum (map fst segs))
                + STUDENT_DELAY_MS * Z.of_nat (List.length segs)
    /\ batchRuns E l w news w'
    /\ Forall2 (fun d seg => startsWithCheck (Student.codeforcesHandle d) (snd seg)) l segs.
Proof.
  induction l as [| d rest IH]; intros acc w.
  - exists acc, w, [], []. cbn [map forOf flat_map filter List.length list_sum].
    rewrite !app_nil_r, !Nat.add_0_r.
    repeat split; try constructor. simpl. lia.
  - destruct (syncOneOfAll_run E (IStudentDocument.hydrate d) acc w)
      as [res [w1 [n [seg [Hsync [Htr [Hseg [Hnow [Hcheck Hstep]]]]]]]]].
    cbn [IStudentDocument.fields IStudentDocument.hydrate] in Hsync, Hstep, Hcheck.
    match type of Hstep with _ = (Ok ?a, ?w2) =>
      destruct (IH a w2) as [acc' [w' [news [segs IH']]]]
    end.
    destruct IH'
      as [Hrun [Hres [Hids [Hhs [Hok [Hko [Htr' [Hsegs [Hlen [Hnow' [Hruns Hchecks]]]]]]]]]]].
    exists acc', w'.
    exists (StudentSync.mk (Student._id d) (Student.codeforcesHandle d) res :: news).
    exists ((n, seg) :: segs).
    split. { simpl. unfold bind at 1. rewrite Hstep. exact Hrun. }
    assert (Hbatch : batchRuns E (d :: rest) w
              (StudentSync.mk (Student._id d) (Student.codeforcesHandle d) res :: news) w').
    { econstructor; [exact Hsync | exact Hruns]. }
    clear Hsync Hruns Hstep Hrun IH.
    cbn [delay modify snd now trace with_now with_trace] in Htr', Hnow'.
    cbn [map flat_map fst snd List.length list_sum].
    split.
    { destruct (SyncResult.success res); cbn [acc_results] in Hres |- *;
        rewrite Hres, <- app_assoc; reflexivity. }
    split. { rewrite Hids. reflexivity. }
    split. { rewrite Hhs. reflexivity. }
    split.
    { unfold succeeded in *. cbn [filter StudentSync.result].
      destruct (SyncResult.success res);
        cbn [acc_successfulSyncs List.length] in Hok |- *; rewrite Hok; lia. }
    split.
    { unfold succeeded in *. cbn [filter StudentSync.result].
      destruct (SyncResult.success res);
        cbn [acc_failedSyncs List.length negb] in Hko |- *; rewrite Hko; lia. }
    split. { rewrite Htr', Htr, <- !app_assoc. reflexivity. }
    split. { constructor; [exact Hseg | exact Hsegs]. }
    split. { rewrite Hlen. reflexivity. }
    split.
    { rewrite Hnow', Hnow. unfold REQUEST_DELAY, STUDENT_DELAY_MS.
      change (list_sum (n :: map fst segs)) with (n + list_sum (map fst segs))%nat. lia. }
    split; [exact Hbatch |].
    constructor; [exact Hcheck | exact Hchecks].
Qed.

Lemma syncAllStudents_fault E w msg :
  dbFault E (dbOps w) = Some msg ->
  syncAllStudents E w = (Throw (Error msg), with_dbOps (S (dbOps w)) w).
Proof.
  intros H. unfold syncAllStudents, Student_find_all, dbOp, bind. rewrite H. reflexivity.
Qed.

Lemma syncAllStudents_loop E w :
  dbFault E (dbOps w) = None ->
  syncAllStudents E w
  = (acc <- forOf (map IStudentDocument.hydrate (students w)) (syncOneOfAll E)
                  (mkBatchAcc [] 0 0) ;;
     ret (GlobalSyncStats.mk (List.length (map IStudentDocument.hydrate (students w)))
            (acc_successfulSyncs acc) (acc_failedSyncs acc) (acc_results acc)))
      (with_dbOps (S (dbOps w)) w).
Proof.
  intros H. unfold syncAllStudents, Student_find_all, dbOp. unfold bind at 1.
  rewrite H. reflexivity.
Qed.

(** C3.  A batch run accounts for every student.  It reads the students
    once; the run throws only when this query fails, before any student is
    touched.  Otherwise every stored student is synced, in order and whatever
    the syncs of the students before it reported: the sync of a student
    starts in the world that the syncs before it and the delays behind them
    have left, and what it returns is the result of that student's entry.
    Each student gets exactly one entry, with its id and handle, and the
    totals count the entries that report success and those that do not.
    The trace of the run shows it: it has one stretch for each student, in
    order, which starts with the check of that student's handle against the
    remote and ends with the delay behind that student. *)
Theorem syncAllStudents_accounts_for_every_student E w :
  match syncAllStudents E w with
  | (Ok stats, w') =>
      GlobalSyncStats.totalStudents stats = List.length (students w)
      /\ batchRuns E (students w) (with_dbOps (S (dbOps w)) w)
           (GlobalSyncStats.results stats) w'
      /\ map StudentSync.studentId (GlobalSyncStats.results stats)
         = map Student._id (students w)
      /\ map StudentSync.handle (GlobalSyncStats.results stats)
         = map Student.codeforcesHandle (students w)
      /\ GlobalSyncStats.successfulSyncs stats
         = List.length (filter succeeded (GlobalSyncStats.results stats))
      /\ GlobalSyncStats.failedSyncs stats
         = List.length (filter (fun r => negb (succeeded r)) (GlobalSyncStats.results stats))
      /\ (GlobalSyncStats.successfulSyncs stats + GlobalSyncStats.failedSyncs stats
          = GlobalSyncStats.totalStudents stats)%nat
      /\ (exists segs : list (nat * list Event),
            trace w'
            = trace w ++ flat_map (fun seg => snd seg ++ [EvDelay STUDENT_DELAY_MS]) segs
            /\ Forall2 (fun d seg =>
                          startsWithCheck (Student.codeforcesHandle d) (snd seg))
                 (students w) segs)
  | (Throw e, w') =>
      dbFault E (dbOps w) = Some (message e) /\ w' = with_dbOps (S (dbOps w)) w
  end.
Proof.
  destruct (dbFault E (dbOps w)) as [msg |] eqn:Hfault.
  - rewrite (syncAllStudents_fault E w msg Hfault). split; reflexivity.
  - rewrite (syncAllStudents_loop E w Hfault).
    set (w0 := with_dbOps (S (dbOps w)) w).
    destruct (syncAll_loop E (students w) (mkBatchAcc [] 0 0) w0)
      as [acc' [w' [news [segs [Hrun [Hres [Hids [Hhs [Hok [Hko [Htr [_ [_ [_
           [Hruns Hchecks]]]]]]]]]]]]]]].
    unfold bind. rewrite Hrun. cbn [ret GlobalSyncStats.totalStudents
      GlobalSyncStats.results GlobalSyncStats.successfulSyncs GlobalSyncStats.failedSyncs].
    simpl in Hres, Hok, Hko.
    rewrite Hres, Hok, Hko, Hids, Hhs, length_map.
    split; [reflexivity |]. split; [exact Hruns |].
    split; [reflexivity |]. split; [reflexivity |].
    split; [reflexivity |]. split; [reflexivity |].
    split.
    + rewrite filter_split_length.
      rewrite <- (length_map StudentSync.studentId news), Hids, length_map.
      reflexivity.
    + exists segs. split; [exact Htr | exact Hchecks].
Qed.

(** A batch of three students, the second of which the remote does not know:
    the third is synced all the same. *)
Example batch_with_a_failure :
  let w := sampleWorld [sampleStudent "s1" "tourist" None None None;
                        sampleStudent "s2" "petr1" None None None;
                        sampleStudent "s3" "tourist3" None None None] 1000 in
  option_map (fun stats =>
                (GlobalSyncStats.totalStudents stats,
                 GlobalSyncStats.successfulSyncs stats,
                 GlobalSyncStats.failedSyncs stats,
                 map (fun r => (StudentSync.handle r, succeeded r,
                                SyncResult.message (StudentSync.result r)))
                     (GlobalSyncStats.results stats)))
             (match fst (syncAllStudents (sampleEnv pickyRemote) w) with
              | Ok stats => Some stats
              | Throw _ => None
              end)
  = Some (3%nat, 2%nat, 1%nat,
          [("tourist", true, "Synced 'tourist' successfully");
           ("petr1", false, "Invalid handle 'petr1'");
           ("tourist3", true, "Synced 'tourist3' successfully")]).
Proof. vm_compute. reflexivity. Qed.

(** The trace of one sync: the handle check, the three fetches of
    [getUserStats], which set their timers together and send their requests
    back to back, then one call after the other. *)
Example trace_of_a_sync :
  let w := sampleWorld [sampleStudent "s1" "tourist" None None None] 1000 in
  let w' := snd (syncStudentData (sampleEnv busyRemote) "s1" w) in
  trace w'
  = [ EvDelay 200; EvRequest "https://codeforces.com/api/user.info?handles=tourist";
      EvDelay 200; EvDelay 200; EvDelay 200;
      EvRequest "https://codeforces.com/api/user.info?handles=tourist";
      EvRequest "https://codeforces.com/api/user.rating?handle=tourist";
      EvRequest "https://codeforces.com/api/user.status?handle=tourist&from=1&count=1";
      EvDelay 200; EvRequest "https://codeforces.com/api/user.status?handle=tourist";
      EvDelay 200; EvRequest "https://codeforces.com/api/contest.list?gym=false";
      EvDelay 200; EvRequest "https://codeforces.com/api/user.status?handle=tourist" ]
  /\ now w' = 2000 /\ requests w' = 7%nat.
Proof. vm_compute. repeat split. Qed.

(** C7.  Every remote call waits [REQUEST_DELAY] = 200 ms first: one
    [makeRequest] sets its timer, waits for it and then sends its request,
    whatever the remote answers.  The three fetches that [getUserStats]
    starts together each wait for a timer of their own; these run at the
    same time, so that the three requests leave one behind the other, 200 ms
    after the call.  All a sync adds to the trace is such rounds: timers of
    200 ms, as many requests behind them, and 200 ms on the clock for each
    round.  In a batch run the trace is, student after student, the rounds of
    that student's sync followed by a delay of [STUDENT_DELAY_MS] = 1000 ms,
    so that such a delay lies between the syncs of any two consecutive
    students. *)
Theorem delays_before_requests_and_between_students :
  REQUEST_DELAY = 200 /\ STUDENT_DELAY_MS = 1000
  /\ (forall T (api : nat -> string -> AxiosResult T) endpoint w,
        trace (snd (makeRequest api endpoint w))
        = trace w ++ [EvDelay REQUEST_DELAY; EvRequest (BASE_URL ++ endpoint)%string]
        /\ now (snd (makeRequest api endpoint w)) = now w + REQUEST_DELAY)
  /\ (forall E handle w,
        trace (settled handle w)
        = trace w ++ [EvDelay REQUEST_DELAY; EvDelay REQUEST_DELAY; EvDelay REQUEST_DELAY]
                  ++ map EvRequest (statsUrls handle)
        /\ now (settled handle w) = now w + REQUEST_DELAY
        /\ (snd (getUserStats E handle w) = settled handle w
            \/ exists url, snd (getUserStats E handle w) = sent url (settled handle w)))
  /\ (forall E handle student w, pacedExtension w (snd (syncHandle E handle student w)))
  /\ (forall E w,
        exists segs,
          trace (snd (syncAllStudents E w))
          = trace w ++ flat_map (fun seg => snd seg ++ [EvDelay STUDENT_DELAY_MS]) segs
          /\ Forall (fun seg => PacedRequests (fst seg) (snd seg)) segs
          /\ now (snd (syncAllStudents E w))
             = now w + REQUEST_DELAY * Z.of_nat (list_sum (map fst segs))
               + STUDENT_DELAY_MS * Z.of_nat (List.length segs)
          /\ match fst (syncAllStudents E w) with
             | Ok _ => List.length segs = List.length (students w)
             | Throw _ => segs = []
             end).
Proof.
  split; [reflexivity |]. split; [reflexivity |]. split; [| split; [| split]].
  - intros T api endpoint w. rewrite makeRequest_run. split; [| reflexivity].
    simpl. rewrite <- app_assoc. reflexivity.
  - intros E handle w. split; [reflexivity |]. split; [reflexivity |].
    pose proof (getUserStats_exact E handle w) as H.
    destruct (profile E (requests w) handle) as [user | e].
    + destruct H as [ratingData [count [url H]]]. right. exists url. rewrite H. reflexivity.
    + left. rewrite H. reflexivity.
  - intros E handle student w. apply syncHandle_paced.
  - intros E w. destruct (dbFault E (dbOps w)) as [msg |] eqn:Hfault.
    + rewrite (syncAllStudents_fault E w msg Hfault).
      exists []. simpl. rewrite app_nil_r.
      split; [reflexivity |]. split; [apply Forall_nil |]. split; [lia | reflexivity].
    + rewrite (syncAllStudents_loop E w Hfault).
      set (w0 := with_dbOps (S (dbOps w)) w).
      destruct (syncAll_loop E (students w) (mkBatchAcc [] 0 0) w0)
        as [acc' [w' [news [segs [Hrun [_ [_ [_ [_ [_ [Htr [Hsegs [Hlen [Hnow _]]]]]]]]]]]]]].
      exists segs. unfold bind. rewrite Hrun. simpl.
      repeat split; assumption.
Qed.

(** ** Lookups and updates of stored documents *)



Lemma find_updateFirst {A} (p : A -> bool) (f : A -> A) (l : list A) :
  (forall x, p x = true -> p (f x) = true) ->
  find p (updateFirst p f l) = option_map f (find p l).
Proof.
  intros Hf. induction l as [| x rest IH]; simpl; [reflexivity |].
  destruct (p x) eqn:Hp; simpl.
  - rewrite (Hf x Hp). reflexivity.
  - rewrite Hp. exact IH.
Qed.


Lemma writeModified_id doc stored :
  Student._id (writeModified doc stored) = Student._id stored.
Proof.
  unfold writeModified.
  destruct (IStudentDocument.isModified MaxRatingPath doc);
    destruct (IStudentDocument.isModified LastDataUpdatePath doc); reflexivity.
Qed.


(** ** The single-student entry point *)




(** ** The pre-save hook *)



(** ** The scheduler *)

Lemma set_lastResult_run success processed errors startTime w :
  set_lastResult success processed errors startTime w
  = (Ok tt,
     with_jobStatus
       (CronJobStatus.set_lastResult
          (Some (LastResult.mk success processed errors (now w - startTime)))
          (jobStatus w)) w).
Proof. reflexivity. Qed.

Lemma executeSync_finally_finishes E w :
  executeSync_finally E w = (Ok tt, snd (executeSync_finally E w)).
Proof. reflexivity. Qed.

(** What the end of a run leaves: the flag is down, the result recorded, the
    stored data and the log as the loop left them. *)
Lemma finished_spec E result w :
  CronJobStatus.isRunning (jobStatus (finished E result w)) = false
  /\ CronJobStatus.lastResult (jobStatus (finished E result w)) = Some result
  /\ CronJobStatus.lastRun (jobStatus (finished E result w))
     = CronJobStatus.lastRun (jobStatus w)
  /\ students (finished E result w) = students w
  /\ contests (finished E result w) = contests w
  /\ submissions (finished E result w) = submissions w
  /\ ratingChanges (finished E result w) = ratingChanges w
  /\ trace (finished E result w) = trace w
  /\ requests (finished E result w) = requests w
  /\ dbOps (finished E result w) = dbOps w
  /\ now (finished E result w) = now w
  /\ cronTask (finished E result w) = cronTask w.
Proof. repeat split. Qed.

(** An idle [executeSync] flags the job as running and enters its [try]. *)
Lemma executeSync_idle E forceAll w :
  CronJobStatus.isRunning (jobStatus w) = false ->
  executeSync E forceAll w
  = tryFinally
      (tryCatch (executeSync_try E forceAll (now w)) (executeSync_catch (now w)))
      (executeSync_finally E) (started w).
Proof.
  intros Hidle. unfold executeSync. unfold bind at 1. unfold gets at 1.
  rewrite Hidle. reflexivity.
Qed.

(** The sync of a student, and so the whole loop of [executeSync], leaves the
    status of the job alone. *)
Lemma syncStudentData_keeps_status E id :
  preserves (keeps jobStatus) (syncStudentData E id).
Proof.
  apply syncStudentData_preserves; try (intros; reflexivity);
    [apply keeps_trans | stats_frame; apply keeps_trans].
Qed.

Lemma executeSyncOne_keeps_status E student acc :
  preserves (keeps jobStatus) (executeSyncOne E student acc).
Proof.
  apply executeSyncOne_preserves; try (intros; reflexivity);
    [apply keeps_trans | stats_frame; apply keeps_trans].
Qed.

(** The loop calls [syncStudentData] for each selected student in turn, and
    counts each call once. *)
Lemma executeSync_loop E l : forall acc w,
  exists acc' w' runs,
    forOf (map IStudentDocument.hydrate l) (executeSyncOne E) acc w = (Ok acc', w')
    /\ syncedInTurn E (map Student._id l) w runs w'
    /\ acc_processed acc'
       = (acc_processed acc + List.length (filter reportsSuccess runs))%nat
    /\ acc_errors acc'
       = (acc_errors acc
          + List.length (filter (fun run => negb (reportsSuccess run)) runs))%nat
    /\ List.length runs = List.length l.
Proof.
  induction l as [| d rest IH]; intros acc w.
  - exists acc, w, []. cbn [map forOf filter List.length]. rewrite !Nat.add_0_r.
    repeat split. constructor.
  - cbn [map forOf]. unfold bind at 1. unfold executeSyncOne at 1, tryCatch, bind.
    cbn [IStudentDocument.fields IStudentDocument.hydrate].
    destruct (syncStudentData E (Student._id d) w) as [[res | e] w1] eqn:Hsync.
    + cbv beta iota. unfold delay at 1, modify at 1. cbv beta iota. unfold ret at 1.
      match goal with
      | |- context [forOf _ _ ?a ?w2] =>
          destruct (IH a w2) as [acc' [w' [runs [Hrun [Hturn [Hp [He Hlen]]]]]]]
      end.
      exists acc', w', ((w, Ok res) :: runs). rewrite Hrun.
      split; [reflexivity |]. split; [econstructor; [exact Hsync | exact Hturn] |].
      assert (Hf1 : filter reportsSuccess ((w, Ok res) :: runs)
                    = if SyncResult.success res
                      then (w, Ok res) :: filter reportsSuccess runs
                      else filter reportsSuccess runs) by reflexivity.
      assert (Hf2 : filter (fun run => negb (reportsSuccess run)) ((w, Ok res) :: runs)
                    = if SyncResult.success res
                      then filter (fun run => negb (reportsSuccess run)) runs
                      else (w, Ok res) :: filter (fun run => negb (reportsSuccess run)) runs).
      { cbn [filter]. unfold reportsSuccess at 1. cbn [snd].
        destruct (SyncResult.success res); reflexivity. }
      rewrite Hf1, Hf2.
      destruct (SyncResult.success res); cbn [acc_processed acc_errors List.length] in *;
        rewrite Hp, He, Hlen; repeat split; lia.
    + unfold ret at 1.
      match goal with
      | |- context [forOf _ _ ?a ?w2] =>
          destruct (IH a w2) as [acc' [w' [runs [Hrun [Hturn [Hp [He Hlen]]]]]]]
      end.
      exists acc', w', ((w, Throw e) :: runs). rewrite Hrun.
      split; [reflexivity |]. split; [eapply turn_throws; [exact Hsync | exact Hturn] |].
      assert (Hf1 : filter reportsSuccess ((w, Throw e) :: runs)
                    = filter reportsSuccess runs) by reflexivity.
      assert (Hf2 : filter (fun run => negb (reportsSuccess run))
                      ((w, @Throw SyncResult.t e) :: runs)
                    = (w, Throw e) :: filter (fun run => negb (reportsSuccess run)) runs)
        by reflexivity.
      rewrite Hf1, Hf2.
      cbn [acc_processed acc_errors List.length] in *. rewrite Hp, He, Hlen.
      repeat split; lia.
Qed.

(** The flag that the loop runs under stays as it is, from one call to the
    next. *)
Lemma syncedInTurn_status E ids w runs w' :
  syncedInTurn E ids w runs w' ->
  jobStatus w' = jobStatus w
  /\ Forall (fun run => jobStatus (fst run) = jobStatus w) runs.
Proof.
  induction 1 as [w | id ids w res w1 runs w' Hsync Hturn IH
                     | id ids w e w1 runs w' Hsync Hturn IH].
  - split; [reflexivity | constructor].
  - pose proof (syncStudentData_keeps_status E id w) as Hkeep.
    rewrite Hsync in Hkeep. unfold keeps in Hkeep. cbn [snd] in Hkeep.
    destruct IH as [Hend Hruns].
    cbn [delay modify snd jobStatus with_now with_trace] in Hend, Hruns.
    split; [rewrite Hend; exact Hkeep |].
    constructor; [reflexivity |].
    eapply Forall_impl; [| exact Hruns]. intros run Hrun. cbv beta in Hrun.
    rewrite Hrun. exact Hkeep.
  - pose proof (syncStudentData_keeps_status E id w) as Hkeep.
    rewrite Hsync in Hkeep. unfold keeps in Hkeep. cbn [snd] in Hkeep.
    destruct IH as [Hend Hruns].
    split; [rewrite Hend; exact Hkeep |].
    constructor; [reflexivity |].
    eapply Forall_impl; [| exact Hruns]. intros run Hrun. cbv beta in Hrun.
    rewrite Hrun. exact Hkeep.
Qed.

Lemma syncedInTurn_cronTask E ids w runs w' :
  syncedInTurn E ids w runs w' -> cronTask w' = cronTask w.
Proof.
  assert (Hkeep : forall id w0, cronTask (snd (syncStudentData E id w0)) = cronTask w0).
  { intros id w0.
    apply (syncStudentData_preserves E (keeps cronTask)); try (intros; reflexivity);
      [apply keeps_trans | stats_frame; apply keeps_trans]. }
  induction 1 as [w | id ids w res w1 runs w' Hsync Hturn IH
                     | id ids w e w1 runs w' Hsync Hturn IH].
  - reflexivity.
  - specialize (Hkeep id w). rewrite Hsync in Hkeep. cbn [snd] in Hkeep.
    rewrite IH. exact Hkeep.
  - specialize (Hkeep id w). rewrite Hsync in Hkeep. cbn [snd] in Hkeep.
    rewrite IH. exact Hkeep.
Qed.

(** The query of a run: what it returns when it is answered, and how it fails. *)
Lemma executeSync_selection E (forceAll : bool) w sel :
  dbFault E (dbOps w) = None ->
  selection E forceAll w = Some sel ->
  (if forceAll then getAllStudents E else getStudentsNeedingUpdate E) w
  = (Ok (map IStudentDocument.hydrate sel), with_dbOps (S (dbOps w)) w).
Proof.
  intros H Hsel. unfold selection in Hsel. destruct forceAll.
  - injection Hsel as <-. unfold getAllStudents, Student_find_all, dbOp. rewrite H. reflexivity.
  - unfold getStudentsNeedingUpdate, bind, Date_now, gets. unfold thresholdTime in Hsel.
    destruct (hoursBefore (hoursThreshold E) (now w)) as [t |]; [| discriminate].
    injection Hsel as <-. unfold Student_find_stale, dbOp. rewrite H. reflexivity.
Qed.

Lemma executeSync_selection_fault E (forceAll : bool) w msg sel :
  dbFault E (dbOps w) = Some msg ->
  selection E forceAll w = Some sel ->
  (if forceAll then getAllStudents E else getStudentsNeedingUpdate E) w
  = (Throw (Error msg), with_dbOps (S (dbOps w)) w).
Proof.
  intros H Hsel. unfold selection in Hsel. destruct forceAll.
  - unfold getAllStudents, Student_find_all, dbOp. rewrite H. reflexivity.
  - unfold getStudentsNeedingUpdate, bind, Date_now, gets. unfold thresholdTime in Hsel.
    destruct (hoursBefore (hoursThreshold E) (now w)) as [t |]; [| discriminate].
    unfold Student_find_stale, dbOp. rewrite H. reflexivity.
Qed.

Lemma executeSync_selection_invalid E (forceAll : bool) w :
  selection E forceAll w = None ->
  (if forceAll then getAllStudents E else getStudentsNeedingUpdate E) w
  = (Throw CastError_Date, w).
Proof.
  intros Hsel. unfold selection in Hsel. destruct forceAll; [discriminate |].
  unfold getStudentsNeedingUpdate, bind, Date_now, gets. unfold thresholdTime in Hsel.
  destruct (hoursBefore (hoursThreshold E) (now w)) as [t |]; [discriminate |].
  reflexivity.
Qed.

(** A run whose query is answered: the selected students are synced in turn,
    the result counts them, the [finally] block ends the run. *)
Lemma executeSync_run E forceAll w sel :
  CronJobStatus.isRunning (jobStatus w) = false ->
  dbFault E (dbOps w) = None ->
  selection E forceAll w = Some sel ->
  exists runs wl,
    syncedInTurn E (map Student._id sel) (with_dbOps (S (dbOps w)) (started w)) runs wl
    /\ List.length runs = List.length sel
    /\ executeSync E forceAll w = (Ok tt, finished E (summary (now w) runs wl) wl).
Proof.
  intros Hidle Hdb Hsel. rewrite (executeSync_idle E forceAll w Hidle).
  unfold tryFinally, tryCatch, executeSync_try. unfold bind at 1.
  rewrite (executeSync_selection E forceAll (started w) sel Hdb Hsel).
  change (dbOps (started w)) with (dbOps w).
  set (w1 := with_dbOps (S (dbOps w)) (started w)).
  destruct (executeSync_loop E sel (mkCronAcc 0 0) w1)
    as [acc' [wl [runs [Hrun [Hturn [Hp [He Hlen]]]]]]].
  cbn [acc_processed acc_errors Nat.add] in Hp, He.
  exists runs, wl. split; [exact Hturn |]. split; [exact Hlen |].
  destruct sel as [| d rest].
  - cbn [map forOf] in Hrun. unfold ret in Hrun. injection Hrun as <- <-.
    inversion Hturn; subst. cbn [map]. rewrite set_lastResult_run.
    rewrite executeSync_finally_finishes. reflexivity.
  - cbn [map] in Hrun |- *. unfold bind. rewrite Hrun. rewrite set_lastResult_run.
    rewrite executeSync_finally_finishes. unfold finished, summary. rewrite Hp, He.
    reflexivity.
Qed.

(** A run whose query fails: the [catch] block records the failure, the
    [finally] block ends the run, no student is synced. *)
Lemma executeSync_run_failed E forceAll w :
  CronJobStatus.isRunning (jobStatus w) = false ->
  match selection E forceAll w, dbFault E (dbOps w) with
  | Some _, None => True
  | Some _, Some _ =>
      executeSync E forceAll w
      = (Ok tt, finished E (LastResult.mk false 0 1 0) (with_dbOps (S (dbOps w)) (started w)))
  | None, _ =>
      executeSync E forceAll w = (Ok tt, finished E (LastResult.mk false 0 1 0) (started w))
  end.
Proof.
  intros Hidle.
  destruct (selection E forceAll w) as [sel |] eqn:Hsel.
  - destruct (dbFault E (dbOps w)) as [msg |] eqn:Hdb; [| exact I].
    rewrite (executeSync_idle E forceAll w Hidle).
    unfold tryFinally, tryCatch, executeSync_try. unfold bind at 1.
    rewrite (executeSync_selection_fault E forceAll (started w) msg sel Hdb Hsel).
    unfold executeSync_catch. rewrite set_lastResult_run.
    rewrite executeSync_finally_finishes. unfold finished.
    cbn [now with_dbOps started with_jobStatus]. rewrite Z.sub_diag. reflexivity.
  - rewrite (executeSync_idle E forceAll w Hidle).
    unfold tryFinally, tryCatch, executeSync_try. unfold bind at 1.
    rewrite (executeSync_selection_invalid E forceAll (started w) Hsel).
    unfold executeSync_catch. rewrite set_lastResult_run.
    rewrite executeSync_finally_finishes. unfold finished.
    cbn [now started with_jobStatus]. rewrite Z.sub_diag. reflexivity.
Qed.

Lemma executeSync_busy E forceAll w :
  CronJobStatus.isRunning (jobStatus w) = true -> executeSync E forceAll w = (Ok tt, w).
Proof. intros H. unfold executeSync, bind, gets. rewrite H. reflexivity. Qed.

(** C10.  A call of [executeSync] that finds the job running returns at once
    and leaves the world as it is: no student is queried or synced.  A call
    that finds it idle raises the flag and runs its [try] block from
    [started w]; it always returns, and when it does the flag is down again,
    whether the run went through or threw.  When the query of the students is
    answered, the selected students are synced in turn; the flag is up in the
    world in which each of these syncs starts and in the world in which the
    loop ends, so that a call of [executeSync] that comes in there does
    nothing.  When the query fails, the [catch] block records the failed run
    and no student is synced. *)
Theorem executeSync_never_overlaps E forceAll w :
  if CronJobStatus.isRunning (jobStatus w)
  then executeSync E forceAll w = (Ok tt, w)
  else
    exists w',
      executeSync E forceAll w = (Ok tt, w')
      /\ CronJobStatus.isRunning (jobStatus w') = false
      /\ executeSync E forceAll w
         = tryFinally
             (tryCatch (executeSync_try E forceAll (now w)) (executeSync_catch (now w)))
             (executeSync_finally E) (started w)
      /\ CronJobStatus.isRunning (jobStatus (started w)) = true
      /\ (forall student acc w1,
            jobStatus (snd (executeSyncOne E student acc w1)) = jobStatus w1)
      /\ match selection E forceAll w, dbFault E (dbOps w) with
         | Some sel, None =>
             exists runs wl,
               syncedInTurn E (map Student._id sel)
                 (with_dbOps (S (dbOps w)) (started w)) runs wl
               /\ List.length runs = List.length sel
               /\ w' = finished E (summary (now w) runs wl) wl
               /\ CronJobStatus.isRunning (jobStatus wl) = true
               /\ Forall (fun run =>
                            CronJobStatus.isRunning (jobStatus (fst run)) = true
                            /\ forall force,
                                 executeSync E force (fst run) = (Ok tt, fst run))
                         runs
         | _, _ =>
             CronJobStatus.lastResult (jobStatus w') = Some (LastResult.mk false 0 1 0)
             /\ students w' = students w /\ trace w' = trace w
             /\ requests w' = requests w
         end.
Proof.
  destruct (CronJobStatus.isRunning (jobStatus w)) eqn:Hrunning.
  - apply executeSync_busy. exact Hrunning.
  - pose proof (executeSync_run_failed E forceAll w Hrunning) as Hfailed.
    assert (Hone : forall student acc w1,
              jobStatus (snd (executeSyncOne E student acc w1)) = jobStatus w1).
    { intros student acc w1. apply (executeSyncOne_keeps_status E student acc w1). }
    destruct (selection E forceAll w) as [sel |] eqn:Hsel.
    + destruct (dbFault E (dbOps w)) as [msg |] eqn:Hdb.
      * eexists. split; [exact Hfailed |]. split; [reflexivity |].
        split; [apply executeSync_idle; exact Hrunning |]. split; [reflexivity |].
        split; [exact Hone |]. repeat split.
      * destruct (executeSync_run E forceAll w sel Hrunning Hdb Hsel)
          as [runs [wl [Hturn [Hlen Hrun]]]].
        eexists. split; [exact Hrun |]. split; [reflexivity |].
        split; [apply executeSync_idle; exact Hrunning |]. split; [reflexivity |].
        split; [exact Hone |].
        exists runs, wl. split; [exact Hturn |]. split; [exact Hlen |].
        split; [reflexivity |].
        destruct (syncedInTurn_status E _ _ _ _ Hturn) as [Hend Hruns].
        split; [rewrite Hend; reflexivity |].
        eapply Forall_impl; [| exact Hruns]. intros run Hst. cbv beta in Hst.
        assert (Hup : CronJobStatus.isRunning (jobStatus (fst run)) = true)
          by (rewrite Hst; reflexivity).
        split; [exact Hup |]. intros force. apply executeSync_busy. exact Hup.
    + eexists. split; [exact Hfailed |]. split; [reflexivity |].
      split; [apply executeSync_idle; exact Hrunning |]. split; [reflexivity |].
      split; [exact Hone |]. repeat split.
Qed.

(** A run whose query of the students fails: the [catch] block records it,
    the [finally] block resets the flag, nothing is requested. *)
Example executeSync_resets_flag_when_query_fails :
  let w := sampleWorld [sampleStudent "s1" "tourist" None None None] 1000 in
  let w' := snd (executeSync brokenEnv true w) in
  fst (executeSync brokenEnv true w) = Ok tt
  /\ CronJobStatus.isRunning (jobStatus w') = false
  /\ CronJobStatus.lastRun (jobStatus w') = Some 1000
  /\ CronJobStatus.lastResult (jobStatus w') = Some (LastResult.mk false 0 1 0)
  /\ requests w' = 0%nat.
Proof. vm_compute. repeat split. Qed.

(** A threshold that is not a number: the query of the manual trigger cannot
    be built, and the run is recorded as failed without a database
    operation. *)
Example manual_sync_with_a_threshold_that_is_no_number :
  let E := mkEnv busyRemote (fun _ => None) (fun _ => true) (fun _ => true)
             (fun _ t => t + 3600000) (Some NaN) in
  let w := sampleWorld [sampleStudent "s1" "tourist" None None None] 1000 in
  let w' := snd (triggerManualSync E w) in
  fst (triggerManualSync E w) = Ok true
  /\ CronJobStatus.lastResult (jobStatus w') = Some (LastResult.mk false 0 1 0)
  /\ dbOps w' = 0%nat /\ requests w' = 0%nat.
Proof. vm_compute. repeat split. Qed.

(** ** Which students a trigger syncs *)






(** ** Deduplication *)

Section Reconcile.

Context {R D K : Type}.
Variable keyR : R -> K.
Variable keyD : D -> K.
Variable present : R -> D -> bool.
Variable new : R -> D.
Hypothesis present_spec : forall r d, present r d = true <-> keyD d = keyR r.
Hypothesis key_new : forall r, keyD (new r) = keyR r.

Lemma stored_iff r store :
  existsb (present r) store = true <-> In (keyR r) (map keyD store).
Proof.
  rewrite existsb_exists, in_map_iff. split.
  - intros [d [Hd Hp]]. exists d. split; [apply present_spec; exact Hp | exact Hd].
  - intros [d [Hk Hd]]. exists d. split; [exact Hd | apply present_spec; exact Hk].
Qed.

Lemma not_stored_iff r store :
  existsb (present r) store = false <-> ~ In (keyR r) (map keyD store).
Proof.
  rewrite <- stored_iff. destruct (existsb (present r) store).
  - split; [discriminate | intros H; exfalso; apply H; reflexivity].
  - split; [intros _ H; discriminate H | reflexivity].
Qed.

Lemma reconcile_sound l : forall store r,
  In r (reconcile present new l store) ->
  In r l /\ ~ In (keyR r) (map keyD store).
Proof.
  induction l as [| x rest IH]; intros store r; simpl; [intros [] |].
  destruct (existsb (present x) store) eqn:Hx.
  - intros H. destruct (IH store r H) as [H1 H2]. split; [right; exact H1 | exact H2].
  - intros [-> | H].
    + split; [left; reflexivity | apply not_stored_iff; exact Hx].
    + destruct (IH _ r H) as [H1 H2]. split; [right; exact H1 |].
      intros Hin. apply H2. rewrite map_app. apply in_or_app. left. exact Hin.
Qed.

Lemma reconcile_complete l : forall store r,
  In r l -> ~ In (keyR r) (map keyD store) ->
  In (keyR r) (map keyR (reconcile present new l store)).
Proof.
  induction l as [| x rest IH]; intros store r; simpl; [intros [] |].
  intros Hin Hnew. destruct (existsb (present x) store) eqn:Hx.
  - destruct Hin as [-> | Hin].
    + exfalso. apply Hnew. apply stored_iff. exact Hx.
    + apply IH; assumption.
  - simpl. destruct Hin as [-> | Hin]; [left; reflexivity |].
    destruct (present r (new x)) eqn:Hrx.
    + left. apply present_spec in Hrx. rewrite <- Hrx. symmetry. apply key_new.
    + right. apply IH; [exact Hin |].
      rewrite map_app. intros Hin'. apply in_app_or in Hin'. destruct Hin' as [H | [H | []]].
      * apply Hnew. exact H.
      * apply present_spec in H. rewrite H in Hrx. discriminate.
Qed.

Lemma reconcile_nodup l : forall store,
  NoDup (map keyR (reconcile present new l store)).
Proof.
  induction l as [| x rest IH]; intros store; simpl; [constructor |].
  destruct (existsb (present x) store); [apply IH |].
  simpl. constructor; [| apply IH].
  intros Hin. apply in_map_iff in Hin. destruct Hin as [r [Hk Hr]].
  destruct (reconcile_sound _ _ _ Hr) as [_ Hnot]. apply Hnot.
  rewrite map_app. apply in_or_app. right. simpl. left.
  rewrite key_new. symmetry. exact Hk.
Qed.

Lemma reconcile_nothing l store :
  (forall r, In r l -> In (keyR r) (map keyD store)) ->
  reconcile present new l store = [].
Proof.
  induction l as [| x rest IH]; intros H; simpl; [reflexivity |].
  assert (Hx : existsb (present x) store = true).
  { apply stored_iff, H. left. reflexivity. }
  rewrite Hx. apply IH. intros r Hr. apply H. right. exact Hr.
Qed.

Lemma reconcile_covers l : forall store r,
  In r l ->
  In (keyR r) (map keyD (store ++ map new (reconcile present new l store))).
Proof.
  intros store r Hr.
  destruct (existsb (present r) store) eqn:Hst.
  - rewrite map_app. apply in_or_app. left. apply stored_iff. exact Hst.
  - rewrite map_app, map_map. apply in_or_app. right.
    rewrite (map_ext _ keyR key_new).
    apply reconcile_complete; [exact Hr | apply not_stored_iff; exact Hst].
Qed.

Lemma reconcile_Reconciled l store :
  Reconciled keyR keyD new l store
    (store ++ map new (reconcile present new l store))
    (List.length (reconcile present new l store)).
Proof.
  exists (reconcile present new l store). split; [reflexivity |]. split; [reflexivity |].
  split; [apply reconcile_sound |]. split; [apply reconcile_complete | apply reconcile_nodup].
Qed.

End Reconcile.

Lemma submission_present_spec (s : ISubmission.t) (d : Submission.t) :
  hasSubmissionId (ISubmission.id s) d = true
  <-> Submission.submissionId d = ISubmission.id s.
Proof. unfold hasSubmissionId. apply Z.eqb_eq. Qed.

Lemma rating_present_spec handle (rc : CodeforcesRatingChange.t) (d : RatingChange.t) :
  hasRatingKey handle (CodeforcesRatingChange.contestId rc) d = true
  <-> ratingKeyOfDoc d = ratingKey handle rc.
Proof.
  unfold hasRatingKey, ratingKeyOfDoc, ratingKey.
  rewrite andb_true_iff, String.eqb_eq, Z.eqb_eq. split.
  - intros [-> ->]. reflexivity.
  - intros H. injection H as -> ->. split; reflexivity.
Qed.

(** One turn of the loop of [syncSubmissions], in closed form. *)
Lemma syncSubmission_run E handle studentId s added w :
  syncSubmission E handle studentId s added w
  = match dbFault E (dbOps w) with
    | Some msg => (Throw (Error msg), with_dbOps (S (dbOps w)) w)
    | None =>
        if existsb (hasSubmissionId (ISubmission.id s)) (submissions w)
        then (Ok added, with_dbOps (S (dbOps w)) w)
        else
          match validateSubmission (newSubmission studentId handle s) with
          | failure :: failures =>
              (Throw (ValidationErrorOf "Submission" (failure :: failures)),
               with_dbOps (S (dbOps w)) w)
          | [] =>
              match dbFault E (S (dbOps w)) with
              | Some msg => (Throw (Error msg), with_dbOps (S (S (dbOps w))) w)
              | None =>
                  (Ok (S added),
                   with_submissions (submissions w ++ [newSubmission studentId handle s])
                                    (with_dbOps (S (S (dbOps w))) w))
              end
          end
    end.
Proof.
  unfold syncSubmission, Submission_exists, Submission_create, dbOp, bind, gets, ret.
  destruct (dbFault E (dbOps w)); [reflexivity |].
  simpl.
  destruct (existsb (hasSubmissionId (ISubmission.id s)) (submissions w)) eqn:Hex;
    [reflexivity |].
  destruct (validateSubmission (newSubmission studentId handle s)); [| reflexivity].
  simpl. destruct (dbFault E (S (dbOps w))); [reflexivity |].
  rewrite Hex. reflexivity.
Qed.

(** One turn of the loop of [syncRatingChanges], in closed form. *)
Lemma syncRatingChange_run E handle studentId rc added w :
  syncRatingChange E handle studentId rc added w
  = match dbFault E (dbOps w) with
    | Some msg => (Throw (Error msg), with_dbOps (S (dbOps w)) w)
    | None =>
        if existsb (hasRatingKey handle (CodeforcesRatingChange.contestId rc))
                   (ratingChanges w)
        then (Ok added, with_dbOps (S (dbOps w)) w)
        else
          match validateRatingChange (newRatingChange studentId handle rc) with
          | failure :: failures =>
              (Throw (ValidationErrorOf "RatingChange" (failure :: failures)),
               with_dbOps (S (dbOps w)) w)
          | [] =>
              match dbFault E (S (dbOps w)) with
              | Some msg => (Throw (Error msg), with_dbOps (S (S (dbOps w))) w)
              | None =>
                  (Ok (S added),
                   with_ratingChanges
                     (ratingChanges w ++ [newRatingChange studentId handle rc])
                     (with_dbOps (S (S (dbOps w))) w))
              end
          end
    end.
Proof.
  unfold syncRatingChange, RatingChange_exists, RatingChange_create, dbOp, bind, gets, ret.
  destruct (dbFault E (dbOps w)); [reflexivity |].
  simpl.
  destruct (existsb (hasRatingKey handle (CodeforcesRatingChange.contestId rc))
                    (ratingChanges w)) eqn:Hex; [reflexivity |].
  destruct (validateRatingChange (newRatingChange studentId handle rc)); [| reflexivity].
  simpl. destruct (dbFault E (S (dbOps w))); [reflexivity |].
  rewrite Hex. reflexivity.
Qed.

(** The loop of [syncSubmissions] against the pure pass: whatever the outcome,
    the store grew by the documents of a first part of what the pass inserts;
    on a normal return, by all of it, and the count is its length.  With a
    database that answers, the loop returns exactly when the schema accepts
    every document that the pass inserts. *)
Lemma syncSubmissions_loop E handle studentId l : forall added w r w',
  forOf l (syncSubmission E handle studentId) added w = (r, w') ->
  exists inserted rest,
    reconcile (fun s => hasSubmissionId (ISubmission.id s))
              (newSubmission studentId handle) l (submissions w)
    = inserted ++ rest
    /\ submissions w' = submissions w ++ map (newSubmission studentId handle) inserted
    /\ (forall added', r = Ok added' ->
          rest = [] /\ added' = (added + List.length inserted)%nat)
    /\ (DbHealthy E ->
        ((exists added', r = Ok added')
         <-> Forall (fun s => validateSubmission (newSubmission studentId handle s) = [])
               (inserted ++ rest))).
Proof.
  induction l as [| s l IH]; intros added w r w'.
  - simpl. intros H. injection H as <- <-. exists [], []. simpl.
    rewrite app_nil_r. repeat split.
    + injection H as <-. lia.
    + intros _. apply Forall_nil.
    + intros _. exists added. reflexivity.
  - simpl. unfold bind. rewrite syncSubmission_run.
    destruct (dbFault E (dbOps w)) as [msg |] eqn:Hf1.
    { intros H. injection H as <- <-. eexists [], _. simpl. rewrite app_nil_r.
      split; [reflexivity |]. split; [reflexivity |]. split; [discriminate |].
      intros Hh. rewrite Hh in Hf1. discriminate. }
    destruct (existsb (hasSubmissionId (ISubmission.id s)) (submissions w)) eqn:Hex.
    { intros H. apply IH in H. exact H. }
    destruct (validateSubmission (newSubmission studentId handle s))
      as [| failure failures] eqn:Hvalid.
    2:{ intros H. injection H as <- <-. eexists [], _. simpl. rewrite app_nil_r.
        split; [reflexivity |]. split; [reflexivity |]. split; [discriminate |].
        intros _. split.
        - intros [added' Habs]. discriminate.
        - intros Hall. inversion Hall as [| x rest' Hx _]. subst.
          rewrite Hvalid in Hx. discriminate. }
    destruct (dbFault E (S (dbOps w))) as [msg |] eqn:Hf2.
    { intros H. injection H as <- <-. eexists [], _. simpl. rewrite app_nil_r.
      split; [reflexivity |]. split; [reflexivity |]. split; [discriminate |].
      intros Hh. rewrite Hh in Hf2. discriminate. }
    intros H. apply IH in H. cbn [submissions with_submissions with_dbOps] in H.
    destruct H as [inserted [rest [Hrec [Hsub [Hok Hh]]]]].
    exists (s :: inserted), rest. split; [| split; [| split]].
    + simpl. rewrite Hrec. reflexivity.
    + rewrite Hsub. simpl. rewrite <- app_assoc. reflexivity.
    + intros added' Hr. destruct (Hok added' Hr) as [-> ->]. split; [reflexivity |].
      simpl. lia.
    + intros Hhealthy. rewrite (Hh Hhealthy). simpl. split.
      * intros Hall. apply Forall_cons; [exact Hvalid | exact Hall].
      * intros Hall. inversion Hall. assumption.
Qed.

Lemma syncRatingChanges_loop E handle studentId l : forall added w r w',
  forOf l (syncRatingChange E handle studentId) added w = (r, w') ->
  exists inserted rest,
    reconcile (fun rc => hasRatingKey handle (CodeforcesRatingChange.contestId rc))
              (newRatingChange studentId handle) l (ratingChanges w)
    = inserted ++ rest
    /\ ratingChanges w' = ratingChanges w ++ map (newRatingChange studentId handle) inserted
    /\ (forall added', r = Ok added' ->
          rest = [] /\ added' = (added + List.length inserted)%nat)
    /\ (DbHealthy E ->
        ((exists added', r = Ok added')
         <-> Forall (fun rc => validateRatingChange (newRatingChange studentId handle rc) = [])
               (inserted ++ rest))).
Proof.
  induction l as [| rc l IH]; intros added w r w'.
  - simpl. intros H. injection H as <- <-. exists [], []. simpl.
    rewrite app_nil_r. repeat split.
    + injection H as <-. lia.
    + intros _. apply Forall_nil.
    + intros _. exists added. reflexivity.
  - simpl. unfold bind. rewrite syncRatingChange_run.
    destruct (dbFault E (dbOps w)) as [msg |] eqn:Hf1.
    { intros H. injection H as <- <-. eexists [], _. simpl. rewrite app_nil_r.
      split; [reflexivity |]. split; [reflexivity |]. split; [discriminate |].
      intros Hh. rewrite Hh in Hf1. discriminate. }
    destruct (existsb (hasRatingKey handle (CodeforcesRatingChange.contestId rc))
                      (ratingChanges w)) eqn:Hex.
    { intros H. apply IH in H. exact H. }
    destruct (validateRatingChange (newRatingChange studentId handle rc))
      as [| failure failures] eqn:Hvalid.
    2:{ intros H. injection H as <- <-. eexists [], _. simpl. rewrite app_nil_r.
        split; [reflexivity |]. split; [reflexivity |]. split; [discriminate |].
        intros _. split.
        - intros [added' Habs]. discriminate.
        - intros Hall. inversion Hall as [| x rest' Hx _]. subst.
          rewrite Hvalid in Hx. discriminate. }
    destruct (dbFault E (S (dbOps w))) as [msg |] eqn:Hf2.
    { intros H. injection H as <- <-. eexists [], _. simpl. rewrite app_nil_r.
      split; [reflexivity |]. split; [reflexivity |]. split; [discriminate |].
      intros Hh. rewrite Hh in Hf2. discriminate. }
    intros H. apply IH in H. cbn [ratingChanges with_ratingChanges with_dbOps] in H.
    destruct H as [inserted [rest [Hrec [Hsub [Hok Hh]]]]].
    exists (rc :: inserted), rest. split; [| split; [| split]].
    + simpl. rewrite Hrec. reflexivity.
    + rewrite Hsub. simpl. rewrite <- app_assoc. reflexivity.
    + intros added' Hr. destruct (Hok added' Hr) as [-> ->]. split; [reflexivity |].
      simpl. lia.
    + intros Hhealthy. rewrite (Hh Hhealthy). simpl. split.
      * intros Hall. apply Forall_cons; [exact Hvalid | exact Hall].
      * intros Hall. inversion Hall. assumption.
Qed.

Lemma getUserSubmissions_keeps {X} (f : World -> X) E handle from count :
  (forall url w, f (sent url w) = f w) ->
  preserves (keeps f) (getUserSubmissions E handle from count).
Proof.
  intros Hsent. apply getUserSubmissions_preserves.
  - apply keeps_refl.
  - apply keeps_trans.
  - exact Hsent.
Qed.

(** [syncSubmissions] is its fetch followed by its loop; the fetch leaves the
    collections alone. *)
Lemma syncSubmissions_cases E handle studentId w :
  submissions (snd (getUserSubmissions E handle None None w)) = submissions w
  /\ ratingChanges (snd (getUserSubmissions E handle None None w)) = ratingChanges w
  /\ syncSubmissions E handle studentId w
     = match fst (getUserSubmissions E handle None None w) with
       | Ok fetched =>
           forOf fetched (syncSubmission E handle studentId) 0%nat
                 (snd (getUserSubmissions E handle None None w))
       | Throw e => (Throw e, snd (getUserSubmissions E handle None None w))
       end.
Proof.
  split; [| split].
  - apply (getUserSubmissions_keeps submissions). reflexivity.
  - apply (getUserSubmissions_keeps ratingChanges). reflexivity.
  - unfold syncSubmissions, bind.
    destruct (getUserSubmissions E handle None None w) as [[fetched | e] wf]; reflexivity.
Qed.

(** C1.  One turn of either loop skips the record exactly when a stored
    document carries its key (the submission id; the pair of the synced handle
    and the contest id) and otherwise appends its document and counts it.  A
    pass that returns has reconciled the fetched records with the store, and
    returns the number of documents it inserted.  With a database that
    answers, a pass returns exactly when the schema accepts every document
    it has to insert, that is, when none of them has an empty string on a
    required path; for the pass over the submissions, provided that its
    fetch returns. *)
Theorem sync_inserts_exactly_the_absent_records E handle studentId :
  (forall s added w added' w',
     syncSubmission E handle studentId s added w = (Ok added', w') ->
     if existsb (hasSubmissionId (ISubmission.id s)) (submissions w)
     then added' = added /\ submissions w' = submissions w
     else added' = S added
          /\ submissions w' = submissions w ++ [newSubmission studentId handle s])
  /\ (forall rc added w added' w',
        syncRatingChange E handle studentId rc added w = (Ok added', w') ->
        if existsb (hasRatingKey handle (CodeforcesRatingChange.contestId rc))
                   (ratingChanges w)
        then added' = added /\ ratingChanges w' = ratingChanges w
        else added' = S added
             /\ ratingChanges w'
                = ratingChanges w ++ [newRatingChange studentId handle rc])
  /\ (forall w added w',
        syncSubmissions E handle studentId w = (Ok added, w') ->
        exists fetched,
          fst (getUserSubmissions E handle None None w) = Ok fetched
          /\ Reconciled ISubmission.id Submission.submissionId
               (newSubmission studentId handle)
               fetched (submissions w) (submissions w') added)
  /\ (forall changes w added w',
        syncRatingChanges E handle studentId changes w = (Ok added, w') ->
        Reconciled (ratingKey handle) ratingKeyOfDoc (newRatingChange studentId handle)
          changes (ratingChanges w) (ratingChanges w') added)
  /\ (DbHealthy E ->
      (forall w fetched,
         fst (getUserSubmissions E handle None None w) = Ok fetched ->
         (exists added w', syncSubmissions E handle studentId w = (Ok added, w'))
         <-> Forall (fun s => validateSubmission (newSubmission studentId handle s) = [])
               (reconcile (fun s => hasSubmissionId (ISubmission.id s))
                  (newSubmission studentId handle) fetched (submissions w)))
      /\ (forall changes w,
            (exists added w',
               syncRatingChanges E handle studentId changes w = (Ok added, w'))
            <-> Forall (fun rc =>
                          validateRatingChange (newRatingChange studentId handle rc) = [])
                  (reconcile
                     (fun rc => hasRatingKey handle (CodeforcesRatingChange.contestId rc))
                     (newRatingChange studentId handle) changes (ratingChanges w)))).
Proof.
  split; [| split; [| split; [| split]]].
  - intros s added w added' w'. rewrite syncSubmission_run.
    destruct (dbFault E (dbOps w)); [discriminate |].
    destruct (existsb _ _).
    + intros H. injection H as <- <-. split; reflexivity.
    + destruct (validateSubmission _); [| discriminate].
      destruct (dbFault E (S (dbOps w))); [discriminate |].
      intros H. injection H as <- <-. split; reflexivity.
  - intros rc added w added' w'. rewrite syncRatingChange_run.
    destruct (dbFault E (dbOps w)); [discriminate |].
    destruct (existsb _ _).
    + intros H. injection H as <- <-. split; reflexivity.
    + destruct (validateRatingChange _); [| discriminate].
      destruct (dbFault E (S (dbOps w))); [discriminate |].
      intros H. injection H as <- <-. split; reflexivity.
  - intros w added w' Hrun.
    destruct (syncSubmissions_cases E handle studentId w) as [Hsub [_ Hcases]].
    rewrite Hcases in Hrun.
    destruct (fst (getUserSubmissions E handle None None w)) as [fetched | e];
      [| discriminate].
    exists fetched. split; [reflexivity |].
    apply syncSubmissions_loop in Hrun.
    destruct Hrun as [inserted [rest [Hrec [Hstore [Hok _]]]]].
    destruct (Hok added eq_refl) as [-> ->]. rewrite app_nil_r in Hrec.
    rewrite Hstore, Hsub, <- Hrec. rewrite Hsub.
    apply (reconcile_Reconciled ISubmission.id Submission.submissionId
             (fun s => hasSubmissionId (ISubmission.id s))).
    + intros r d. apply submission_present_spec.
    + reflexivity.
  - intros changes w added w' Hrun. unfold syncRatingChanges in Hrun.
    apply syncRatingChanges_loop in Hrun.
    destruct Hrun as [inserted [rest [Hrec [Hstore [Hok _]]]]].
    destruct (Hok added eq_refl) as [-> ->]. rewrite app_nil_r in Hrec.
    rewrite Hstore, <- Hrec.
    apply (reconcile_Reconciled (ratingKey handle) ratingKeyOfDoc
             (fun rc => hasRatingKey handle (CodeforcesRatingChange.contestId rc))).
    + intros r d. apply rating_present_spec.
    + reflexivity.
  - intros Hdb. split.
    + intros w fetched Hfetch.
      destruct (syncSubmissions_cases E handle studentId w) as [Hsub [_ Hcases]].
      rewrite Hcases, Hfetch.
      destruct (forOf fetched (syncSubmission E handle studentId) 0%nat
                  (snd (getUserSubmissions E handle None None w))) as [r w'] eqn:Hloop.
      apply syncSubmissions_loop in Hloop.
      destruct Hloop as [inserted [rest [Hrec [_ [_ Hret]]]]].
      rewrite Hsub in Hrec. rewrite Hrec, <- (Hret Hdb). split.
      * intros [added [w0 H]]. injection H as -> _. exists added. reflexivity.
      * intros [added ->]. exists added, w'. reflexivity.
    + intros changes w. unfold syncRatingChanges.
      destruct (forOf changes (syncRatingChange E handle studentId) 0%nat w)
        as [r w'] eqn:Hloop.
      apply syncRatingChanges_loop in Hloop.
      destruct Hloop as [inserted [rest [Hrec [_ [_ Hret]]]]].
      rewrite Hrec, <- (Hret Hdb). split.
      * intros [added [w0 H]]. injection H as -> _. exists added. reflexivity.
      * intros [added ->]. exists added, w'. reflexivity.
Qed.

Lemma sync_inserts_exactly_the_absent_records_witness :
  (exists fetched,
     fst (getUserSubmissions (sampleEnv busyRemote) "tourist" None None busyWorld)
     = Ok fetched
     /\ Reconciled ISubmission.id Submission.submissionId (newSubmission "s1" "tourist")
          fetched (submissions busyWorld)
          (submissions (snd (syncSubmissions (sampleEnv busyRemote) "tourist" "s1" busyWorld)))
          1)
  /\ Reconciled (ratingKey "tourist") ratingKeyOfDoc (newRatingChange "s1" "tourist")
       [sampleRatingChange 1; sampleRatingChange 2; sampleRatingChange 1]
       (ratingChanges busyWorld)
       (ratingChanges
          (snd (syncRatingChanges (sampleEnv busyRemote) "tourist" "s1"
                  [sampleRatingChange 1; sampleRatingChange 2; sampleRatingChange 1]
                  busyWorld)))
       2.
Proof.
  destruct (sync_inserts_exactly_the_absent_records (sampleEnv busyRemote) "tourist" "s1")
    as [_ [_ [Hsubs [Hrcs _]]]].
  split.
  - apply Hsubs. vm_compute. reflexivity.
  - apply Hrcs. vm_compute. reflexivity.
Defined.

(** C6.  Run against the store that a first pass produced, a second pass over
    the same remote data inserts nothing: both collections are as the first
    pass left them, whatever the database does in the meantime; if the second
    pass returns, it returns 0, and it does return when the database answers. *)
Theorem second_sync_inserts_nothing E handle studentId changes w added1 w1 v added2 v1
  (Hfirst : syncSubmissions E handle studentId w = (Ok added1, w1))
  (Hsame : fst (getUserSubmissions E handle None None w1)
           = fst (getUserSubmissions E handle None None w))
  (Hfirst' : syncRatingChanges E handle studentId changes v = (Ok added2, v1)) :
  (submissions (snd (syncSubmissions E handle studentId w1)) = submissions w1
   /\ ratingChanges (snd (syncSubmissions E handle studentId w1)) = ratingChanges w1
   /\ (forall n, fst (syncSubmissions E handle studentId w1) = Ok n -> n = 0%nat)
   /\ (DbHealthy E -> fst (syncSubmissions E handle studentId w1) = Ok 0%nat))
  /\ (ratingChanges (snd (syncRatingChanges E handle studentId changes v1))
      = ratingChanges v1
      /\ submissions (snd (syncRatingChanges E handle studentId changes v1))
         = submissions v1
      /\ (forall n, fst (syncRatingChanges E handle studentId changes v1) = Ok n ->
                    n = 0%nat)
      /\ (DbHealthy E ->
          fst (syncRatingChanges E handle studentId changes v1) = Ok 0%nat)).
Proof.
  split.
  - (* submissions *)
    destruct (syncSubmissions_cases E handle studentId w) as [Hsub [_ Hcases]].
    rewrite Hcases in Hfirst.
    destruct (fst (getUserSubmissions E handle None None w)) as [fetched | e] eqn:Hfetch;
      [| discriminate].
    apply syncSubmissions_loop in Hfirst.
    destruct Hfirst as [inserted [rest [Hrec [Hstore [Hok _]]]]].
    destruct (Hok added1 eq_refl) as [-> _]. rewrite app_nil_r in Hrec.
    rewrite Hsub in Hstore, Hrec. rewrite <- Hrec in Hstore.
    destruct (syncSubmissions_cases E handle studentId w1) as [Hsub1 [Hrc1 Hcases1]].
    assert (Hframe : ratingChanges (snd (syncSubmissions E handle studentId w1))
                     = ratingChanges w1).
    { apply (syncSubmissions_preserves E (keeps ratingChanges)); try (intros; reflexivity).
      apply keeps_trans. }
    rewrite Hcases1, Hsame.
    destruct (forOf fetched (syncSubmission E handle studentId) 0%nat
                (snd (getUserSubmissions E handle None None w1))) as [r w2] eqn:Hloop.
    rewrite Hcases1, Hsame, Hloop in Hframe.
    apply syncSubmissions_loop in Hloop.
    destruct Hloop as [ins2 [rest2 [Hrec2 [Hstore2 [Hok2 Hret2]]]]].
    rewrite Hsub1 in Hrec2, Hstore2.
    rewrite (reconcile_nothing ISubmission.id Submission.submissionId
               (fun s => hasSubmissionId (ISubmission.id s))) in Hrec2.
    + symmetry in Hrec2. apply app_eq_nil in Hrec2. destruct Hrec2 as [-> ->].
      simpl in Hstore2. rewrite app_nil_r in Hstore2. simpl.
      split; [exact Hstore2 |]. split; [exact Hframe |]. split.
      * intros n Hn. destruct (Hok2 n Hn) as [_ ->]. reflexivity.
      * intros Hdb. destruct (proj2 (Hret2 Hdb) (Forall_nil _)) as [n ->].
        destruct (Hok2 n eq_refl) as [_ ->]. reflexivity.
    + intros r0 d. apply submission_present_spec.
    + intros r0 Hr0. rewrite Hstore.
      apply (reconcile_covers ISubmission.id Submission.submissionId
               (fun s => hasSubmissionId (ISubmission.id s))).
      * intros r1 d. apply submission_present_spec.
      * reflexivity.
      * exact Hr0.
  - (* rating changes *)
    unfold syncRatingChanges in *.
    apply syncRatingChanges_loop in Hfirst'.
    destruct Hfirst' as [inserted [rest [Hrec [Hstore [Hok _]]]]].
    destruct (Hok added2 eq_refl) as [-> _]. rewrite app_nil_r in Hrec.
    rewrite <- Hrec in Hstore.
    assert (Hframe : submissions (snd (forOf changes (syncRatingChange E handle studentId)
                                         0%nat v1)) = submissions v1).
    { apply (syncRatingChanges_preserves E (keeps submissions)); try (intros; reflexivity).
      apply keeps_trans. }
    destruct (forOf changes (syncRatingChange E handle studentId) 0%nat v1)
      as [r v2] eqn:Hloop.
    apply syncRatingChanges_loop in Hloop.
    destruct Hloop as [ins2 [rest2 [Hrec2 [Hstore2 [Hok2 Hret2]]]]].
    rewrite (reconcile_nothing (ratingKey handle) ratingKeyOfDoc
               (fun rc => hasRatingKey handle (CodeforcesRatingChange.contestId rc)))
      in Hrec2.
    + symmetry in Hrec2. apply app_eq_nil in Hrec2. destruct Hrec2 as [-> ->].
      simpl in Hstore2. rewrite app_nil_r in Hstore2. simpl.
      split; [exact Hstore2 |]. split; [exact Hframe |]. split.
      * intros n Hn. destruct (Hok2 n Hn) as [_ ->]. reflexivity.
      * intros Hdb. destruct (proj2 (Hret2 Hdb) (Forall_nil _)) as [n ->].
        destruct (Hok2 n eq_refl) as [_ ->]. reflexivity.
    + intros r0 d. apply rating_present_spec.
    + intros r0 Hr0. rewrite Hstore.
      apply (reconcile_covers (ratingKey handle) ratingKeyOfDoc
               (fun rc => hasRatingKey handle (CodeforcesRatingChange.contestId rc))).
      * intros r1 d. apply rating_present_spec.
      * reflexivity.
      * exact Hr0.
Qed.

Lemma second_sync_inserts_nothing_witness :
  (submissions (snd (syncSubmissions (sampleEnv busyRemote) "tourist" "s1"
                       (snd (syncSubmissions (sampleEnv busyRemote) "tourist" "s1" busyWorld))))
   = submissions (snd (syncSubmissions (sampleEnv busyRemote) "tourist" "s1" busyWorld))
   /\ fst (syncSubmissions (sampleEnv busyRemote) "tourist" "s1"
             (snd (syncSubmissions (sampleEnv busyRemote) "tourist" "s1" busyWorld)))
      = Ok 0%nat)
  /\ (ratingChanges
        (snd (syncRatingChanges (sampleEnv busyRemote) "tourist" "s1"
                [sampleRatingChange 1; sampleRatingChange 2; sampleRatingChange 1]
                (snd (syncRatingChanges (sampleEnv busyRemote) "tourist" "s1"
                        [sampleRatingChange 1; sampleRatingChange 2; sampleRatingChange 1]
                        busyWorld))))
      = ratingChanges
          (snd (syncRatingChanges (sampleEnv busyRemote) "tourist" "s1"
                  [sampleRatingChange 1; sampleRatingChange 2; sampleRatingChange 1]
                  busyWorld))
      /\ fst (syncRatingChanges (sampleEnv busyRemote) "tourist" "s1"
                [sampleRatingChange 1; sampleRatingChange 2; sampleRatingChange 1]
                (snd (syncRatingChanges (sampleEnv busyRemote) "tourist" "s1"
                        [sampleRatingChange 1; sampleRatingChange 2; sampleRatingChange 1]
                        busyWorld)))
         = Ok 0%nat).
Proof.
  destruct (second_sync_inserts_nothing (sampleEnv busyRemote) "tourist" "s1"
              [sampleRatingChange 1; sampleRatingChange 2; sampleRatingChange 1]
              busyWorld 1
              (snd (syncSubmissions (sampleEnv busyRemote) "tourist" "s1" busyWorld))
              busyWorld 2
              (snd (syncRatingChanges (sampleEnv busyRemote) "tourist" "s1"
                      [sampleRatingChange 1; sampleRatingChange 2; sampleRatingChange 1]
                      busyWorld)))
    as [[Hs [_ [_ Hs0]]] [Hr [_ [_ Hr0]]]].
  - vm_compute. reflexivity.
  - vm_compute. reflexivity.
  - vm_compute. reflexivity.
  - split; split; [exact Hs | apply Hs0 | exact Hr | apply Hr0]; intros n; reflexivity.
Defined.

(** ** Which remote failures abort a sync *)

Lemma sameRecords_refl w : sameRecords w w.
Proof. repeat split. Qed.

Lemma sameRecords_trans a b c : sameRecords a b -> sameRecords b c -> sameRecords a c.
Proof.
  intros [H1 [H2 H3]] [H4 [H5 H6]]. repeat split; congruence.
Qed.

Lemma getUserSubmissions_run E handle w :
  getUserSubmissions E handle None None w
  = (submissionsFetch E (requests w) handle,
     sent (BASE_URL ++ "/user.status?handle=" ++ handle)%string w).
Proof.
  unfold getUserSubmissions, tryCatch, bind, submissionsFetch. rewrite makeRequest_run.
  destruct (fetched _) as [l | e]; [reflexivity |].
  destruct (includes (message e) "not found"); reflexivity.
Qed.

Lemma getUserSubmissions_requests E handle from count w :
  requests (snd (getUserSubmissions E handle from count w)) = S (requests w).
Proof.
  unfold getUserSubmissions, tryCatch, bind. rewrite makeRequest_run.
  destruct (fetched _) as [l | e]; [reflexivity |].
  destruct (includes (message e) "not found"); reflexivity.
Qed.

Lemma getUserStats_run E handle w :
  match profile E (requests w) handle with
  | Ok user =>
      exists ratingData count w',
        getUserStats E handle w = (Ok (UserStats.mk user ratingData count), w')
        /\ requests w' = (requests w + 4)%nat /\ sameRecords w w'
  | Throw _ =>
      exists w',
        getUserStats E handle w
        = (Throw (Error ("User '" ++ handle ++ "' not found")%string), w')
        /\ sameRecords w w'
  end.
Proof.
  pose proof (getUserStats_exact E handle w) as H.
  destruct (profile E (requests w) handle) as [user | e].
  - destruct H as [ratingData [count [url H]]].
    exists ratingData, count, (sent url (settled handle w)).
    split; [exact H |]. split; [simpl; lia | repeat split].
  - exists (settled handle w). split; [exact H | repeat split].
Qed.

Lemma syncContests_run E w :
  exists n w',
    syncContests E w = (Ok n, w')
    /\ requests w' = S (requests w) /\ sameRecords w w'.
Proof.
  assert (Hframe : sameRecords w (snd (syncContests E w))).
  { apply (syncContests_preserves E sameRecords sameRecords_refl sameRecords_trans);
      intros; repeat split. }
  assert (Hreq : forall l acc w0,
            requests (snd (forOf l
              (fun c inserted =>
                 upsertedCount <- Contest_upsert E c ;;
                 ret (if (0 <? upsertedCount)%nat then S inserted else inserted)) acc w0))
            = requests w0).
  { intros l acc w0. apply (preserves_forOf (keeps requests)).
    - apply keeps_refl.
    - apply keeps_trans.
    - intros c k. apply preserves_bind.
      + apply keeps_trans.
      + apply (Contest_upsert_preserves E (keeps requests)); try (intros; reflexivity).
        apply keeps_trans.
      + intros a. apply preserves_ret. apply keeps_refl. }
  destruct (syncContests E w) as [r wf] eqn:Hrun. simpl in Hframe.
  unfold syncContests, tryCatch, getContests in Hrun. unfold bind at 1 2 in Hrun.
  rewrite makeRequest_run in Hrun.
  destruct (fetched _) as [l | e]; simpl in Hrun.
  - match type of Hrun with
    | context [forOf ?l ?b ?a ?w0] =>
        specialize (Hreq l a w0); destruct (forOf l b a w0) as [[n | e] w'] eqn:Hloop
    end; simpl in Hreq; injection Hrun as <- <-; eexists; eexists;
      (split; [reflexivity |]); (split; [exact Hreq | exact Hframe]).
  - injection Hrun as <- <-. eexists. eexists.
    split; [reflexivity |]. split; [reflexivity | exact Hframe].
Qed.

Lemma updateFirst_existsb {A} (p q : A -> bool) (f : A -> A) (l : list A) :
  (forall x, q (f x) = q x) ->
  existsb q (updateFirst p f l) = existsb q l.
Proof.
  intros Hf. induction l as [| x rest IH]; simpl; [reflexivity |].
  destruct (p x); simpl.
  - rewrite Hf. reflexivity.
  - rewrite IH. reflexivity.
Qed.

Lemma StudentUpdate_apply_id update d :
  Student._id (StudentUpdate.apply update d) = Student._id d.
Proof.
  unfold StudentUpdate.apply.
  destruct (StudentUpdate.currentRating update); destruct (StudentUpdate.maxRating update);
    reflexivity.
Qed.

Lemma preSave_id doc :
  Student._id (IStudentDocument.fields (preSave doc))
  = Student._id (IStudentDocument.fields doc).
Proof.
  unfold preSave, IStudentDocument.assign_maxRating.
  destruct (_ && _); [| reflexivity]. destruct (option_Z_eqb _ _); reflexivity.
Qed.

Lemma assign_lastDataUpdate_id v doc :
  Student._id (IStudentDocument.fields (IStudentDocument.assign_lastDataUpdate v doc))
  = Student._id (IStudentDocument.fields doc).
Proof.
  unfold IStudentDocument.assign_lastDataUpdate.
  destruct (option_Z_eqb _ _); reflexivity.
Qed.

(** *** What the database phase of a sync can throw *)











Lemma getUserStats_ops E handle w : dbOps (snd (getUserStats E handle w)) = dbOps w.
Proof.
  apply (getUserStats_preserves E (keeps dbOps)); try (intros; reflexivity).
  apply keeps_trans.
Qed.






(** A student whose stored rating lies outside of what the schema accepts:
    the sync fetches everything and stores the records, and fails when
    [save] validates the document. *)
Example sync_of_a_student_that_does_not_validate :
  let E := sampleEnv (steadyRemote [sampleUser "tourist" (Some 1600) (Some 1700)] [] [] []) in
  let w := sampleWorld [sampleStudent "s1" "tourist" (Some (-5)) None None] 1000 in
  fst (syncStudentData E "s1" w)
  = Ok (SyncResult.mk false "Sync failed for 'tourist'" None
          (Some "Student validation failed: currentRating: Rating cannot be negative"))
  /\ requests (snd (syncStudentData E "s1" w)) = 7%nat
  /\ map Student.lastDataUpdate (students (snd (syncStudentData E "s1" w))) = [None].
Proof. vm_compute. repeat split. Qed.

(** A fetched submission that the schema refuses: the sync stores the
    submissions before it and stops there; the ratings and the stamp of the
    student are not written. *)
Example sync_of_a_submission_without_verdict :
  let E := sampleEnv (steadyRemote [sampleUser "tourist" (Some 1600) (Some 1700)] []
                        [sampleSubmission 10; unjudgedSubmission 11; sampleSubmission 12]
                        []) in
  let w := sampleWorld [sampleStudent "s1" "tourist" None None None] 1000 in
  fst (syncStudentData E "s1" w)
  = Ok (SyncResult.mk false "Sync failed for 'tourist'" None
          (Some "Submission validation failed: verdict: Path `verdict` is required."))
  /\ map Submission.submissionId (submissions (snd (syncStudentData E "s1" w))) = [10]
  /\ students (snd (syncStudentData E "s1" w)) = students w.
Proof. vm_compute. repeat split. Qed.




(** ** What a successful sync stores *)

(** When the pre-save hook fires, the maximum it assigns differs from the one
    the document had, so the path is marked as modified. *)
Lemma hook_changes_maxRating cur max :
  truthy cur && (negb (truthy max) || js_gt cur max) = true ->
  option_Z_eqb max cur = false.
Proof.
  intros Hhook. destruct cur as [c |]; [| discriminate]. simpl in Hhook.
  destruct (c =? 0) eqn:Hc; [discriminate |]. simpl in Hhook.
  destruct max as [m |]; [| reflexivity]. simpl in *.
  destruct (m =? 0) eqn:Hm; simpl in Hhook.
  - apply Z.eqb_eq in Hm. subst m. rewrite Z.eqb_sym. exact Hc.
  - apply Z.ltb_lt in Hhook. apply Z.eqb_neq. lia.
Qed.

(** What the last two steps of a sync leave of a stored student [d]: the
    update with the fetched ratings, then the save of the document that was
    loaded before, stamped with [t]. *)
Lemma stamped_and_saved d update t :
  let doc := preSave (IStudentDocument.assign_lastDataUpdate (Some t)
                        (IStudentDocument.hydrate d)) in
  let d' := writeModified doc (StudentUpdate.apply update d) in
  Student.currentRating d'
  = match StudentUpdate.currentRating update with
    | Some r => Some r
    | None => Student.currentRating d
    end
  /\ Student.lastDataUpdate d' = Some t
  /\ Student.maxRating d'
     = if truthy (Student.currentRating d)
          && (negb (truthy (Student.maxRating d))
              || js_gt (Student.currentRating d) (Student.maxRating d))
       then Student.currentRating d
       else match StudentUpdate.maxRating update with
            | Some m => Some m
            | None => Student.maxRating d
            end.
Proof.
  destruct d as [id name email phone handle cur max last notif count].
  destruct update as [ucur umax].
  unfold preSave, writeModified, IStudentDocument.assign_lastDataUpdate,
    IStudentDocument.assign_maxRating, IStudentDocument.isModified,
    IStudentDocument.hydrate, StudentUpdate.apply.
  cbn [IStudentDocument.fields IStudentDocument.modifiedPaths Student.lastDataUpdate
       Student.currentRating Student.maxRating Student.set_lastDataUpdate
       StudentUpdate.currentRating StudentUpdate.maxRating].
  destruct (option_Z_eqb last (Some t)) eqn:Hlast.
  - assert (last = Some t) as ->.
    { destruct last as [l |]; simpl in Hlast; [| discriminate].
      apply Z.eqb_eq in Hlast. subst l. reflexivity. }
    cbn [IStudentDocument.fields IStudentDocument.modifiedPaths Student.currentRating
         Student.maxRating].
    destruct (truthy cur && (negb (truthy max) || js_gt cur max)) eqn:Hhook.
    + rewrite (hook_changes_maxRating cur max Hhook).
      destruct ucur, umax; simpl; repeat split.
    + destruct ucur, umax; simpl; repeat split.
  - cbn [IStudentDocument.fields IStudentDocument.modifiedPaths Student.currentRating
         Student.maxRating Student.set_lastDataUpdate].
    destruct (truthy cur && (negb (truthy max) || js_gt cur max)) eqn:Hhook.
    + rewrite (hook_changes_maxRating cur max Hhook).
      destruct ucur, umax; simpl; repeat split.
    + destruct ucur, umax; simpl; repeat split.
Qed.

Lemma updateStudentRatings_stores E studentId user w w' :
  updateStudentRatings E studentId user w = (Ok tt, w') ->
  find (hasId studentId) (students w')
  = option_map (StudentUpdate.apply
                  (StudentUpdate.mk (CodeforcesUser.rating user)
                                    (CodeforcesUser.maxRating user)))
               (find (hasId studentId) (students w))
  /\ now w' = now w.
Proof.
  unfold updateStudentRatings, Student_updateOne, dbOp, StudentUpdate.keys.
  cbn [StudentUpdate.currentRating StudentUpdate.maxRating].
  destruct (CodeforcesUser.rating user) as [r |] eqn:Hr;
    destruct (CodeforcesUser.maxRating user) as [m |] eqn:Hm; simpl.
  1-3: destruct (dbFault E (dbOps w)); [discriminate |];
       intros H; injection H as <-; simpl; split; [| reflexivity];
       apply find_updateFirst; intros x Hx; unfold hasId in *;
       rewrite StudentUpdate_apply_id; exact Hx.
  intros H. injection H as <-. split; [| reflexivity].
  destruct (find (hasId studentId) (students w)); reflexivity.
Qed.

Lemma Student_save_stores E doc w saved w' :
  Student_save E doc w = (Ok saved, w') ->
  find (hasId (Student._id (IStudentDocument.fields doc))) (students w')
  = option_map (writeModified (preSave doc))
               (find (hasId (Student._id (IStudentDocument.fields doc))) (students w))
  /\ now w' = now w.
Proof.
  unfold Student_save.
  destruct (validateStudent (IStudentDocument.fields doc)); [| discriminate].
  rewrite preSave_id.
  unfold dbOp. destruct (dbFault E (dbOps w)); [discriminate |]. simpl.
  destruct (existsb _ (students w)); [| discriminate].
  intros H. injection H as <- <-. simpl. split; [| reflexivity].
  apply find_updateFirst. intros x Hx. unfold hasId in *.
  rewrite writeModified_id. exact Hx.
Qed.

(** [step] in a hypothesis, and the case of a step that throws inside a sync
    known to have succeeded. *)
Ltac step_in H Hrun := rewrite (bind_Ok _ _ _ _ _ H) in Hrun; cbv beta iota in Hrun.

Ltac failed_sync H Hrun Hok :=
  rewrite (bind_Throw _ _ _ _ _ H) in Hrun; unfold ret in Hrun;
  injection Hrun as <- <-; discriminate Hok.

(** X1.  What a sync that reports success has stored for the student: the
    fetched current rating when the profile carries one, the time of the stamp as
    [lastDataUpdate], and as maximum the fetched one when the profile carries
    one -- unless the pre-save hook fires on the document loaded before the
    sync, in which case the maximum is the current rating from before the
    sync. *)
Theorem successful_sync_stores E studentId w d res w'
  (Hstored : find (hasId studentId) (students w) = Some d)
  (Hrun : syncStudentData E studentId w = (Ok res, w'))
  (Hok : SyncResult.success res = true) :
  exists user d',
    profile E (S (requests w)) (Student.codeforcesHandle d) = Ok user
    /\ find (hasId studentId) (students w') = Some d'
    /\ Student.currentRating d'
       = match CodeforcesUser.rating user with
         | Some r => Some r
         | None => Student.currentRating d
         end
    /\ Student.lastDataUpdate d' = Some (now w')
    /\ Student.maxRating d'
       = if truthy (Student.currentRating d)
            && (negb (truthy (Student.maxRating d))
                || js_gt (Student.currentRating d) (Student.maxRating d))
         then Student.currentRating d
         else match CodeforcesUser.maxRating user with
              | Some m => Some m
              | None => Student.maxRating d
              end.
Proof.
  assert (Hid : Student._id d = studentId).
  { apply find_some in Hstored. destruct Hstored as [_ H]. apply String.eqb_eq. exact H. }
  unfold syncStudentData, Student_findById in Hrun. unfold bind at 1 in Hrun.
  destruct (isObjectId E studentId); cbn [negb] in Hrun; [| discriminate].
  unfold dbOp in Hrun.
  destruct (dbFault E (dbOps w)); [discriminate |].
  unfold gets in Hrun. cbn [students with_dbOps] in Hrun. rewrite Hstored in Hrun.
  cbn [option_map IStudentDocument.fields IStudentDocument.hydrate] in Hrun.
  set (w0 := with_dbOps (S (dbOps w)) w) in *.
  set (handle := Student.codeforcesHandle d) in *.
  unfold syncHandle, tryCatch in Hrun.
  rewrite (bind_Ok _ _ w0 (Some (IStudentDocument.hydrate d)) w0 eq_refl) in Hrun.
  cbv beta iota in Hrun.
  step_in (validateHandle_run E handle w0) Hrun.
  change (requests w0) with (requests w) in Hrun.
  destruct (profile E (requests w) handle) as [u0 | e0]; cbn [negb] in Hrun.
  2:{ unfold ret in Hrun. injection Hrun as <- <-. discriminate Hok. }
  set (w1 := sent (BASE_URL ++ "/user.info?handles=" ++ handle)%string w0) in *.
  pose proof (getUserStats_run E handle w1) as Hstats.
  change (requests w1) with (S (requests w)) in Hstats.
  destruct (profile E (S (requests w)) handle) as [user | e1].
  2:{ destruct Hstats as [w2 [Hstats _]]. failed_sync Hstats Hrun Hok. }
  destruct Hstats as [ratingData [count [w2 [Hstats [_ [Hst2 _]]]]]].
  step_in Hstats Hrun.
  destruct (syncContests_run E w2) as [nc [w3 [Hcon [_ [Hst3 _]]]]].
  step_in Hcon Hrun.
  cbn [UserStats.ratingChanges UserStats.user IStudentDocument.fields
       IStudentDocument.hydrate] in Hrun.
  rewrite Hid in Hrun.
  assert (Hst4 : students (snd (syncSubmissions E handle studentId w3)) = students w3).
  { apply (syncSubmissions_preserves E (keeps students)); try (intros; reflexivity).
    apply keeps_trans. }
  destruct (syncSubmissions E handle studentId w3) as [[ns | e] w4] eqn:Hsub.
  2:{ failed_sync Hsub Hrun Hok. }
  step_in Hsub Hrun. simpl in Hst4.
  assert (Hst5 : students (snd (syncRatingChanges E handle studentId ratingData w4))
                 = students w4).
  { apply (syncRatingChanges_preserves E (keeps students)); try (intros; reflexivity).
    apply keeps_trans. }
  destruct (syncRatingChanges E handle studentId ratingData w4) as [[nr | e] w5] eqn:Hrc.
  2:{ failed_sync Hrc Hrun Hok. }
  step_in Hrc Hrun. simpl in Hst5.
  destruct (updateStudentRatings E studentId user w5) as [[[] | e] w6] eqn:Hupd.
  2:{ failed_sync Hupd Hrun Hok. }
  step_in Hupd Hrun.
  rewrite (bind_Ok Date_now _ w6 (now w6) w6 eq_refl) in Hrun. cbv beta iota in Hrun.
  destruct (Student_save E (IStudentDocument.assign_lastDataUpdate (Some (now w6))
                              (IStudentDocument.hydrate d)) w6)
    as [[saved | e] w7] eqn:Hsave.
  2:{ failed_sync Hsave Hrun Hok. }
  step_in Hsave Hrun. unfold ret in Hrun. injection Hrun as <- <-.
  apply updateStudentRatings_stores in Hupd. destruct Hupd as [Hfind6 _].
  apply Student_save_stores in Hsave. destruct Hsave as [Hfind7 Hnow7].
  rewrite assign_lastDataUpdate_id in Hfind7. cbn [IStudentDocument.fields
    IStudentDocument.hydrate] in Hfind7. rewrite Hid in Hfind7.
  rewrite Hfind6, Hst5, Hst4, Hst3, Hst2 in Hfind7.
  change (students w1) with (students w) in Hfind7. rewrite Hstored in Hfind7.
  simpl option_map in Hfind7.
  exists user. eexists. split; [reflexivity |]. split; [exact Hfind7 |].
  rewrite Hnow7.
  apply (stamped_and_saved d (StudentUpdate.mk (CodeforcesUser.rating user)
                                               (CodeforcesUser.maxRating user)) (now w6)).
Qed.

Lemma successful_sync_stores_witness :
  exists user d',
    profile (sampleEnv busyRemote) 1 "tourist" = Ok user
    /\ find (hasId "s1")
          (students (snd (syncStudentData (sampleEnv busyRemote) "s1" busyWorld)))
       = Some d'
    /\ Student.currentRating d' = Some 1600
    /\ Student.lastDataUpdate d' = Some 2000
    /\ Student.maxRating d' = Some 1500.
Proof.
  destruct (successful_sync_stores (sampleEnv busyRemote) "s1" busyWorld
              (sampleStudent "s1" "tourist" (Some 1500) None None)
              (SyncResult.mk true "Synced 'tourist' successfully"
                 (Some (SyncSummary.mk 1 2 1 (Some 1600) (Some 1700))) None)
              (snd (syncStudentData (sampleEnv busyRemote) "s1" busyWorld)))
    as [user [d' [Hp [Hf [Hc [Hl Hm]]]]]].
  - reflexivity.
  - vm_compute. reflexivity.
  - reflexivity.
  - exists user, d'. injection Hp as <-. repeat split; assumption.
Defined.

(** C5 fails on a student whose stored rating has no maximum (as an update
    through the REST API, or an earlier sync of a profile without
    [maxRating], leaves it).  The sync succeeds and reports the fetched
    maximum 1700; [updateOne] stores it; then [save] of the document loaded
    before runs the pre-save hook on the old values and writes the old
    current rating 1500 over it. *)
Lemma syncStudentData_stores_stale_maxRating :
  let E := sampleEnv (steadyRemote [sampleUser "tourist" (Some 1600) (Some 1700)] [] [] []) in
  let w := sampleWorld [sampleStudent "s1" "tourist" (Some 1500) None None] 1000 in
  fst (syncStudentData E "s1" w)
  = Ok (SyncResult.mk true "Synced 'tourist' successfully"
          (Some (SyncSummary.mk 0 0 0 (Some 1600) (Some 1700))) None)
  /\ students (snd (syncStudentData E "s1" w))
     = [sampleStudent "s1" "tourist" (Some 1600) (Some 1500) (Some 2000)].
Proof. split; vm_compute; reflexivity. Qed.



(** * Beyond the claims *)

(** ** The remote client: how failures are reported *)

Lemma includes_after_fetch_prefix s sub :
  sub = "not found" \/ sub = "rating" ->
  includes ("Failed to fetch data from Codeforces: " ++ s) sub = includes s sub.
Proof. intros [-> | ->]; reflexivity. Qed.

Lemma includes_after_api_prefix s sub :
  sub = "not found" \/ sub = "rating" ->
  includes ("Failed to fetch data from Codeforces: " ++ ("Codeforces API error: " ++ s)) sub
  = includes s sub.
Proof. intros [-> | ->]; reflexivity. Qed.

(** X2.  [makeRequest] sends exactly one request, behind one delay of 200 ms,
    and normalises every failure: it never lets an Axios error through, and
    the [Error] it throws carries one of four fixed messages or the detail
    behind the prefix [Failed to fetch data from Codeforces: ].  A body whose
    status is not [OK] is reported with both prefixes, because the error
    thrown inside the [try] block is caught by the function's own [catch]. *)
Theorem makeRequest_normalises_failures {T} (api : nat -> string -> AxiosResult T)
  endpoint w :
  let url := (BASE_URL ++ endpoint)%string in
  let run := makeRequest api endpoint w in
  requests (snd run) = S (requests w)
  /\ trace (snd run) = trace w ++ [EvDelay 200; EvRequest url]
  /\ match fst run with
     | Ok result =>
         exists data,
           api (requests w) url = Resolved data
           /\ CodeforcesApiResponse.status data = "OK"
           /\ result = CodeforcesApiResponse.result data
     | Throw (AxiosError _ _ _) => False
     | Throw (Error msg) =>
         msg = "Invalid request parameters"
         \/ msg = "Codeforces API is temporarily unavailable"
         \/ msg = "Request timeout - Codeforces API is slow to respond"
         \/ msg = "Cannot connect to Codeforces API - check your internet connection"
         \/ exists detail, msg = ("Failed to fetch data from Codeforces: " ++ detail)%string
     end
  /\ (forall data,
        api (requests w) url = Resolved data ->
        CodeforcesApiResponse.status data <> "OK" ->
        fst run
        = Throw (Error ("Failed to fetch data from Codeforces: Codeforces API error: "
                        ++ orString (CodeforcesApiResponse.comment data) "Unknown error"))).
Proof.
  intros url run. subst run. rewrite makeRequest_run. fold url.
  split; [reflexivity |]. split.
  { cbn [snd sent trace with_requests with_trace]. rewrite <- app_assoc. reflexivity. }
  cbn [fst]. split.
  - destruct (api (requests w) url) as [data | st code msg]; cbn [fetched].
    + destruct (CodeforcesApiResponse.status data =? "OK")%string eqn:Hst; cbn [negb].
      * exists data. apply String.eqb_eq in Hst. repeat split. exact Hst.
      * right. right. right. right. eexists. reflexivity.
    + destruct (option_Z_is st 400); [left; reflexivity |].
      destruct (option_Z_is st 503); [right; left; reflexivity |].
      destruct (option_string_eqb code "ECONNABORTED"); [right; right; left; reflexivity |].
      destruct (option_string_eqb code "ENOTFOUND");
        [right; right; right; left; reflexivity |].
      right. right. right. right. eexists. reflexivity.
  - intros data -> Hst. cbn [fetched]. apply String.eqb_neq in Hst. rewrite Hst. reflexivity.
Qed.

(** X3.  Which failures [getUserRatingChanges] turns into an empty history.
    A request rejected with HTTP 400 or 503, a timeout and a DNS failure are
    rethrown under their fixed messages, whatever the text of the Axios error
    -- so an unknown handle that the API answers with HTTP 400 is not "no
    rating changes".  The empty list is returned for a body that is not [OK]
    whose comment mentions [not found] or [rating], and for any other Axios
    error whose message does. *)
Theorem getUserRatingChanges_swallows E handle w :
  let url := (BASE_URL ++ "/user.rating?handle=" ++ handle)%string in
  let result := fst (getUserRatingChanges E handle w) in
  match user_rating (remote E) (requests w) url with
  | Resolved data =>
      if (CodeforcesApiResponse.status data =? "OK")%string then
        result = Ok (orEmpty (CodeforcesApiResponse.result data))
      else
        let comment := orString (CodeforcesApiResponse.comment data) "Unknown error" in
        result
        = if includes comment "not found" || includes comment "rating" then Ok []
          else Throw (Error ("Failed to fetch data from Codeforces: Codeforces API error: "
                             ++ comment))
  | Rejected st code msg =>
      if option_Z_is st 400 then
        result = Throw (Error "Invalid request parameters")
      else if option_Z_is st 503 then
        result = Throw (Error "Codeforces API is temporarily unavailable")
      else if option_string_eqb code "ECONNABORTED" then
        result = Throw (Error "Request timeout - Codeforces API is slow to respond")
      else if option_string_eqb code "ENOTFOUND" then
        result
        = Throw (Error "Cannot connect to Codeforces API - check your internet connection")
      else
        result
        = if includes msg "not found" || includes msg "rating" then Ok []
          else Throw (Error ("Failed to fetch data from Codeforces: " ++ msg))
  end.
Proof.
  intros url result. subst result.
  unfold getUserRatingChanges, tryCatch, bind. rewrite makeRequest_run.
  change (BASE_URL ++ "/user.rating?handle=" ++ handle)%string with url.
  destruct (user_rating (remote E) (requests w) url) as [data | st code msg]; cbn [fetched].
  - destruct (CodeforcesApiResponse.status data =? "OK")%string; cbn [negb fst ret].
    + reflexivity.
    + cbv zeta. cbn [message].
      rewrite !includes_after_api_prefix by tauto.
      destruct (_ || _); reflexivity.
  - destruct (option_Z_is st 400); [reflexivity |].
    destruct (option_Z_is st 503); [reflexivity |].
    destruct (option_string_eqb code "ECONNABORTED"); [reflexivity |].
    destruct (option_string_eqb code "ENOTFOUND"); [reflexivity |].
    cbn [message]. rewrite !includes_after_fetch_prefix by tauto.
    destruct (_ || _); reflexivity.
Qed.

(** X4.  [getUserSubmissions] sends one request, whatever the range asked
    for, and turns a failure into an empty list only when its text mentions
    [not found]: a body that is not [OK] with such a comment, or an Axios
    error with such a message that is none of HTTP 400, HTTP 503, a timeout
    or a DNS failure.  Those four are rethrown. *)
Theorem getUserSubmissions_swallows E handle from count w :
  let run := getUserSubmissions E handle from count w in
  exists url,
    trace (snd run) = trace w ++ [EvDelay 200; EvRequest url]
    /\ requests (snd run) = S (requests w)
    /\ match user_status (remote E) (requests w) url with
       | Resolved data =>
           if (CodeforcesApiResponse.status data =? "OK")%string then
             fst run = Ok (orEmpty (CodeforcesApiResponse.result data))
           else
             let comment := orString (CodeforcesApiResponse.comment data) "Unknown error" in
             fst run
             = if includes comment "not found" then Ok []
               else Throw (Error
                      ("Failed to fetch data from Codeforces: Codeforces API error: "
                       ++ comment))
       | Rejected st code msg =>
           if option_Z_is st 400 || option_Z_is st 503
              || option_string_eqb code "ECONNABORTED" || option_string_eqb code "ENOTFOUND"
           then exists fixed, fst run = Throw (Error fixed) /\ includes fixed "not found" = false
           else
             fst run
             = if includes msg "not found" then Ok []
               else Throw (Error ("Failed to fetch data from Codeforces: " ++ msg))
       end.
Proof.
  intros run. subst run.
  unfold getUserSubmissions, tryCatch, bind. rewrite makeRequest_run.
  match goal with
  | |- context [sent ?u w] => exists u; generalize u; intros url
  end.
  split.
  { destruct (fetched _) as [l | e]; [| destruct (includes _ _)];
      unfold ret, throw; cbn [snd sent trace with_requests with_trace];
      rewrite <- app_assoc; reflexivity. }
  split.
  { destruct (fetched _) as [l | e]; [| destruct (includes _ _)]; reflexivity. }
  destruct (user_status (remote E) (requests w) url) as [data | st code msg]; cbn [fetched].
  - destruct (CodeforcesApiResponse.status data =? "OK")%string; cbn [negb fst ret].
    + reflexivity.
    + cbv zeta. cbn [message].
      rewrite includes_after_api_prefix by tauto.
      destruct (includes _ _); reflexivity.
  - destruct (option_Z_is st 400); cbn [orb].
    { eexists. split; reflexivity. }
    destruct (option_Z_is st 503); cbn [orb].
    { eexists. split; reflexivity. }
    destruct (option_string_eqb code "ECONNABORTED"); cbn [orb].
    { eexists. split; reflexivity. }
    destruct (option_string_eqb code "ENOTFOUND"); cbn [orb].
    { eexists. split; reflexivity. }
    cbn [message]. rewrite includes_after_fetch_prefix by tauto.
    destruct (includes _ _); reflexivity.
Qed.

(** X5.  [validateHandle] never throws, costs exactly one request and no
    database operation, and answers [true] exactly when the remote answered
    that request with an [OK] body that lists at least one user. *)
Theorem validateHandle_agrees_with_remote E handle w :
  let url := (BASE_URL ++ "/user.info?handles=" ++ handle)%string in
  exists valid,
    validateHandle E handle w = (Ok valid, sent url w)
    /\ (valid = true <->
        exists data u rest,
          user_info (remote E) (requests w) url = Resolved data
          /\ CodeforcesApiResponse.status data = "OK"
          /\ CodeforcesApiResponse.result data = Some (u :: rest)).
Proof.
  intros url. rewrite validateHandle_run. fold url. eexists. split; [reflexivity |].
  unfold profile. fold url.
  destruct (user_info (remote E) (requests w) url) as [data | st code msg] eqn:Hans;
    cbn [fetched].
  - destruct (CodeforcesApiResponse.status data =? "OK")%string eqn:Hst; cbn [negb].
    + apply String.eqb_eq in Hst.
      destruct (CodeforcesApiResponse.result data) as [[| u rest] |] eqn:Hres; split;
        try discriminate; try reflexivity.
      * intros [d [u [rest [Hd [_ Hr]]]]]. injection Hd as <-. congruence.
      * intros _. exists data, u, rest. repeat split; assumption.
      * intros [d [u [rest [Hd [_ Hr]]]]]. injection Hd as <-. congruence.
    + split; [discriminate |].
      intros [d [u [rest [Hd [Hok _]]]]]. injection Hd as <-.
      apply String.eqb_neq in Hst. contradiction.
  - split.
    + destruct (option_Z_is st 400); [discriminate |].
      destruct (option_Z_is st 503); [discriminate |].
      destruct (option_string_eqb code "ECONNABORTED"); [discriminate |].
      destruct (option_string_eqb code "ENOTFOUND"); discriminate.
    + intros [d [u [rest [Hd _]]]]. discriminate.
Qed.

(** ** How many requests a sync costs *)

Lemma keeps_requests_dbOps n w : keeps requests w (with_dbOps n w).
Proof. reflexivity. Qed.

Lemma requests_bind_keeps {A B} (m : M A) (k : A -> M B) w :
  (forall a, preserves (keeps requests) (k a)) ->
  requests (snd (bind m k w)) = requests (snd (m w)).
Proof.
  intros Hk. unfold bind. destruct (m w) as [[a | e] w1]; [| reflexivity].
  apply Hk.
Qed.

Lemma requests_tryCatch_keeps {A} (m : M A) (h : JsError -> M A) w :
  (forall e, preserves (keeps requests) (h e)) ->
  requests (snd (tryCatch m h w)) = requests (snd (m w)).
Proof.
  intros Hh. unfold tryCatch. destruct (m w) as [[a | e] w1]; [reflexivity |].
  apply Hh.
Qed.

Lemma getUserStats_requests E handle w :
  requests (snd (getUserStats E handle w))
  = match profile E (requests w) handle with
    | Ok _ => (requests w + 4)%nat
    | Throw _ => (requests w + 3)%nat
    end.
Proof.
  pose proof (getUserStats_exact E handle w) as H.
  destruct (profile E (requests w) handle) as [user | e].
  - destruct H as [ratingData [count [url H]]]. rewrite H. simpl. lia.
  - rewrite H. simpl. lia.
Qed.

Lemma syncSubmissions_requests E handle studentId w :
  requests (snd (syncSubmissions E handle studentId w)) = S (requests w).
Proof.
  unfold syncSubmissions. rewrite requests_bind_keeps.
  - apply getUserSubmissions_requests.
  - intros l. apply preserves_forOf; [apply keeps_refl | apply keeps_trans |].
    intros s added.
    apply (syncSubmission_preserves E (keeps requests)); try (intros; reflexivity).
    apply keeps_trans.
Qed.

(** The steps of [syncHandle] that follow [syncSubmissions]. *)
Lemma sync_tail_keeps_requests E handle studentId ratingChanges user student known
  (summary : nat -> nat -> SyncResult.t) :
  preserves (keeps requests)
    (ratingChangesAdded <- syncRatingChanges E handle studentId ratingChanges ;;
     updateStudentRatings E studentId user ;;
     date <- Date_now ;;
     Student_save E (IStudentDocument.assign_lastDataUpdate (Some date) student) ;;
     ret (summary known ratingChangesAdded)).
Proof.
  pose proof (@keeps_refl _ requests) as Hrefl.
  pose proof (@keeps_trans _ requests) as Htrans.
  unfold Date_now.
  frame_with ltac:(first
    [ apply (syncRatingChanges_preserves E (keeps requests));
        solve [assumption | intros; reflexivity]
    | apply (updateStudentRatings_preserves E (keeps requests));
        solve [assumption | intros; reflexivity]
    | apply (Student_save_preserves E (keeps requests));
        solve [assumption | intros; reflexivity] ]).
Qed.

(** The requests of one [syncHandle], and what it reports in the short runs. *)
Lemma syncHandle_requests E handle student w :
  exists res w',
    syncHandle E handle (Some student) w = (Ok res, w')
    /\ match profile E (requests w) handle with
       | Throw _ => requests w' = (requests w + 1)%nat /\ SyncResult.success res = false
       | Ok _ =>
           match profile E (S (requests w)) handle with
           | Throw _ => requests w' = (requests w + 4)%nat /\ SyncResult.success res = false
           | Ok _ => requests w' = (requests w + 7)%nat
           end
       end.
Proof.
  destruct (syncHandle_total E handle (Some student) w) as [res Hres].
  destruct (syncHandle E handle (Some student) w) as [r w'] eqn:Hrun.
  simpl in Hres. subst r. exists res, w'. split; [reflexivity |].
  assert (Hreq : requests w' = requests (snd (syncHandle E handle (Some student) w)))
    by (rewrite Hrun; reflexivity).
  unfold syncHandle in Hrun, Hreq.
  rewrite requests_tryCatch_keeps in Hreq
    by (intros e; apply preserves_ret; apply keeps_refl).
  unfold tryCatch in Hrun.
  rewrite (bind_Ok (ret (Some student)) _ w (Some student) w eq_refl) in Hrun.
  rewrite (bind_Ok (ret (Some student)) _ w (Some student) w eq_refl) in Hreq.
  cbv beta iota in Hrun, Hreq.
  rewrite (bind_Ok _ _ _ _ _ (validateHandle_run E handle w)) in Hrun.
  rewrite (bind_Ok _ _ _ _ _ (validateHandle_run E handle w)) in Hreq.
  cbv beta iota in Hrun, Hreq.
  destruct (profile E (requests w) handle) as [u0 | e0]; cbn [negb] in Hrun, Hreq.
  2:{ unfold ret in Hrun. injection Hrun as <- <-. split; [| reflexivity].
      rewrite Hreq. simpl. lia. }
  set (w1 := sent (BASE_URL ++ "/user.info?handles=" ++ handle)%string w) in *.
  pose proof (getUserStats_run E handle w1) as Hstats.
  pose proof (getUserStats_requests E handle w1) as Hsreq.
  change (requests w1) with (S (requests w)) in Hstats, Hsreq.
  destruct (profile E (S (requests w)) handle) as [user | e1].
  - destruct Hstats as [ratingData [count [w2 [Hstats [Hreq2 _]]]]].
    rewrite (bind_Ok _ _ _ _ _ Hstats) in Hreq. cbv beta iota in Hreq.
    destruct (syncContests_run E w2) as [nc [w3 [Hcon [Hreq3 _]]]].
    rewrite (bind_Ok _ _ _ _ _ Hcon) in Hreq. cbv beta iota in Hreq.
    rewrite requests_bind_keeps in Hreq.
    + rewrite Hreq, syncSubmissions_requests, Hreq3, Hreq2. simpl. lia.
    + intros ns. apply (sync_tail_keeps_requests E handle _ _ _ student ns
                          (fun a b => SyncResult.mk true _ (Some (SyncSummary.mk a b nc _ _))
                                        None)).
  - destruct Hstats as [w2 [Hstats _]].
    rewrite (bind_Throw _ _ _ _ _ Hstats) in Hrun.
    rewrite (bind_Throw _ _ _ _ _ Hstats) in Hreq. unfold ret in Hrun.
    injection Hrun as <- <-. split; [| reflexivity].
    rewrite Hreq. simpl. rewrite Hstats in Hsreq. simpl in Hsreq. lia.
Qed.

(** X6.  The cost of syncing one student, in requests to the remote API.
    [syncHandle] never throws.  When the profile fetch of [validateHandle]
    fails, the sync has sent one request and reports a failure; when that
    fetch answers and the profile fetch of [getUserStats] fails, it has sent
    four and reports a failure; when both answer it has sent seven, whatever
    else fails: the profile is fetched twice and the submissions three
    times.  So a sync costs one, four or seven requests, and one that reports
    success has cost seven. *)
Theorem syncHandle_request_budget E handle student w :
  let run := syncHandle E handle (Some student) w in
  exists used res,
    fst run = Ok res
    /\ requests (snd run) = (requests w + used)%nat
    /\ match profile E (requests w) handle with
       | Throw _ => used = 1%nat /\ SyncResult.success res = false
       | Ok _ =>
           match profile E (S (requests w)) handle with
           | Throw _ => used = 4%nat /\ SyncResult.success res = false
           | Ok _ => used = 7%nat
           end
       end
    /\ (used = 1 \/ used = 4 \/ used = 7)%nat
    /\ (SyncResult.success res = true -> used = 7%nat).
Proof.
  intros run. subst run.
  destruct (syncHandle_requests E handle student w) as [res [w' [Hrun Hcases]]].
  rewrite Hrun. cbn [fst snd].
  destruct (profile E (requests w) handle).
  - destruct (profile E (S (requests w)) handle).
    + exists 7%nat, res. split; [reflexivity |]. split; [exact Hcases |].
      split; [reflexivity |]. split; [tauto | reflexivity].
    + destruct Hcases as [Hreq Hfail]. exists 4%nat, res. split; [reflexivity |].
      split; [exact Hreq |]. split; [split; [reflexivity | exact Hfail] |].
      split; [tauto |]. rewrite Hfail. discriminate.
  - destruct Hcases as [Hreq Hfail]. exists 1%nat, res. split; [reflexivity |].
    split; [exact Hreq |]. split; [split; [reflexivity | exact Hfail] |].
    split; [tauto |]. rewrite Hfail. discriminate.
Qed.

Lemma syncAll_loop_requests E l : forall acc w,
  exists acc' w',
    forOf l (syncOneOfAll E) acc w = (Ok acc', w')
    /\ (requests w + List.length l + 6 * (acc_successfulSyncs acc' - acc_successfulSyncs acc)
        <= requests w')%nat
    /\ (requests w' <= requests w + 7 * List.length l)%nat
    /\ (acc_successfulSyncs acc <= acc_successfulSyncs acc')%nat.
Proof.
  induction l as [| student rest IH]; intros acc w.
  - exists acc, w. simpl. repeat split; lia.
  - destruct (syncHandle_requests E (Student.codeforcesHandle (IStudentDocument.fields student))
                student w) as [res [w1 [Hrun Hcases]]].
    assert (Hbudget : (requests w + 1 <= requests w1 <= requests w + 7)%nat
                      /\ (SyncResult.success res = true ->
                          requests w1 = (requests w + 7)%nat)).
    { destruct (profile E (requests w) _).
      - destruct (profile E (S (requests w)) _).
        + split; [lia | intros _; exact Hcases].
        + destruct Hcases as [Hreq Hfail]. split; [lia |]. rewrite Hfail. discriminate.
      - destruct Hcases as [Hreq Hfail]. split; [lia |]. rewrite Hfail. discriminate. }
    destruct Hbudget as [Hrange Hseven].
    simpl forOf. unfold bind at 1. unfold syncOneOfAll at 1. unfold bind at 1.
    rewrite Hrun. unfold bind at 1, delay, modify. cbn [fst snd ret].
    match goal with
    | |- context [forOf rest (syncOneOfAll E) ?a ?w2] =>
        destruct (IH a w2) as [acc' [w' [Hloop [Hlow [Hhigh Hmono]]]]]
    end.
    exists acc', w'. split; [exact Hloop |].
    cbn [requests with_now with_trace] in Hlow, Hhigh.
    destruct (SyncResult.success res) eqn:Hok; cbn [acc_successfulSyncs] in Hlow, Hmono;
      cbn [List.length]; [specialize (Hseven eq_refl) |]; repeat split; lia.
Qed.

(** X7.  The cost of a batch run: a run that returns has sent at most seven
    requests per student, at least one per student, and seven for each
    student it counts as synced. *)
Theorem syncAllStudents_request_budget E w :
  match syncAllStudents E w with
  | (Ok stats, w') =>
      (requests w + GlobalSyncStats.totalStudents stats
       + 6 * GlobalSyncStats.successfulSyncs stats <= requests w')%nat
      /\ (requests w' <= requests w + 7 * GlobalSyncStats.totalStudents stats)%nat
  | (Throw _, w') => requests w' = requests w
  end.
Proof.
  destruct (dbFault E (dbOps w)) as [msg |] eqn:Hfault.
  - rewrite (syncAllStudents_fault E w msg Hfault). reflexivity.
  - rewrite (syncAllStudents_loop E w Hfault).
    destruct (syncAll_loop_requests E (map IStudentDocument.hydrate (students w))
                (mkBatchAcc [] 0 0) (with_dbOps (S (dbOps w)) w))
      as [acc' [w' [Hloop [Hlow [Hhigh _]]]]].
    unfold bind. rewrite Hloop. unfold ret.
    cbn [GlobalSyncStats.totalStudents GlobalSyncStats.successfulSyncs
         acc_successfulSyncs requests with_dbOps] in *.
    split; lia.
Qed.

(** ** The contest list *)

Lemma updateFirst_length {A} (p : A -> bool) (f : A -> A) (l : list A) :
  List.length (updateFirst p f l) = List.length l.
Proof.
  induction l as [| x rest IH]; simpl; [reflexivity |].
  destruct (p x); simpl; [reflexivity | rewrite IH; reflexivity].
Qed.

Lemma updateFirst_contestIds c l :
  map IContest.contestId (updateFirst (hasContestId (IContest.contestId c)) (setContest c) l)
  = map IContest.contestId l.
Proof.
  induction l as [| x rest IH]; simpl; [reflexivity |].
  unfold hasContestId at 1. destruct (IContest.contestId x =? IContest.contestId c) eqn:Hx; simpl.
  - apply Z.eqb_eq in Hx. rewrite Hx. reflexivity.
  - rewrite IH. reflexivity.
Qed.

Lemma existsb_hasContestId id l :
  existsb (hasContestId id) l = true <-> In id (map IContest.contestId l).
Proof.
  rewrite existsb_exists, in_map_iff. unfold hasContestId.
  split; intros [x [H1 H2]]; exists x.
  - apply Z.eqb_eq in H2. tauto.
  - split; [tauto |]. apply Z.eqb_eq. tauto.
Qed.

Lemma contestsExtended_same w w' : contests w' = contests w -> contestsExtended w w'.
Proof.
  intros H. exists []. rewrite H, app_nil_r. repeat split; [constructor | intros id []].
Qed.

Lemma contestsExtended_refl w : contestsExtended w w.
Proof. apply contestsExtended_same. reflexivity. Qed.

Lemma contestsExtended_trans a b c :
  contestsExtended a b -> contestsExtended b c -> contestsExtended a c.
Proof.
  intros [l1 [H1 [N1 D1]]] [l2 [H2 [N2 D2]]]. exists (l1 ++ l2).
  rewrite H2, H1, app_assoc. split; [reflexivity |]. split.
  - apply NoDup_app; [assumption | assumption |].
    intros id Hin1 Hin2. apply (D2 id Hin2). rewrite H1. apply in_or_app. right. exact Hin1.
  - intros id Hin Hstored. apply in_app_or in Hin. destruct Hin as [Hin | Hin].
    + exact (D1 id Hin Hstored).
    + apply (D2 id Hin). rewrite H1. apply in_or_app. left. exact Hstored.
Qed.

Lemma contestsExtended_NoDup w w' :
  contestsExtended w w' ->
  NoDup (map IContest.contestId (contests w)) ->
  NoDup (map IContest.contestId (contests w')).
Proof.
  intros [added [H [N D]]] Hnd. rewrite H.
  apply NoDup_app; [assumption | assumption |].
  intros id Hin1 Hin2. exact (D id Hin2 Hin1).
Qed.

Lemma contestsExtended_In w w' id :
  contestsExtended w w' ->
  In id (map IContest.contestId (contests w)) ->
  In id (map IContest.contestId (contests w')).
Proof. intros [added [H _]] Hin. rewrite H. apply in_or_app. left. exact Hin. Qed.

Lemma Contest_upsert_extends E c : preserves contestsExtended (Contest_upsert E c).
Proof.
  intros w. unfold Contest_upsert, dbOp.
  destruct (dbFault E (dbOps w)); [apply contestsExtended_same; reflexivity |].
  cbn [contests with_dbOps].
  destruct (existsb (hasContestId (IContest.contestId c)) (contests w)) eqn:Hex;
    cbn [snd contests with_contests].
  - exists []. cbn [contests with_contests with_dbOps].
    rewrite updateFirst_contestIds, app_nil_r.
    repeat split; [constructor | intros id []].
  - exists [IContest.contestId c]. cbn [contests with_contests with_dbOps].
    rewrite map_app. split; [reflexivity |]. split.
    + constructor; [intros [] | constructor].
    + intros id [<- | []] Hin. apply existsb_hasContestId in Hin. congruence.
Qed.

Lemma syncContests_loop_extends E l inserted :
  preserves contestsExtended
    (forOf l
       (fun c inserted =>
          upsertedCount <- Contest_upsert E c ;;
          ret (if (0 <? upsertedCount)%nat then S inserted else inserted)) inserted).
Proof.
  apply preserves_forOf; [apply contestsExtended_refl | apply contestsExtended_trans |].
  intros c k. apply preserves_bind; [apply contestsExtended_trans | apply Contest_upsert_extends |].
  intros n. apply preserves_ret. apply contestsExtended_refl.
Qed.

(** The count that the loop of [syncContests] keeps. *)
Lemma syncContests_loop E l : forall inserted w r w',
  forOf l
    (fun c inserted =>
       upsertedCount <- Contest_upsert E c ;;
       ret (if (0 <? upsertedCount)%nat then S inserted else inserted)) inserted w
  = (r, w') ->
  (List.length (contests w) <= List.length (contests w'))%nat
  /\ (forall n, r = Ok n ->
        (n + List.length (contests w) = inserted + List.length (contests w'))%nat
        /\ forall c, In c l -> In (IContest.contestId c) (map IContest.contestId (contests w')))
  /\ (DbHealthy E -> exists n, r = Ok n).
Proof.
  induction l as [| c rest IH]; intros inserted w r w' Hrun.
  - simpl in Hrun. injection Hrun as <- <-. split; [lia |]. split.
    + intros n Hn. injection Hn as <-. split; [lia | intros c []].
    + intros _. eexists. reflexivity.
  - simpl forOf in Hrun. unfold bind at 1 2 in Hrun.
    unfold Contest_upsert at 1, dbOp in Hrun.
    destruct (dbFault E (dbOps w)) as [msg |] eqn:Hfault.
    { injection Hrun as <- <-. split; [simpl; lia |]. split.
      - intros n Hn. discriminate.
      - intros Hdb. rewrite Hdb in Hfault. discriminate. }
    cbn [contests with_dbOps] in Hrun.
    destruct (existsb (hasContestId (IContest.contestId c)) (contests w)) eqn:Hex;
      cbv beta iota in Hrun; unfold ret at 1 in Hrun; cbv beta iota in Hrun;
      try change (0 <? 0)%nat with false in Hrun;
      try change (0 <? 1)%nat with true in Hrun; cbv beta iota in Hrun;
      match type of Hrun with
      | forOf ?l ?b ?a ?w1 = _ =>
          pose proof (syncContests_loop_extends E l a w1) as Hext; rewrite Hrun in Hext;
          cbn [snd] in Hext
      end;
      apply IH in Hrun; destruct Hrun as [Hlen [Hok Hret]];
      cbn [contests with_contests with_dbOps] in Hlen, Hok.
    + rewrite updateFirst_length in Hlen, Hok.
      split; [exact Hlen |]. split; [| exact Hret].
      intros n Hn. destruct (Hok n Hn) as [Hcount Hin]. split; [exact Hcount |].
      intros c' [<- | Hc']; [| apply Hin; exact Hc'].
      apply (contestsExtended_In _ _ _ Hext). cbn [contests with_contests].
      rewrite updateFirst_contestIds. apply existsb_hasContestId. exact Hex.
    + rewrite length_app in Hlen, Hok. cbn [List.length] in Hlen, Hok.
      split; [lia |]. split; [| exact Hret].
      intros n Hn. destruct (Hok n Hn) as [Hcount Hin]. split; [lia |].
      intros c' [<- | Hc']; [| apply Hin; exact Hc'].
      apply (contestsExtended_In _ _ _ Hext). cbn [contests with_contests].
      rewrite map_app. apply in_or_app. right. left. reflexivity.
Qed.

(** X8.  [syncContests] never throws and touches only the contest
    collection.  Stored contests keep their ids and their order; the ids it
    adds repeat neither a stored id nor each other, so a collection without
    duplicate ids stays so.  The count it returns is the growth of the
    collection or [0]: it is [0] when the fetch of the list fails, and a
    failure of the database loses the count of the contests stored before it.
    When the database answers, the count is the growth exactly and every
    fetched contest is stored under its id. *)
Theorem syncContests_upserts E w :
  exists inserted w',
    syncContests E w = (Ok inserted, w')
    /\ sameRecords w w'
    /\ contestsExtended w w'
    /\ (NoDup (map IContest.contestId (contests w)) ->
        NoDup (map IContest.contestId (contests w')))
    /\ (List.length (contests w) + inserted <= List.length (contests w'))%nat
    /\ (inserted = 0%nat
        \/ List.length (contests w') = (List.length (contests w) + inserted)%nat)
    /\ match fetched (contest_list (remote E) (requests w)
                        (BASE_URL ++ "/contest.list?gym=false")%string) with
       | Throw _ => inserted = 0%nat /\ contests w' = contests w
       | Ok list =>
           DbHealthy E ->
           List.length (contests w') = (List.length (contests w) + inserted)%nat
           /\ forall c, In c (orEmpty list) ->
                        In (IContest.contestId c) (map IContest.contestId (contests w'))
       end.
Proof.
  destruct (syncContests_run E w) as [inserted [w' [Hrun [_ Hsame]]]].
  exists inserted, w'. split; [exact Hrun |]. split; [exact Hsame |].
  unfold syncContests, tryCatch, getContests in Hrun. unfold bind at 1 2 in Hrun.
  rewrite makeRequest_run in Hrun.
  change (BASE_URL ++ "/contest.list" ++ "?gym=" ++ string_of_bool false)%string
    with (BASE_URL ++ "/contest.list?gym=false")%string in Hrun.
  destruct (fetched _) as [list | e]; cbn [ret throw] in Hrun.
  - match type of Hrun with
    | context [forOf ?l ?b ?a ?w1] =>
        pose proof (syncContests_loop_extends E l a w1) as Hext;
        destruct (forOf l b a w1) as [r wf] eqn:Hloop
    end.
    cbn [snd] in Hext.
    apply syncContests_loop in Hloop. destruct Hloop as [Hlen [Hok Hret]].
    cbn [contests sent with_requests with_trace with_now] in Hlen, Hok.
    assert (Hw : wf = w') by (destruct r; injection Hrun as _ <-; reflexivity).
    subst wf.
    assert (Hext' : contestsExtended w w').
    { destruct Hext as [added Hadded]. exists added. exact Hadded. }
    split; [exact Hext' |]. split; [apply contestsExtended_NoDup; exact Hext' |].
    split.
    { destruct r as [n | e]; injection Hrun as <-; [| lia].
      destruct (Hok n eq_refl) as [Hcount _]. lia. }
    split.
    + destruct r as [n | e]; injection Hrun as <-; [| left; reflexivity].
      destruct (Hok n eq_refl) as [Hcount _]. right. lia.
    + intros Hdb. destruct (Hret Hdb) as [n ->]. injection Hrun as Hn. subst n.
      destruct (Hok inserted eq_refl) as [Hcount Hin]. split; [lia | exact Hin].
  - injection Hrun as <- <-. split; [apply contestsExtended_same; reflexivity |].
    split; [trivial |]. split; [simpl; lia |]. split; [left; reflexivity |].
    split; reflexivity.
Qed.

(** ** What a sync leaves of the stored data *)

Lemma bind_ret_l {A B} (a : A) (k : A -> M B) : bind (ret a) k = k a.
Proof. reflexivity. Qed.

Lemma preserves_tryFinally (R : World -> World -> Prop) {A} (m : M A) (fin : M unit) :
  (forall a b c, R a b -> R b c -> R a c) ->
  preserves R m -> preserves R fin -> preserves R (tryFinally m fin).
Proof.
  intros Htrans Hm Hfin w. unfold tryFinally. specialize (Hm w).
  destruct (m w) as [r w1]. specialize (Hfin w1).
  destruct (fin w1) as [[[] | e] w2]; exact (Htrans _ _ _ Hm Hfin).
Qed.

(** Frame rules from the writes of the models: a relation that every write
    of a sync respects is respected by the sync.  [touched] selects the
    students whose document the sync may write. *)
Section WriteFrame.

Variable E : Env.
Variable R : World -> World -> Prop.
Variable touched : string -> Prop.
Hypothesis R_refl : forall w, R w w.
Hypothesis R_trans : forall a b c, R a b -> R b c -> R a c.
Hypothesis R_sent : forall url w, R w (sent url w).
Hypothesis R_dbOps : forall w, R w (with_dbOps (S (dbOps w)) w).
Hypothesis R_timer : forall ms w, R w (snd (delay ms w)).
Hypothesis R_stats : forall handle, preserves R (getUserStats E handle).
Hypothesis R_status : forall s w, R w (with_jobStatus s w).
Hypothesis R_upsert : forall c, preserves R (Contest_upsert E c).
Hypothesis R_submission : forall doc, preserves R (Submission_create E doc).
Hypothesis R_ratingChange : forall doc, preserves R (RatingChange_create E doc).
Hypothesis R_update :
  forall id update, touched id -> preserves R (Student_updateOne E id update).
Hypothesis R_save :
  forall doc, touched (Student._id (IStudentDocument.fields doc)) ->
              preserves R (Student_save E doc).

Lemma syncContests_respects : preserves R (syncContests E).
Proof.
  unfold syncContests.
  frame_with ltac:(first [ apply getContests_preserves; assumption | apply R_upsert ]).
Qed.

Lemma syncSubmissions_respects handle studentId :
  preserves R (syncSubmissions E handle studentId).
Proof.
  unfold syncSubmissions, syncSubmission.
  frame_with ltac:(first [ apply getUserSubmissions_preserves; assumption
                         | apply Submission_exists_preserves; assumption
                         | apply R_submission ]).
Qed.

Lemma syncRatingChanges_respects handle studentId changes :
  preserves R (syncRatingChanges E handle studentId changes).
Proof.
  unfold syncRatingChanges, syncRatingChange.
  frame_with ltac:(first [ apply RatingChange_exists_preserves; assumption
                         | apply R_ratingChange ]).
Qed.

Lemma updateStudentRatings_respects id user :
  touched id -> preserves R (updateStudentRatings E id user).
Proof.
  intros Hid. unfold updateStudentRatings.
  destruct (0 <? _)%nat; [apply R_update; exact Hid | apply preserves_ret; assumption].
Qed.

Lemma syncHandle_respects handle student :
  touched (Student._id (IStudentDocument.fields student)) ->
  preserves R (syncHandle E handle (Some student)).
Proof.
  intros Hid. unfold syncHandle, Date_now. rewrite bind_ret_l.
  frame_with ltac:(first
    [ apply validateHandle_preserves; assumption
    | apply R_stats
    | apply syncContests_respects
    | apply syncSubmissions_respects
    | apply syncRatingChanges_respects
    | apply updateStudentRatings_respects; assumption
    | apply R_save; rewrite assign_lastDataUpdate_id; assumption ]).
Qed.

Lemma syncStudentData_respects id : touched id -> preserves R (syncStudentData E id).
Proof.
  intros Hid w. unfold syncStudentData, Student_findById, bind.
  destruct (isObjectId E id); cbn [negb]; [| apply R_refl].
  unfold dbOp.
  destruct (dbFault E (dbOps w)); [apply R_dbOps |].
  unfold gets. cbn [students with_dbOps].
  destruct (find (hasId id) (students w)) as [d |] eqn:Hfind; cbn [option_map].
  - apply R_trans with (with_dbOps (S (dbOps w)) w); [apply R_dbOps |].
    apply syncHandle_respects. cbn [IStudentDocument.fields IStudentDocument.hydrate].
    apply find_some in Hfind. destruct Hfind as [_ Hd]. apply String.eqb_eq in Hd.
    rewrite Hd. exact Hid.
  - apply R_dbOps.
Qed.

Hypothesis every_student : forall id, touched id.

Lemma syncAllStudents_respects : preserves R (syncAllStudents E).
Proof.
  unfold syncAllStudents, Student_find_all, syncOneOfAll.
  frame_with ltac:(first [ apply Student_lookup_preserves; assumption
                         | apply syncHandle_respects; apply every_student
                         | apply delay_preserves; assumption ]).
Qed.

Lemma update_status_respects f : preserves R (update_status f).
Proof. intros w. apply R_status. Qed.

Lemma executeSync_respects forceAll : preserves R (executeSync E forceAll).
Proof.
  assert (Hfin : preserves R (executeSync_finally E)).
  { unfold executeSync_finally, calculateNextRun.
    frame_with ltac:(apply update_status_respects). }
  assert (Hlast : forall s p e t, preserves R (set_lastResult s p e t)).
  { intros s p e t. unfold set_lastResult, Date_now.
    frame_with ltac:(apply update_status_respects). }
  assert (Htry : forall t,
            preserves R (tryCatch (executeSync_try E forceAll t) (executeSync_catch t))).
  { intros t.
    unfold executeSync_try, executeSync_catch, getAllStudents, getStudentsNeedingUpdate,
      Student_find_all, Student_find_stale, executeSyncOne, Date_now.
    frame_with ltac:(first [ apply Hlast
                           | apply Student_lookup_preserves; assumption
                           | apply syncStudentData_respects; apply every_student
                           | apply delay_preserves; assumption ]). }
  unfold executeSync, Date_now.
  frame_with ltac:(first
    [ apply update_status_respects
    | apply preserves_tryFinally; [assumption | apply Htry | apply Hfin] ]).
Qed.

Lemma cronTick_respects : preserves R (cronTick E).
Proof.
  unfold cronTick.
  frame_with ltac:(first [ apply executeSync_respects
                         | match goal with
                           | |- preserves R (match ScheduledTask.callback ?t with _ => _ end) =>
                               destruct (ScheduledTask.callback t)
                           end ]).
Qed.

Lemma triggerManualSync_respects : preserves R (triggerManualSync E).
Proof. unfold triggerManualSync. frame_with ltac:(apply executeSync_respects). Qed.

End WriteFrame.

(** *** Stored submissions and rating changes are never removed or rewritten *)

Lemma recordsExtended_same w w' :
  submissions w' = submissions w -> ratingChanges w' = ratingChanges w ->
  recordsExtended w w'.
Proof.
  intros H1 H2. split; exists []; rewrite app_nil_r; assumption.
Qed.

Lemma recordsExtended_refl w : recordsExtended w w.
Proof. apply recordsExtended_same; reflexivity. Qed.

Lemma recordsExtended_trans a b c :
  recordsExtended a b -> recordsExtended b c -> recordsExtended a c.
Proof.
  intros [[s1 H1] [r1 H2]] [[s2 H3] [r2 H4]]. split.
  - exists (s1 ++ s2). rewrite H3, H1, app_assoc. reflexivity.
  - exists (r1 ++ r2). rewrite H4, H2, app_assoc. reflexivity.
Qed.

Lemma recordsExtended_dbOp E {A} (action : M A) :
  preserves recordsExtended action -> preserves recordsExtended (dbOp E action).
Proof.
  intros Ha w. unfold dbOp. destruct (dbFault E (dbOps w)).
  - apply recordsExtended_same; reflexivity.
  - apply recordsExtended_trans with (with_dbOps (S (dbOps w)) w); [| apply Ha].
    apply recordsExtended_same; reflexivity.
Qed.

Create HintDb writes.

Lemma recordsExtended_upsert E c : preserves recordsExtended (Contest_upsert E c).
Proof.
  apply recordsExtended_dbOp. intros w.
  destruct (existsb _ _); apply recordsExtended_same; reflexivity.
Qed.

Lemma recordsExtended_submission E doc : preserves recordsExtended (Submission_create E doc).
Proof.
  unfold Submission_create.
  destruct (validateSubmission doc); [| intros w; apply recordsExtended_refl].
  apply recordsExtended_dbOp. intros w. destruct (existsb _ _); cbn [snd].
  - apply recordsExtended_refl.
  - split; [exists [doc]; reflexivity | exists []; rewrite app_nil_r; reflexivity].
Qed.

Lemma recordsExtended_ratingChange E doc :
  preserves recordsExtended (RatingChange_create E doc).
Proof.
  unfold RatingChange_create.
  destruct (validateRatingChange doc); [| intros w; apply recordsExtended_refl].
  apply recordsExtended_dbOp. intros w. destruct (existsb _ _); cbn [snd].
  - apply recordsExtended_refl.
  - split; [exists []; rewrite app_nil_r; reflexivity | exists [doc]; reflexivity].
Qed.

Lemma recordsExtended_update E id update :
  preserves recordsExtended (Student_updateOne E id update).
Proof.
  apply recordsExtended_dbOp. intros w. apply recordsExtended_same; reflexivity.
Qed.

Lemma recordsExtended_save E doc : preserves recordsExtended (Student_save E doc).
Proof.
  unfold Student_save. destruct (validateStudent (IStudentDocument.fields doc)).
  - apply recordsExtended_dbOp. intros w.
    destruct (existsb _ _); apply recordsExtended_same; reflexivity.
  - intros w. apply recordsExtended_refl.
Qed.

Lemma recordsExtended_stats E handle : preserves recordsExtended (getUserStats E handle).
Proof.
  apply getUserStats_preserves;
    first [ apply recordsExtended_refl | apply recordsExtended_trans
          | intros; apply recordsExtended_same; reflexivity ].
Qed.

Lemma recordsExtended_sent url w : recordsExtended w (sent url w).
Proof. apply recordsExtended_same; reflexivity. Qed.

Lemma recordsExtended_dbOps n w : recordsExtended w (with_dbOps n w).
Proof. apply recordsExtended_same; reflexivity. Qed.

Lemma recordsExtended_timer ms w : recordsExtended w (snd (delay ms w)).
Proof. apply recordsExtended_same; reflexivity. Qed.

Lemma recordsExtended_status s w : recordsExtended w (with_jobStatus s w).
Proof. apply recordsExtended_same; reflexivity. Qed.

#[local] Hint Resolve recordsExtended_refl recordsExtended_trans recordsExtended_sent
  recordsExtended_dbOps recordsExtended_timer recordsExtended_status
  recordsExtended_upsert recordsExtended_submission recordsExtended_ratingChange
  recordsExtended_update recordsExtended_save recordsExtended_stats : writes.

(** X9.  A sync is append-only on the submissions and the rating changes:
    whatever the remote answers and whenever the database fails, every
    document stored before is still stored afterwards, unchanged and at the
    same place, and new documents come behind them.  This holds for each
    entry point: the sync of one student, the batch, the manual trigger and
    the scheduled run. *)
Theorem sync_is_append_only E :
  (forall id, preserves recordsExtended (syncStudentData E id))
  /\ preserves recordsExtended (syncAllStudents E)
  /\ preserves recordsExtended (triggerManualSync E)
  /\ preserves recordsExtended (cronTick E).
Proof.
  split; [intros id | split; [| split]].
  - apply (syncStudentData_respects E recordsExtended (fun _ => True)); eauto with writes.
  - apply (syncAllStudents_respects E recordsExtended (fun _ => True)); eauto with writes.
  - apply (triggerManualSync_respects E recordsExtended (fun _ => True)); eauto with writes.
  - apply (cronTick_respects E recordsExtended (fun _ => True)); eauto with writes.
Qed.

(** *** The dedup keys stay distinct *)

Lemma keysKept_same w w' :
  submissions w' = submissions w -> ratingChanges w' = ratingChanges w ->
  contests w' = contests w -> keysKept w w'.
Proof. unfold keysKept, keysDistinct. intros -> -> ->. tauto. Qed.

Lemma keysKept_refl w : keysKept w w.
Proof. intros H. exact H. Qed.

Lemma keysKept_trans a b c : keysKept a b -> keysKept b c -> keysKept a c.
Proof. unfold keysKept. auto. Qed.

Lemma keysKept_dbOp E {A} (action : M A) :
  preserves keysKept action -> preserves keysKept (dbOp E action).
Proof.
  intros Ha w. unfold dbOp. destruct (dbFault E (dbOps w)).
  - apply keysKept_same; reflexivity.
  - apply keysKept_trans with (with_dbOps (S (dbOps w)) w); [| apply Ha].
    apply keysKept_same; reflexivity.
Qed.

Lemma NoDup_snoc {K} (l : list K) (k : K) : NoDup l -> ~ In k l -> NoDup (l ++ [k]).
Proof.
  intros Hl Hk. apply NoDup_app; [exact Hl | constructor; [intros [] | constructor] |].
  intros x Hx [<- | []]. exact (Hk Hx).
Qed.

Lemma existsb_hasSubmissionId id l :
  existsb (hasSubmissionId id) l = false -> ~ In id (map Submission.submissionId l).
Proof.
  intros Hex Hin. apply in_map_iff in Hin. destruct Hin as [d [Hd Hin]].
  assert (H : existsb (hasSubmissionId id) l = true).
  { apply existsb_exists. exists d. split; [exact Hin |].
    unfold hasSubmissionId. apply Z.eqb_eq. exact Hd. }
  congruence.
Qed.

Lemma existsb_hasRatingKey handle cid l :
  existsb (hasRatingKey handle cid) l = false -> ~ In (handle, cid) (map ratingKeyOfDoc l).
Proof.
  intros Hex Hin. apply in_map_iff in Hin. destruct Hin as [d [Hd Hin]].
  assert (H : existsb (hasRatingKey handle cid) l = true).
  { apply existsb_exists. exists d. split; [exact Hin |].
    unfold ratingKeyOfDoc in Hd. injection Hd as H1 H2.
    unfold hasRatingKey. rewrite H1, H2, String.eqb_refl, Z.eqb_refl. reflexivity. }
  congruence.
Qed.

Lemma keysKept_upsert E c : preserves keysKept (Contest_upsert E c).
Proof.
  intros w [Hs [Hr Hc]].
  pose proof (Contest_upsert_extends E c w) as Hext.
  assert (Hsame : sameRecords w (snd (Contest_upsert E c w))).
  { apply (Contest_upsert_preserves E sameRecords);
      first [apply sameRecords_trans | intros; repeat split]. }
  destruct Hsame as [_ [Hs' Hr']]. unfold keysDistinct. rewrite Hs', Hr'.
  repeat split; try assumption. apply (contestsExtended_NoDup w); assumption.
Qed.

Lemma keysKept_submission E doc : preserves keysKept (Submission_create E doc).
Proof.
  unfold Submission_create.
  destruct (validateSubmission doc); [| intros w; apply keysKept_refl].
  apply keysKept_dbOp. intros w.
  destruct (existsb _ _) eqn:Hex; cbn [snd]; [apply keysKept_refl |].
  intros [Hs [Hr Hc]]. unfold keysDistinct. cbn [submissions ratingChanges contests
    with_submissions]. repeat split; try assumption.
  rewrite map_app. apply NoDup_snoc; [exact Hs |].
  apply existsb_hasSubmissionId. exact Hex.
Qed.

Lemma keysKept_ratingChange E doc : preserves keysKept (RatingChange_create E doc).
Proof.
  unfold RatingChange_create.
  destruct (validateRatingChange doc); [| intros w; apply keysKept_refl].
  apply keysKept_dbOp. intros w.
  destruct (existsb _ _) eqn:Hex; cbn [snd]; [apply keysKept_refl |].
  intros [Hs [Hr Hc]]. unfold keysDistinct. cbn [submissions ratingChanges contests
    with_ratingChanges]. repeat split; try assumption.
  rewrite map_app. apply NoDup_snoc; [exact Hr |].
  apply existsb_hasRatingKey. exact Hex.
Qed.

Lemma keysKept_update E id update : preserves keysKept (Student_updateOne E id update).
Proof. apply keysKept_dbOp. intros w. apply keysKept_same; reflexivity. Qed.

Lemma keysKept_save E doc : preserves keysKept (Student_save E doc).
Proof.
  unfold Student_save. destruct (validateStudent (IStudentDocument.fields doc)).
  - apply keysKept_dbOp. intros w.
    destruct (existsb _ _); apply keysKept_same; reflexivity.
  - intros w. apply keysKept_refl.
Qed.

Lemma keysKept_stats E handle : preserves keysKept (getUserStats E handle).
Proof.
  apply getUserStats_preserves;
    first [ apply keysKept_refl | apply keysKept_trans
          | intros; apply keysKept_same; reflexivity ].
Qed.

Lemma keysKept_sent url w : keysKept w (sent url w).
Proof. apply keysKept_same; reflexivity. Qed.

Lemma keysKept_dbOps n w : keysKept w (with_dbOps n w).
Proof. apply keysKept_same; reflexivity. Qed.

Lemma keysKept_timer ms w : keysKept w (snd (delay ms w)).
Proof. apply keysKept_same; reflexivity. Qed.

Lemma keysKept_status s w : keysKept w (with_jobStatus s w).
Proof. apply keysKept_same; reflexivity. Qed.

#[local] Hint Resolve keysKept_refl keysKept_trans keysKept_sent keysKept_dbOps
  keysKept_timer keysKept_status keysKept_upsert keysKept_submission
  keysKept_ratingChange keysKept_update keysKept_save keysKept_stats : writes.

(** X10.  The dedup keys stay distinct.  If no two stored submissions share a
    [submissionId], no two stored rating changes a pair (handle, contest) and
    no two stored contests a [contestId], then the same holds after a sync of
    one student, after a batch and after a run of the job, whatever the
    remote lists contain -- also when they repeat a record or list one that
    is stored for another student. *)
Theorem sync_keeps_keys_distinct E id w (Hkeys : keysDistinct w) :
  keysDistinct (snd (syncStudentData E id w))
  /\ keysDistinct (snd (syncAllStudents E w))
  /\ keysDistinct (snd (triggerManualSync E w))
  /\ keysDistinct (snd (cronTick E w)).
Proof.
  assert (H1 : preserves keysKept (syncStudentData E id))
    by (apply (syncStudentData_respects E keysKept (fun _ => True)); eauto with writes).
  assert (H2 : preserves keysKept (syncAllStudents E))
    by (apply (syncAllStudents_respects E keysKept (fun _ => True)); eauto with writes).
  assert (H3 : preserves keysKept (triggerManualSync E))
    by (apply (triggerManualSync_respects E keysKept (fun _ => True)); eauto with writes).
  assert (H4 : preserves keysKept (cronTick E))
    by (apply (cronTick_respects E keysKept (fun _ => True)); eauto with writes).
  split; [exact (H1 w Hkeys) |]. split; [exact (H2 w Hkeys) |].
  split; [exact (H3 w Hkeys) | exact (H4 w Hkeys)].
Qed.

Lemma sync_keeps_keys_distinct_witness :
  keysDistinct (snd (syncStudentData (sampleEnv busyRemote) "s1" busyWorld))
  /\ keysDistinct (snd (syncAllStudents (sampleEnv busyRemote) busyWorld))
  /\ keysDistinct (snd (triggerManualSync (sampleEnv busyRemote) busyWorld))
  /\ keysDistinct (snd (cronTick (sampleEnv busyRemote) busyWorld)).
Proof.
  apply (sync_keeps_keys_distinct (sampleEnv busyRemote) "s1" busyWorld).
  unfold keysDistinct. simpl. repeat split; repeat constructor; simpl; tauto.
Defined.

(** *** A sync writes three fields of the student it syncs, and nothing else *)

Lemma ratingsOnly_refl d : ratingsOnly d d.
Proof. destruct d. reflexivity. Qed.

Lemma ratingsOnly_trans a b c : ratingsOnly a b -> ratingsOnly b c -> ratingsOnly a c.
Proof. unfold ratingsOnly. intros -> ->. reflexivity. Qed.

Lemma ratingsOnly_apply update d : ratingsOnly d (StudentUpdate.apply update d).
Proof.
  destruct d. unfold StudentUpdate.apply.
  destruct (StudentUpdate.currentRating update), (StudentUpdate.maxRating update);
    reflexivity.
Qed.

Lemma ratingsOnly_writeModified doc d : ratingsOnly d (writeModified doc d).
Proof.
  destruct d. unfold writeModified.
  destruct (IStudentDocument.isModified MaxRatingPath doc),
           (IStudentDocument.isModified LastDataUpdatePath doc); reflexivity.
Qed.

Lemma studentsKept_same touched w w' : students w' = students w -> studentsKept touched w w'.
Proof.
  unfold studentsKept. intros ->. induction (students w) as [| d rest IH]; constructor.
  - split; [apply ratingsOnly_refl | reflexivity].
  - exact IH.
Qed.

Lemma studentsKept_refl touched w : studentsKept touched w w.
Proof. apply studentsKept_same. reflexivity. Qed.

Lemma studentsKept_trans touched a b c :
  studentsKept touched a b -> studentsKept touched b c -> studentsKept touched a c.
Proof.
  unfold studentsKept. generalize (students a) (students b) (students c).
  intros la lb lc Hab. revert lc.
  induction Hab as [| x y la lb [Hxy Hx] Hab IH]; intros lc Hbc; inversion Hbc; subst.
  - constructor.
  - match goal with H : ratingsOnly y _ /\ _ |- _ => destruct H as [Hyz Hy] end.
    constructor; [| apply IH; assumption]. split.
    + exact (ratingsOnly_trans _ _ _ Hxy Hyz).
    + intros Hnot. rewrite <- (Hx Hnot). apply Hy.
      rewrite (Hx Hnot). exact Hnot.
Qed.

Lemma studentsKept_updateFirst (touched : string -> Prop) id f l :
  touched id ->
  (forall d, ratingsOnly d (f d)) ->
  Forall2 (fun d d' => ratingsOnly d d' /\ (~ touched (Student._id d) -> d' = d))
          l (updateFirst (hasId id) f l).
Proof.
  intros Hid Hf. induction l as [| d rest IH]; simpl; [constructor |].
  destruct (hasId id d) eqn:Hd.
  - constructor.
    + split; [apply Hf |]. intros Hnot. exfalso. apply Hnot.
      unfold hasId in Hd. apply String.eqb_eq in Hd. rewrite Hd. exact Hid.
    + clear IH. induction rest as [| x xs IHx]; constructor.
      * split; [apply ratingsOnly_refl | reflexivity].
      * exact IHx.
  - constructor; [| exact IH]. split; [apply ratingsOnly_refl | reflexivity].
Qed.

Lemma studentsKept_dbOp touched E {A} (action : M A) :
  preserves (studentsKept touched) action -> preserves (studentsKept touched) (dbOp E action).
Proof.
  intros Ha w. unfold dbOp. destruct (dbFault E (dbOps w)).
  - apply studentsKept_same; reflexivity.
  - apply studentsKept_trans with (with_dbOps (S (dbOps w)) w); [| apply Ha].
    apply studentsKept_same; reflexivity.
Qed.

Lemma studentsKept_upsert touched E c : preserves (studentsKept touched) (Contest_upsert E c).
Proof.
  apply studentsKept_dbOp. intros w.
  destruct (existsb _ _); apply studentsKept_same; reflexivity.
Qed.

Lemma studentsKept_submission touched E doc :
  preserves (studentsKept touched) (Submission_create E doc).
Proof.
  unfold Submission_create.
  destruct (validateSubmission doc); [| intros w; apply studentsKept_same; reflexivity].
  apply studentsKept_dbOp. intros w.
  destruct (existsb _ _); apply studentsKept_same; reflexivity.
Qed.

Lemma studentsKept_ratingChange touched E doc :
  preserves (studentsKept touched) (RatingChange_create E doc).
Proof.
  unfold RatingChange_create.
  destruct (validateRatingChange doc); [| intros w; apply studentsKept_same; reflexivity].
  apply studentsKept_dbOp. intros w.
  destruct (existsb _ _); apply studentsKept_same; reflexivity.
Qed.

Lemma studentsKept_update (touched : string -> Prop) E id update :
  touched id -> preserves (studentsKept touched) (Student_updateOne E id update).
Proof.
  intros Hid. apply studentsKept_dbOp. intros w. cbn [snd modify]. unfold studentsKept.
  cbn [students with_students].
  apply studentsKept_updateFirst; [exact Hid | apply ratingsOnly_apply].
Qed.

Lemma studentsKept_save (touched : string -> Prop) E doc :
  touched (Student._id (IStudentDocument.fields doc)) ->
  preserves (studentsKept touched) (Student_save E doc).
Proof.
  intros Hid. unfold Student_save. rewrite preSave_id.
  destruct (validateStudent (IStudentDocument.fields doc)).
  - apply studentsKept_dbOp. intros w.
    destruct (existsb _ _); cbn [snd]; [| apply studentsKept_refl].
    unfold studentsKept. cbn [students with_students].
    apply studentsKept_updateFirst; [exact Hid | apply ratingsOnly_writeModified].
  - intros w. apply studentsKept_refl.
Qed.

Lemma studentsKept_stats touched E handle :
  preserves (studentsKept touched) (getUserStats E handle).
Proof.
  apply getUserStats_preserves;
    first [ apply studentsKept_refl | apply studentsKept_trans
          | intros; apply studentsKept_same; reflexivity ].
Qed.

Lemma studentsKept_sent touched url w : studentsKept touched w (sent url w).
Proof. apply studentsKept_same; reflexivity. Qed.

Lemma studentsKept_dbOps touched n w : studentsKept touched w (with_dbOps n w).
Proof. apply studentsKept_same; reflexivity. Qed.

Lemma studentsKept_timer touched ms w : studentsKept touched w (snd (delay ms w)).
Proof. apply studentsKept_same; reflexivity. Qed.

Lemma studentsKept_status touched s w : studentsKept touched w (with_jobStatus s w).
Proof. apply studentsKept_same; reflexivity. Qed.

#[local] Hint Resolve studentsKept_refl studentsKept_trans studentsKept_sent
  studentsKept_dbOps studentsKept_timer studentsKept_status studentsKept_upsert
  studentsKept_submission studentsKept_ratingChange studentsKept_update
  studentsKept_save studentsKept_stats : writes.


(** *** Only a successful sync stamps the student *)

Lemma stamps_same w w' : students w' = students w -> keeps stamps w w'.
Proof. unfold keeps, stamps. intros ->. reflexivity. Qed.

Lemma stamps_dbOp E {A} (action : M A) :
  preserves (keeps stamps) action -> preserves (keeps stamps) (dbOp E action).
Proof.
  intros Ha w. unfold dbOp. destruct (dbFault E (dbOps w)).
  - apply stamps_same; reflexivity.
  - apply keeps_trans with (with_dbOps (S (dbOps w)) w); [| apply Ha].
    apply stamps_same; reflexivity.
Qed.

Lemma stamps_upsert E c : preserves (keeps stamps) (Contest_upsert E c).
Proof.
  apply stamps_dbOp. intros w. destruct (existsb _ _); apply stamps_same; reflexivity.
Qed.

Lemma stamps_submission E doc : preserves (keeps stamps) (Submission_create E doc).
Proof.
  unfold Submission_create.
  destruct (validateSubmission doc); [| intros w; apply stamps_same; reflexivity].
  apply stamps_dbOp. intros w. destruct (existsb _ _); apply stamps_same; reflexivity.
Qed.

Lemma stamps_ratingChange E doc : preserves (keeps stamps) (RatingChange_create E doc).
Proof.
  unfold RatingChange_create.
  destruct (validateRatingChange doc); [| intros w; apply stamps_same; reflexivity].
  apply stamps_dbOp. intros w. destruct (existsb _ _); apply stamps_same; reflexivity.
Qed.

Lemma stamps_updateFirst id update l :
  map Student.lastDataUpdate (updateFirst (hasId id) (StudentUpdate.apply update) l)
  = map Student.lastDataUpdate l.
Proof.
  induction l as [| d rest IH]; simpl; [reflexivity |].
  destruct (hasId id d); simpl; [| rewrite IH; reflexivity].
  f_equal. pose proof (ratingsOnly_apply update d) as H. unfold StudentUpdate.apply in *.
  destruct (StudentUpdate.currentRating update), (StudentUpdate.maxRating update);
    reflexivity.
Qed.

Lemma stamps_update E id update : preserves (keeps stamps) (Student_updateOne E id update).
Proof.
  apply stamps_dbOp. intros w. unfold keeps, stamps. cbn [snd modify students with_students].
  apply stamps_updateFirst.
Qed.

Lemma stamps_sent url w : keeps stamps w (sent url w).
Proof. reflexivity. Qed.

Lemma stamps_dbOps n w : keeps stamps w (with_dbOps n w).
Proof. reflexivity. Qed.

Lemma stamps_refl w : keeps stamps w w.
Proof. reflexivity. Qed.

Lemma stamps_trans a b c : keeps stamps a b -> keeps stamps b c -> keeps stamps a c.
Proof. apply keeps_trans. Qed.

Lemma stamps_stats E handle : preserves (keeps stamps) (getUserStats E handle).
Proof.
  apply getUserStats_preserves; first [ apply stamps_trans | intros; reflexivity ].
Qed.

#[local] Hint Resolve stamps_refl stamps_trans stamps_sent stamps_dbOps stamps_upsert
  stamps_submission stamps_ratingChange stamps_update stamps_stats : writes.

(** A step that keeps the stamps, followed by steps that stamp only on
    success. *)
Lemma stampedOnlyOnSuccess_bind {A} (m : M A) (k : A -> M SyncResult.t) :
  preserves (keeps stamps) m ->
  (forall a w1, stampedOnlyOnSuccess w1 (k a w1)) ->
  forall w, stampedOnlyOnSuccess w (bind m k w).
Proof.
  intros Hm Hk w. unfold bind. specialize (Hm w).
  destruct (m w) as [[a | e] w1]; cbn [snd] in Hm.
  - specialize (Hk a w1). unfold stampedOnlyOnSuccess in *.
    destruct (fst (k a w1)) as [res | e].
    + destruct Hk as [Hk | Hk]; [left; exact Hk | right; congruence].
    + congruence.
  - exact Hm.
Qed.

Lemma Student_save_throws_keeps E doc w e w' :
  Student_save E doc w = (Throw e, w') -> students w' = students w.
Proof.
  unfold Student_save. destruct (validateStudent (IStudentDocument.fields doc)).
  - unfold dbOp. destruct (dbFault E (dbOps w)).
    + intros H. injection H as _ <-. reflexivity.
    + cbn [students with_dbOps]. destruct (existsb _ _); [discriminate |].
      intros H. injection H as _ <-. reflexivity.
  - intros H. injection H as _ <-. reflexivity.
Qed.

Lemma syncHandle_stamps E handle student w :
  stampedOnlyOnSuccess w (syncHandle E handle (Some student) w).
Proof.
  unfold syncHandle. rewrite bind_ret_l.
  assert (Hbody : forall w0,
            stampedOnlyOnSuccess w0
              ((valid <- validateHandle E handle ;;
                if negb valid then
                  ret (SyncResult.mk false ("Invalid handle '" ++ handle ++ "'")%string
                         None None)
                else
                  (stats <- getUserStats E handle ;;
                   let user := UserStats.user stats in
                   let ratingChanges := UserStats.ratingChanges stats in
                   let studentId := Student._id (IStudentDocument.fields student) in
                   contestsAdded <- syncContests E ;;
                   submissionsAdded <- syncSubmissions E handle studentId ;;
                   ratingChangesAdded <- syncRatingChanges E handle studentId ratingChanges ;;
                   updateStudentRatings E studentId user ;;
                   date <- Date_now ;;
                   let student :=
                     IStudentDocument.assign_lastDataUpdate (Some date) student in
                   Student_save E student ;;
                   ret (SyncResult.mk true ("Synced '" ++ handle ++ "' successfully")%string
                          (Some (SyncSummary.mk submissionsAdded ratingChangesAdded
                                   contestsAdded (CodeforcesUser.rating user)
                                   (CodeforcesUser.maxRating user)))
                          None))) w0)).
  { apply stampedOnlyOnSuccess_bind.
    { apply (validateHandle_preserves E (keeps stamps)); eauto with writes. }
    intros valid w1. destruct valid; cbn [negb]; [| right; reflexivity].
    revert w1. apply stampedOnlyOnSuccess_bind.
    { apply stamps_stats. }
    intros stats. cbv zeta. apply stampedOnlyOnSuccess_bind.
    { apply (syncContests_respects E (keeps stamps)); eauto with writes. }
    intros nc. apply stampedOnlyOnSuccess_bind.
    { apply (syncSubmissions_respects E (keeps stamps)); eauto with writes. }
    intros ns. apply stampedOnlyOnSuccess_bind.
    { apply (syncRatingChanges_respects E (keeps stamps)); eauto with writes. }
    intros nr. apply stampedOnlyOnSuccess_bind.
    { apply (updateStudentRatings_respects E (keeps stamps) (fun _ => True));
        eauto with writes. }
    intros []. apply stampedOnlyOnSuccess_bind.
    { intros w1. reflexivity. }
    intros date w1. unfold stampedOnlyOnSuccess, bind.
    destruct (Student_save E _ w1) as [[saved | e] w2] eqn:Hsave; cbn [fst snd ret].
    - left. reflexivity.
    - apply Student_save_throws_keeps in Hsave. unfold stamps. rewrite Hsave. reflexivity. }
  specialize (Hbody w). unfold stampedOnlyOnSuccess, tryCatch in *.
  match goal with
  | |- context [match ?body w with _ => _ end] => destruct (body w) as [[res | e] w'] eqn:Hrun
  end; cbn [fst snd ret] in *.
  - exact Hbody.
  - right. exact Hbody.
Qed.

(** X12.  Only a sync that reports success moves a time stamp.  When
    [syncStudentData] reports a failure -- an unknown id, a handle that does
    not validate, a failed fetch, a database error, also one that strikes
    after the ratings were written -- every student's [lastDataUpdate] is what
    it was, so a student that was stale is still stale for the next manual
    trigger.  When it throws, no student was written at all. *)
Theorem failed_sync_leaves_stamps E id w :
  match syncStudentData E id w with
  | (Ok res, w') => SyncResult.success res = true \/ stamps w' = stamps w
  | (Throw _, w') => students w' = students w
  end.
Proof.
  unfold syncStudentData, Student_findById. unfold bind.
  destruct (isObjectId E id); cbn [negb]; [| reflexivity].
  unfold dbOp.
  destruct (dbFault E (dbOps w)); [reflexivity |].
  unfold gets. cbn [students with_dbOps].
  destruct (find (hasId id) (students w)) as [d |]; cbn [option_map ret].
  - pose proof (syncHandle_stamps E (Student.codeforcesHandle d) (IStudentDocument.hydrate d)
                  (with_dbOps (S (dbOps w)) w)) as H.
    pose proof (syncHandle_total E (Student.codeforcesHandle d)
                  (Some (IStudentDocument.hydrate d)) (with_dbOps (S (dbOps w)) w)) as [r Hr].
    cbn [IStudentDocument.fields IStudentDocument.hydrate].
    unfold stampedOnlyOnSuccess in H.
    destruct (syncHandle E _ _ _) as [[res | e] w']; cbn [fst snd] in *.
    + exact H.
    + discriminate.
  - right. reflexivity.
Qed.

(** ** Saving a document twice *)

Lemma preSave_settled doc :
  let fields := IStudentDocument.fields (preSave doc) in
  truthy (Student.currentRating fields)
  && (negb (truthy (Student.maxRating fields))
      || js_gt (Student.currentRating fields) (Student.maxRating fields)) = false.
Proof.
  cbv zeta. unfold preSave.
  destruct (truthy (Student.currentRating (IStudentDocument.fields doc))
            && (negb (truthy (Student.maxRating (IStudentDocument.fields doc)))
                || js_gt (Student.currentRating (IStudentDocument.fields doc))
                         (Student.maxRating (IStudentDocument.fields doc)))) eqn:Hhook;
    [| exact Hhook].
  unfold IStudentDocument.assign_maxRating.
  rewrite (hook_changes_maxRating _ _ Hhook).
  cbn [IStudentDocument.fields Student.currentRating Student.maxRating
       Student.set_maxRating].
  apply andb_true_iff in Hhook. destruct Hhook as [Hcur _].
  rewrite Hcur. cbn [negb orb andb].
  destruct (Student.currentRating (IStudentDocument.fields doc)) as [c |];
    [| discriminate]. simpl. apply Z.ltb_irrefl.
Qed.

Lemma preSave_idempotent doc : preSave (preSave doc) = preSave doc.
Proof.
  pose proof (preSave_settled doc) as H. cbv zeta in H.
  unfold preSave at 1. rewrite H. reflexivity.
Qed.

Lemma validatePath_nil path checks :
  validatePath path checks = [] <-> firstFailure checks = None.
Proof.
  unfold validatePath. destruct (firstFailure checks); split; intros H;
    try reflexivity; discriminate.
Qed.

(** The hook assigns a value that the validators have accepted for the
    current rating, so that the document it leaves passes them again. *)
Lemma validateStudent_preSave doc :
  validateStudent (IStudentDocument.fields doc) = [] ->
  validateStudent (IStudentDocument.fields (preSave doc)) = [].
Proof.
  intros H. unfold preSave. destruct (_ && _); [| exact H].
  unfold IStudentDocument.assign_maxRating. destruct (option_Z_eqb _ _); [exact H |].
  cbn [IStudentDocument.fields]. revert H. unfold validateStudent.
  cbn [Student.name Student.email Student.phoneNumber Student.codeforcesHandle
       Student.currentRating Student.maxRating Student.reminderEmailCount
       Student.set_maxRating].
  intros H.
  apply app_eq_nil in H. destruct H as [H1 H].
  apply app_eq_nil in H. destruct H as [H2 H].
  apply app_eq_nil in H. destruct H as [H3 H].
  apply app_eq_nil in H. destruct H as [H4 H].
  apply app_eq_nil in H. destruct H as [H5 H].
  apply app_eq_nil in H. destruct H as [H6 H7].
  rewrite H1, H2, H3, H4, H5, H7.
  apply validatePath_nil in H5. cbn [app]. rewrite app_nil_r.
  apply validatePath_nil. exact H5.
Qed.

Lemma updateFirst_same {A} (p : A -> bool) (f : A -> A) (l : list A) :
  (forall x, f x = x) -> updateFirst p f l = l.
Proof.
  intros Hf. induction l as [| x rest IH]; simpl; [reflexivity |].
  destruct (p x); [rewrite Hf | rewrite IH]; reflexivity.
Qed.

(** X13.  Saving is idempotent.  The document that [save] returns is settled:
    it passes the validators, and the pre-save hook leaves it as it is, so
    that the hook never fires twice in a row.  Saving it again sends one
    operation to the database, the check that the document is still stored,
    and fails only if that operation fails; otherwise it returns the same
    document and leaves every stored document as it is. *)
Theorem save_is_idempotent E doc w saved w'
  (Hsave : Student_save E doc w = (Ok saved, w')) :
  preSave saved = saved
  /\ IStudentDocument.fields saved = IStudentDocument.fields (preSave doc)
  /\ validateStudent (IStudentDocument.fields saved) = []
  /\ match dbFault E (dbOps w') with
     | None => Student_save E saved w' = (Ok saved, with_dbOps (S (dbOps w')) w')
     | Some msg =>
         Student_save E saved w' = (Throw (Error msg), with_dbOps (S (dbOps w')) w')
     end.
Proof.
  unfold Student_save in Hsave.
  destruct (validateStudent (IStudentDocument.fields doc)) eqn:Hvalid; [| discriminate].
  unfold dbOp in Hsave. destruct (dbFault E (dbOps w)); [discriminate |].
  cbn [students with_dbOps] in Hsave.
  destruct (existsb _ (students w)) eqn:Hex; [| discriminate].
  injection Hsave as <- <-.
  set (saved := IStudentDocument.hydrate (IStudentDocument.fields (preSave doc))).
  assert (Hfix : preSave saved = saved).
  { pose proof (preSave_settled doc) as H. cbv zeta in H.
    unfold preSave at 1. subst saved.
    cbn [IStudentDocument.fields IStudentDocument.hydrate].
    rewrite H. reflexivity. }
  assert (Hvalid' : validateStudent (IStudentDocument.fields saved) = []).
  { subst saved. cbn [IStudentDocument.fields IStudentDocument.hydrate].
    apply validateStudent_preSave. exact Hvalid. }
  split; [exact Hfix |]. split; [reflexivity |]. split; [exact Hvalid' |].
  unfold Student_save. rewrite Hvalid', Hfix. unfold dbOp.
  cbn [dbOps with_students with_dbOps].
  destruct (dbFault E (S (dbOps w))); [reflexivity |].
  cbn [students with_students with_dbOps].
  rewrite updateFirst_existsb
    by (intros x; unfold hasId; rewrite writeModified_id; reflexivity).
  subst saved. cbn [IStudentDocument.fields IStudentDocument.hydrate].
  rewrite Hex. rewrite (updateFirst_same _ (writeModified _)) by (intros x; reflexivity).
  reflexivity.
Qed.

Lemma save_is_idempotent_witness :
  let doc := IStudentDocument.assign_lastDataUpdate (Some 2000)
               (IStudentDocument.hydrate
                  (sampleStudent "s1" "tourist" (Some 1500) None None)) in
  let saved := IStudentDocument.hydrate
                 (sampleStudent "s1" "tourist" (Some 1500) (Some 1500) (Some 2000)) in
  let w' := snd (Student_save (sampleEnv busyRemote) doc busyWorld) in
  preSave saved = saved
  /\ IStudentDocument.fields saved = IStudentDocument.fields (preSave doc)
  /\ validateStudent (IStudentDocument.fields saved) = []
  /\ Student_save (sampleEnv busyRemote) saved w' = (Ok saved, with_dbOps 2 w').
Proof.
  cbv zeta.
  apply (save_is_idempotent (sampleEnv busyRemote)
           (IStudentDocument.assign_lastDataUpdate (Some 2000)
              (IStudentDocument.hydrate
                 (sampleStudent "s1" "tourist" (Some 1500) None None)))
           busyWorld).
  vm_compute. reflexivity.
Defined.

(** ** The statistics of a remote user *)

Lemma getUserRatingChanges_fired_fst E handle w w' :
  requests w' = requests w ->
  fst (getUserRatingChanges_fired E handle w') = fst (getUserRatingChanges E handle w).
Proof.
  intros H. unfold getUserRatingChanges_fired, getUserRatingChanges, tryCatch, bind.
  rewrite makeRequest_run, makeRequest_fired_run, H.
  destruct (fetched _) as [l | e]; [reflexivity |].
  destruct (_ || _); reflexivity.
Qed.

(** X14.  [getUserStats] masks every failure but one.  It fails exactly when
    its fetch of the profile fails, after three requests, and then always
    with [User ... not found], whatever went wrong (a timeout as well as an
    unknown handle).  Otherwise it returns after four requests: the rating
    history is replaced by the empty list when its fetch fails, and the number
    of submissions by [0] when the fetch of the full list fails.  It reads and
    writes no collection. *)
Theorem getUserStats_masks_failures E handle w :
  let w1 := sent (BASE_URL ++ "/user.info?handles=" ++ handle)%string w in
  let run := getUserStats E handle w in
  sameRecords w (snd run)
  /\ dbOps (snd run) = dbOps w
  /\ match profile E (requests w) handle with
     | Throw _ =>
         fst run = Throw (Error ("User '" ++ handle ++ "' not found")%string)
         /\ requests (snd run) = (requests w + 3)%nat
     | Ok user =>
         fst run
         = Ok (UserStats.mk user
                 (match fst (getUserRatingChanges E handle w1) with
                  | Ok history => history
                  | Throw _ => []
                  end)
                 (match submissionsFetch E (requests w + 3) handle with
                  | Ok all => List.length all
                  | Throw _ => 0%nat
                  end))
         /\ requests (snd run) = (requests w + 4)%nat
     end.
Proof.
  intros w1 run. subst run.
  split.
  { apply (getUserStats_preserves E sameRecords sameRecords_refl sameRecords_trans);
      intros; repeat split. }
  split; [apply getUserStats_ops |].
  pose proof (getUserStats_requests E handle w) as Hreq.
  pose proof (getUserStats_exact E handle w) as Hexact.
  destruct (profile E (requests w) handle) as [user | e] eqn:Hprofile.
  - split; [| exact Hreq]. clear Hreq Hexact.
    unfold getUserStats.
    rewrite 3 (bind_unit (setTimer REQUEST_DELAY)), (bind_unit (elapse REQUEST_DELAY));
      try reflexivity.
    rewrite bind_settle, getUserInfo_fired_run. cbn [fst snd].
    rewrite bind_settle, getUserRatingChanges_fired_world.
    rewrite bind_settle, getUserSubmissions_fired_world.
    rewrite settled_requested.
    change (requests (snd (elapse REQUEST_DELAY
              (snd (setTimer REQUEST_DELAY
                 (snd (setTimer REQUEST_DELAY (snd (setTimer REQUEST_DELAY w)))))))))
      with (requests w).
    rewrite Hprofile.
    match goal with
    | |- context [getUserRatingChanges_fired E handle ?w0] =>
        rewrite (getUserRatingChanges_fired_fst E handle w1 w0) by reflexivity
    end.
    unfold tryCatch, bind. rewrite getUserSubmissions_run.
    change (requests (settled handle w)) with (3 + requests w)%nat.
    rewrite (Nat.add_comm 3 (requests w)).
    destruct (submissionsFetch E (requests w + 3) handle) as [all | e]; reflexivity.
  - rewrite Hexact. split; [reflexivity |]. rewrite Hexact in Hreq. exact Hreq.
Qed.

(** ** The statistics of the store *)

Lemma settle_query E {A} (f : World -> A) w :
  settle (dbOp E (gets f)) w
  = (Ok (match dbFault E (dbOps w) with
         | Some msg => Throw (Error msg)
         | None => Ok (f (with_dbOps (S (dbOps w)) w))
         end),
     with_dbOps (S (dbOps w)) w).
Proof.
  unfold settle, dbOp, gets. destruct (dbFault E (dbOps w)); reflexivity.
Qed.

Lemma filter_length_le {A} (p : A -> bool) (l : list A) :
  (List.length (filter p l) <= List.length l)%nat.
Proof.
  induction l as [| x rest IH]; simpl; [lia |]. destruct (p x); simpl; lia.
Qed.

Lemma filter_true {A} (l : list A) : filter (fun _ => true) l = l.
Proof. induction l as [| x rest IH]; simpl; [reflexivity | rewrite IH; reflexivity]. Qed.

(** Every student is counted as having data or as needing an update. *)
Lemma hasData_or_stale t l :
  (List.length l <= List.length (filter hasData l) + List.length (filter (isStale t) l))%nat.
Proof.
  induction l as [| d rest IH]; simpl; [lia |].
  unfold hasData at 1, isStale at 1.
  destruct (Student.lastDataUpdate d) as [u |]; [destruct (u <? t) |]; simpl; lia.
Qed.

(** X15.  [getSyncStats] issues its six queries whatever the first ones
    answer, writes nothing, and throws exactly when one of them fails.  The
    numbers it returns are consistent: the totals are the sizes of the three
    collections, there is one entry of [lastSyncTimes] per student, in order,
    and every student is counted as having data, as needing an update, or as
    both.  The students needing an update are counted against a fixed 24
    hours: the count is the number of students that the manual trigger
    selects when [SYNC_THRESHOLD_HOURS] is 24 or unset. *)
Theorem getSyncStats_is_consistent E w :
  let run := getSyncStats E w in
  snd run = with_dbOps (dbOps w + 6) w
  /\ match fst run with
     | Ok stats =>
         (forall k, (k < 6)%nat -> dbFault E (dbOps w + k) = None)
         /\ SyncStats.totalStudents stats = List.length (students w)
         /\ SyncStats.totalSubmissions stats = List.length (submissions w)
         /\ SyncStats.totalRatingChanges stats = List.length (ratingChanges w)
         /\ map LastSync.studentId (SyncStats.lastSyncTimes stats)
            = map Student._id (students w)
         /\ map LastSync.lastUpdate (SyncStats.lastSyncTimes stats) = stamps w
         /\ (SyncStats.studentsWithData stats <= SyncStats.totalStudents stats)%nat
         /\ (SyncStats.studentsNeedingUpdate stats <= SyncStats.totalStudents stats)%nat
         /\ (SyncStats.totalStudents stats
             <= SyncStats.studentsWithData stats + SyncStats.studentsNeedingUpdate stats)%nat
         /\ SyncStats.studentsNeedingUpdate stats
            = List.length (filter (isStale (now w - 24 * 60 * 60 * 1000)) (students w))
         /\ (hoursThreshold E = Int 24 ->
             exists t,
               thresholdTime E w = Some t
               /\ SyncStats.studentsNeedingUpdate stats
                  = List.length (filter (isStale t) (students w)))
     | Throw _ => exists k, (k < 6)%nat /\ dbFault E (dbOps w + k) <> None
     end.
Proof.
  intros run. subst run. unfold getSyncStats.
  unfold Student_countDocuments, Submission_countDocuments, RatingChange_countDocuments,
    Student_find_lean, Date_now.
  rewrite (bind_Ok (gets now) _ w (now w) w eq_refl). cbv beta zeta.
  repeat (rewrite (bind_Ok _ _ _ _ _ (settle_query E _ _)); cbv beta;
          cbn [dbOps with_dbOps]).
  unfold bind, await. cbn [students submissions ratingChanges with_dbOps dbOps].
  pose proof (fun k => Nat.add_comm (dbOps w) k) as Hk.
  destruct (dbFault E (dbOps w)) as [m0 |] eqn:H0.
  { cbn [both fst snd]. split; [rewrite (Nat.add_comm (dbOps w) 6); reflexivity |]. exists 0%nat. split; [lia |].
    rewrite Nat.add_0_r, H0. discriminate. }
  destruct (dbFault E (S (dbOps w))) as [m1 |] eqn:H1.
  { cbn [both fst snd]. split; [rewrite (Nat.add_comm (dbOps w) 6); reflexivity |]. exists 1%nat. split; [lia |].
    rewrite Hk. cbn [Nat.add]. rewrite H1. discriminate. }
  destruct (dbFault E (S (S (dbOps w)))) as [m2 |] eqn:H2.
  { cbn [both fst snd]. split; [rewrite (Nat.add_comm (dbOps w) 6); reflexivity |]. exists 2%nat. split; [lia |].
    rewrite Hk. cbn [Nat.add]. rewrite H2. discriminate. }
  destruct (dbFault E (S (S (S (dbOps w))))) as [m3 |] eqn:H3.
  { cbn [both fst snd]. split; [rewrite (Nat.add_comm (dbOps w) 6); reflexivity |]. exists 3%nat. split; [lia |].
    rewrite Hk. cbn [Nat.add]. rewrite H3. discriminate. }
  destruct (dbFault E (S (S (S (S (dbOps w)))))) as [m4 |] eqn:H4.
  { cbn [both fst snd]. split; [rewrite (Nat.add_comm (dbOps w) 6); reflexivity |]. exists 4%nat. split; [lia |].
    rewrite Hk. cbn [Nat.add]. rewrite H4. discriminate. }
  destruct (dbFault E (S (S (S (S (S (dbOps w))))))) as [m5 |] eqn:H5.
  { cbn [both fst snd]. split; [rewrite (Nat.add_comm (dbOps w) 6); reflexivity |]. exists 5%nat. split; [lia |].
    rewrite Hk. cbn [Nat.add]. rewrite H5. discriminate. }
  cbn [both fst snd ret SyncStats.totalStudents SyncStats.totalSubmissions
       SyncStats.totalRatingChanges SyncStats.lastSyncTimes SyncStats.studentsWithData
       SyncStats.studentsNeedingUpdate].
  split; [rewrite (Nat.add_comm (dbOps w) 6); reflexivity |].
  rewrite filter_true, !map_map. cbn [lastSyncTime LastSync.studentId LastSync.lastUpdate].
  split.
  { intros k Hlt. rewrite Hk.
    destruct k as [| [| [| [| [| [| k]]]]]]; cbn [Nat.add]; try assumption. lia. }
  repeat split; try reflexivity.
  - apply filter_length_le.
  - apply filter_length_le.
  - apply hasData_or_stale.
  - intros Hh. unfold thresholdTime. rewrite Hh. eexists. split; reflexivity.
Qed.

(** ** The scheduler's switchboard *)

Lemma stopJob_run w : stopJob w = (Ok true, stopped w).
Proof.
  unfold stopJob, tryCatch, bind, update_status, modify, ret, stopped.
  destruct w as [st co su rc db rq nw tr [task |] js]; reflexivity.
Qed.

Lemma stopped_idempotent w : stopped (stopped w) = stopped w.
Proof. reflexivity. Qed.

Lemma calculateNextRun_run E w : calculateNextRun E w = (Ok (nextRunOf E w), w).
Proof.
  unfold calculateNextRun, gets, nextRunOf.
  destruct (cronTask w); [| reflexivity].
  destruct (CronJobStatus.enabled (jobStatus w)); reflexivity.
Qed.

Lemma getStatus_run E w :
  getStatus E w = (Ok (CronJobStatus.set_nextRun (nextRunOf E w) (jobStatus w)), w).
Proof.
  unfold getStatus, bind, gets. rewrite calculateNextRun_run. reflexivity.
Qed.

(** The world after a [startJob] that registered a task. *)
Lemma startJob_run E config w :
  startJob E config w
  = if cron_validate E (CronJobConfig.schedule config)
    then (Ok true,
          with_jobStatus
            (CronJobStatus.set_schedule (CronJobConfig.schedule config)
               (CronJobStatus.set_enabled true (jobStatus (stopped w))))
            (with_cronTask
               (Some (ScheduledTask.mk (CronJobConfig.schedule config) (ExecuteSync true)
                        (orString (CronJobConfig.timezone config) "UTC")))
               (stopped w)))
    else (Ok false, stopped w).
Proof.
  unfold startJob, tryCatch. rewrite (bind_Ok _ _ _ _ _ (stopJob_run w)).
  destruct (cron_validate E (CronJobConfig.schedule config)); cbn [negb].
  - unfold bind, modify, update_status. rewrite calculateNextRun_run. reflexivity.
  - reflexivity.
Qed.

Lemma updateConfig_run E config w :
  updateConfig E config w
  = if CronJobConfig.enabled config then startJob E config w else (Ok true, stopped w).
Proof.
  unfold updateConfig, tryCatch. destruct (CronJobConfig.enabled config).
  - rewrite startJob_run. destruct (cron_validate E _); reflexivity.
  - rewrite stopJob_run. reflexivity.
Qed.

Lemma stopped_consistent E w : cronConsistent E (stopped w).
Proof. split; reflexivity. Qed.

Lemma startJob_consistent E config w : cronConsistent E (snd (startJob E config w)).
Proof.
  rewrite startJob_run.
  destruct (cron_validate E (CronJobConfig.schedule config)) eqn:Hvalid; cbn [snd].
  - repeat split. exact Hvalid.
  - apply stopped_consistent.
Qed.

(** X16.  The commands of the scheduler leave its static fields consistent,
    from whatever state they start: after [startJob], [stopJob] and
    [updateConfig] a task is registered exactly when the status says
    [enabled], the task runs the schedule that the status shows, node-cron
    accepts that schedule, the task syncs all students, and a job without a
    task has no next run.  The same holds after [initialize] on the initial
    status, whatever the environment variables say. *)
Theorem cron_commands_establish_consistency E :
  (forall config w, cronConsistent E (snd (startJob E config w)))
  /\ (forall w, cronConsistent E (snd (stopJob w)))
  /\ (forall config w, cronConsistent E (snd (updateConfig E config w)))
  /\ (forall P w,
        cronConsistent E
          (snd (initialize E P
                  (with_jobStatus (initialJobStatus P) (with_cronTask None w))))).
Proof.
  split; [apply startJob_consistent |].
  split; [intros w; rewrite stopJob_run; apply stopped_consistent |].
  split.
  - intros config w. rewrite updateConfig_run.
    destruct (CronJobConfig.enabled config);
      [apply startJob_consistent | apply stopped_consistent].
  - intros P w. unfold initialize. cbv zeta. cbn [CronJobConfig.enabled CronJobConfig.schedule].
    unfold bind at 1 2. unfold update_status at 1 2, modify. cbv beta iota.
    destruct (negb (option_string_eqb (CRON_ENABLED P) "false")).
    + unfold bind.
      match goal with
      | |- context [startJob E ?c ?w1] =>
          pose proof (startJob_consistent E c w1) as H; destruct (startJob E c w1) as [[b | e] w2]
      end; exact H.
    + split; reflexivity.
Qed.

(** The [try] and [catch] blocks of [executeSync] record one result and leave
    the rest of the status, and the registered task, alone. *)
Lemma executeSync_round_run E forceAll startTime w1 :
  exists w2 r,
    tryCatch (executeSync_try E forceAll startTime) (executeSync_catch startTime) w1
    = (Ok tt, w2)
    /\ jobStatus w2 = CronJobStatus.set_lastResult (Some r) (jobStatus w1)
    /\ cronTask w2 = cronTask w1
    /\ LastResult.success r = (LastResult.errors r =? 0)%nat
    /\ LastResult.duration r = now w2 - startTime.
Proof.
  unfold tryCatch, executeSync_try. unfold bind at 1.
  destruct (selection E forceAll w1) as [sel |] eqn:Hsel.
  2:{ rewrite (executeSync_selection_invalid E forceAll w1 Hsel).
      unfold executeSync_catch. rewrite set_lastResult_run.
      eexists. eexists. split; [reflexivity |]. repeat split. }
  destruct (dbFault E (dbOps w1)) as [msg |] eqn:Hfault.
  - rewrite (executeSync_selection_fault E forceAll w1 msg sel Hfault Hsel).
    unfold executeSync_catch. rewrite set_lastResult_run.
    eexists. eexists. split; [reflexivity |]. repeat split.
  - rewrite (executeSync_selection E forceAll w1 sel Hfault Hsel).
    set (w0 := with_dbOps (S (dbOps w1)) w1).
    destruct (executeSync_loop E sel (mkCronAcc 0 0) w0)
      as [acc' [w' [runs [Hrun [Hturn _]]]]].
    destruct (syncedInTurn_status E _ _ _ _ Hturn) as [Hstatus _].
    pose proof (syncedInTurn_cronTask E _ _ _ _ Hturn) as Htask.
    destruct sel as [| d rest].
    + cbn [map forOf] in Hrun. unfold ret in Hrun. injection Hrun as <- <-.
      cbn [map]. rewrite set_lastResult_run.
      eexists. eexists. split; [reflexivity |]. repeat split.
    + cbn [map] in Hrun |- *. unfold bind. rewrite Hrun. rewrite set_lastResult_run.
      eexists. eexists. split; [reflexivity |].
      cbn [jobStatus with_jobStatus cronTask LastResult.success LastResult.errors
           LastResult.duration now].
      rewrite Hstatus, Htask. repeat split.
Qed.

(** What a call of [executeSync] does to the static fields. *)
Lemma executeSync_status E forceAll w :
  exists w',
    executeSync E forceAll w = (Ok tt, w')
    /\ cronTask w' = cronTask w
    /\ CronJobStatus.enabled (jobStatus w') = CronJobStatus.enabled (jobStatus w)
    /\ CronJobStatus.schedule (jobStatus w') = CronJobStatus.schedule (jobStatus w)
    /\ if CronJobStatus.isRunning (jobStatus w)
       then w' = w
       else
         CronJobStatus.isRunning (jobStatus w') = false
         /\ CronJobStatus.lastRun (jobStatus w') = Some (now w)
         /\ CronJobStatus.nextRun (jobStatus w') = nextRunOf E w'
         /\ exists r,
              CronJobStatus.lastResult (jobStatus w') = Some r
              /\ LastResult.success r = (LastResult.errors r =? 0)%nat
              /\ LastResult.duration r = now w' - now w.
Proof.
  destruct (CronJobStatus.isRunning (jobStatus w)) eqn:Hrunning.
  - exists w. unfold executeSync, bind, gets. rewrite Hrunning. repeat split.
  - rewrite (executeSync_idle E forceAll w Hrunning). unfold tryFinally.
    destruct (executeSync_round_run E forceAll (now w) (started w))
      as [w2 [r [Hrun [Hstatus [Htask [Hsucc Hdur]]]]]].
    rewrite Hrun. unfold executeSync_finally, bind, update_status, modify.
    rewrite calculateNextRun_run. cbv beta iota.
    eexists. split; [reflexivity |].
    cbn [cronTask jobStatus with_jobStatus now]. rewrite Hstatus.
    unfold nextRunOf. cbn [cronTask jobStatus with_jobStatus now started
      CronJobStatus.enabled CronJobStatus.schedule CronJobStatus.set_lastResult
      CronJobStatus.set_isRunning CronJobStatus.set_nextRun CronJobStatus.set_lastRun
      CronJobStatus.isRunning CronJobStatus.lastRun CronJobStatus.nextRun
      CronJobStatus.lastResult].
    rewrite Htask. cbn [cronTask started with_jobStatus].
    repeat split. exists r. repeat split; assumption.
Qed.

Lemma executeSync_consistent E forceAll w :
  cronConsistent E w -> cronConsistent E (snd (executeSync E forceAll w)).
Proof.
  intros Hc. destruct (executeSync_status E forceAll w)
    as [w' [Hrun [Htask [Hen [Hsch Hcases]]]]].
  rewrite Hrun. cbn [snd].
  destruct (CronJobStatus.isRunning (jobStatus w)); [subst w'; exact Hc |].
  destruct Hcases as [_ [_ [Hnext _]]].
  unfold cronConsistent in *. rewrite Htask, Hen, Hsch.
  destruct (cronTask w) as [task |] eqn:Ht; [exact Hc |].
  split; [tauto |]. rewrite Hnext. unfold nextRunOf. rewrite Htask. reflexivity.
Qed.

(** X17.  The runs of the job keep its static fields consistent: a scheduled
    tick, a manual trigger, a direct call of [executeSync] and a status query
    register and remove no task, and leave [enabled] and the schedule as they
    are.  The manual trigger always answers [true] and a status query changes
    nothing at all. *)
Theorem cron_runs_keep_consistency E forceAll w (Hconsistent : cronConsistent E w) :
  cronConsistent E (snd (executeSync E forceAll w))
  /\ cronConsistent E (snd (cronTick E w))
  /\ cronConsistent E (snd (triggerManualSync E w))
  /\ fst (triggerManualSync E w) = Ok true
  /\ snd (getStatus E w) = w
  /\ cronTask (snd (cronTick E w)) = cronTask w
  /\ cronTask (snd (triggerManualSync E w)) = cronTask w.
Proof.
  assert (Htick : cronTick E w
                  = match cronTask w with
                    | Some t => match ScheduledTask.callback t with
                                | ExecuteSync f => executeSync E f w
                                end
                    | None => (Ok tt, w)
                    end).
  { unfold cronTick, bind, gets.
    destruct (cronTask w) as [t |]; [destruct (ScheduledTask.callback t) |]; reflexivity. }
  assert (Hmanual : triggerManualSync E w = (Ok true, snd (executeSync E false w))).
  { unfold triggerManualSync, tryCatch, bind.
    destruct (executeSync_status E false w) as [w' [Hrun _]]. rewrite Hrun. reflexivity. }
  split; [apply executeSync_consistent; exact Hconsistent |].
  split.
  { rewrite Htick. destruct (cronTask w) as [t |] eqn:Ht.
    - destruct (ScheduledTask.callback t) as [f].
      apply executeSync_consistent. exact Hconsistent.
    - exact Hconsistent. }
  rewrite Hmanual. cbn [fst snd].
  split; [apply executeSync_consistent; exact Hconsistent |].
  split; [reflexivity |].
  split; [rewrite getStatus_run; reflexivity |].
  split.
  - rewrite Htick. destruct (cronTask w) as [t |] eqn:Ht; [| exact Ht].
    destruct (ScheduledTask.callback t) as [f].
    destruct (executeSync_status E f w) as [w' [Hrun [Htask _]]].
    rewrite Hrun. cbn [snd]. rewrite Htask. exact Ht.
  - destruct (executeSync_status E false w) as [w' [Hrun [Htask _]]].
    rewrite Hrun. exact Htask.
Qed.

Lemma cron_runs_keep_consistency_witness :
  let E := sampleEnv busyRemote in
  let w := snd (startJob E (CronJobConfig.mk "0 2 * * *" true None) busyWorld) in
  cronConsistent E (snd (executeSync E false w))
  /\ cronConsistent E (snd (cronTick E w))
  /\ cronConsistent E (snd (triggerManualSync E w))
  /\ fst (triggerManualSync E w) = Ok true
  /\ snd (getStatus E w) = w
  /\ cronTask (snd (cronTick E w)) = cronTask w
  /\ cronTask (snd (triggerManualSync E w)) = cronTask w.
Proof.
  cbv zeta.
  apply (cron_runs_keep_consistency (sampleEnv busyRemote) false
           (snd (startJob (sampleEnv busyRemote) (CronJobConfig.mk "0 2 * * *" true None)
                   busyWorld))).
  unfold cronConsistent. simpl. repeat split.
Defined.

(** X18.  [startJob] stops the registered job before it looks at the new
    schedule.  With a schedule that node-cron rejects it answers [false] and
    leaves the scheduler stopped: the job that was running is not restored,
    and a tick does nothing.  With a schedule that node-cron accepts it
    registers a task that syncs all students, in the time zone given or UTC,
    and sets [enabled] and the schedule; the run flag and the record of the
    last run are kept.  The [nextRun] it stores is unset, because it is
    computed while the status still says disabled; [getStatus] computes it
    afresh from the new schedule. *)
Theorem startJob_replaces_or_stops E config w :
  let schedule := CronJobConfig.schedule config in
  if cron_validate E schedule
  then
    exists w',
      startJob E config w = (Ok true, w')
      /\ cronTask w'
         = Some (ScheduledTask.mk schedule (ExecuteSync true)
                   (orString (CronJobConfig.timezone config) "UTC"))
      /\ jobStatus w'
         = CronJobStatus.mk (CronJobStatus.isRunning (jobStatus w))
             (CronJobStatus.lastRun (jobStatus w)) None
             (CronJobStatus.lastResult (jobStatus w)) schedule true
      /\ fst (getStatus E w')
         = Ok (CronJobStatus.mk (CronJobStatus.isRunning (jobStatus w))
                 (CronJobStatus.lastRun (jobStatus w))
                 (Some (nextRunAfter E schedule (now w)))
                 (CronJobStatus.lastResult (jobStatus w)) schedule true)
      /\ sameRecords w w' /\ contests w' = contests w /\ trace w' = trace w
  else
    startJob E config w = (Ok false, stopped w)
    /\ cronTick E (stopped w) = (Ok tt, stopped w)
    /\ fst (getStatus E (stopped w))
       = Ok (CronJobStatus.mk (CronJobStatus.isRunning (jobStatus w))
               (CronJobStatus.lastRun (jobStatus w)) None
               (CronJobStatus.lastResult (jobStatus w))
               (CronJobStatus.schedule (jobStatus w)) false).
Proof.
  intros schedule. rewrite startJob_run. fold schedule.
  destruct (cron_validate E schedule).
  - eexists. split; [reflexivity |]. rewrite getStatus_run. repeat split.
  - rewrite getStatus_run. repeat split.
Qed.

(** ** The HTTP layer *)

(** X19.  The endpoint of the manual trigger always replies 200 [Manual sync
    triggered successfully]: its 400 and 500 branches cannot be reached,
    because [executeSync] never throws and [triggerManualSync] answers
    [true] whatever the run did.  In particular, while a run is in progress
    the reply is the same 200, although nothing was synced and nothing
    changed; only [isRunning] in the status sent tells the two apart. *)
Theorem manual_trigger_always_replies_200 E P w :
  exists status,
    CronJobController.triggerManualSync E P w
    = (Ok [Response.mk 200
             (ApiResponse.mk true "Manual sync triggered successfully" (StatusData status)
                None)],
       snd (executeSync E false w))
    /\ if CronJobStatus.isRunning (jobStatus w)
       then snd (executeSync E false w) = w /\ CronJobStatus.isRunning status = true
       else CronJobStatus.isRunning status = false.
Proof.
  destruct (executeSync_status E false w) as [w' [Hrun [_ [_ [_ Hcases]]]]].
  assert (Hmanual : triggerManualSync E w = (Ok true, w')).
  { unfold triggerManualSync, tryCatch, bind. rewrite Hrun. reflexivity. }
  unfold CronJobController.triggerManualSync, tryCatch.
  rewrite (bind_Ok _ _ _ _ _ Hmanual). cbv beta iota.
  rewrite (bind_Ok _ _ _ _ _ (getStatus_run E w')). rewrite Hrun. cbn [ret sendSuccess snd].
  eexists. split; [reflexivity |].
  destruct (CronJobStatus.isRunning (jobStatus w)) eqn:Hrunning.
  - subst w'. split; [reflexivity | exact Hrunning].
  - destruct Hcases as [Hflag _]. exact Hflag.
Qed.



(** The request of [test-codeforces-api.http] with an id that is no
    ObjectId: both endpoints reply 500. *)
Example endpoints_reply_500_to_a_malformed_id :
  let E := strictEnv (steadyRemote [] [] [] []) in
  let P := mkProcessEnv None None None (Some "development") in
  let w := sampleWorld [] 1000 in
  map Response.statusCode
      (match fst (CodeforcesController.syncStudentData E P "invalid_id" w) with
       | Ok replies => replies
       | Throw _ => []
       end) = [500]
  /\ map Response.statusCode
         (match fst (CodeforcesController.forceSyncStudent E P "invalid_id" w) with
          | Ok replies => replies
          | Throw _ => []
          end) = [500].
Proof. vm_compute. split; reflexivity. Qed.

(** X21.  The batch endpoint replies 200 whenever the students could be
    listed, whatever the syncs did -- also when every one of them failed; the
    message then reads [Sync completed: 0/n successful].  It replies 500 only
    when the listing itself fails, before any student is touched. *)
Theorem batch_endpoint_replies E P w :
  match dbFault E (dbOps w) with
  | Some msg =>
      CodeforcesController.syncAllStudents E P w
      = (Ok [Response.mk 500
               (ApiResponse.mk false "Failed to sync all students" NoData
                  (if option_string_eqb (NODE_ENV P) "development" then Some msg else None))],
         with_dbOps (S (dbOps w)) w)
  | None =>
      exists stats w',
        syncAllStudents E w = (Ok stats, w')
        /\ CodeforcesController.syncAllStudents E P w
           = (Ok [Response.mk 200
                    (ApiResponse.mk true
                       ("Sync completed: "
                        ++ string_of_Z (Z.of_nat (GlobalSyncStats.successfulSyncs stats))
                        ++ "/" ++ string_of_Z (Z.of_nat (List.length (students w)))
                        ++ " successful")
                       (BatchData stats) None)], w')
        /\ (GlobalSyncStats.successfulSyncs stats
            <= List.length (students w))%nat
  end.
Proof.
  unfold CodeforcesController.syncAllStudents, tryCatch, bind.
  destruct (dbFault E (dbOps w)) as [msg |] eqn:Hfault.
  - rewrite (syncAllStudents_fault E w msg Hfault). reflexivity.
  - rewrite (syncAllStudents_loop E w Hfault).
    destruct (syncAll_loop E (students w) (mkBatchAcc [] 0 0)
                (with_dbOps (S (dbOps w)) w))
      as [acc' [w' [news [segs [Hloop [_ [Hids [_ [Hok _]]]]]]]]].
    unfold bind. rewrite Hloop. cbn [ret sendSuccess GlobalSyncStats.successfulSyncs
      GlobalSyncStats.totalStudents].
    rewrite length_map. eexists. eexists. split; [reflexivity |]. split; [reflexivity |].
    rewrite Hok. cbn [acc_successfulSyncs Nat.add].
    apply (f_equal (@List.length _)) in Hids. rewrite !length_map in Hids.
    rewrite <- Hids. apply filter_length_le.
Qed.

(** X22.  The endpoint that validates a handle.  An empty handle is refused
    with 400 before any request.  Otherwise the profile is fetched; when that
    fetch fails for whatever reason -- a timeout or an unavailable API as well
    as an unknown handle -- the reply is 404 [... not found], without the text
    of the error.  When it succeeds the profile is fetched a second time: the
    reply is 200 with the profile of the second fetch, or 500 when the second
    fetch fails.  No database operation is issued. *)
Theorem validate_endpoint_replies E P handle w :
  let url := (BASE_URL ++ "/user.info?handles=" ++ handle)%string in
  let run := CodeforcesController.validateHandle E P handle w in
  if String.eqb handle EmptyString then
    run = (Ok [Response.mk 400 (ApiResponse.mk false "Handle is required" NoData None)], w)
  else
    match profile E (requests w) handle with
    | Throw _ =>
        run = (Ok [Response.mk 404
                     (ApiResponse.mk false ("Codeforces handle '" ++ handle ++ "' not found")
                        NoData None)],
               sent url w)
    | Ok _ =>
        match profile E (S (requests w)) handle with
        | Ok userInfo =>
            run = (Ok [Response.mk 200
                         (ApiResponse.mk true "Handle is valid" (HandleData true userInfo)
                            None)],
                   sent url (sent url w))
        | Throw e =>
            run = (Ok [Response.mk 500
                         (ApiResponse.mk false "Failed to validate handle" NoData
                            (if option_string_eqb (NODE_ENV P) "development"
                             then Some (message e) else None))],
                   sent url (sent url w))
        end
    end.
Proof.
  intros url run. subst run. unfold CodeforcesController.validateHandle, tryCatch.
  destruct (String.eqb handle EmptyString).
  - unfold sendError. destruct (option_string_eqb (NODE_ENV P) "development"); reflexivity.
  - rewrite (bind_Ok _ _ _ _ _ (validateHandle_run E handle w)). fold url.
    destruct (profile E (requests w) handle) as [u0 | e0]; cbn [negb].
    + unfold bind. rewrite getUserInfo_run. fold url.
      change (requests (sent url w)) with (S (requests w)).
      destruct (profile E (S (requests w)) handle); reflexivity.
    + unfold ret, sendError. destruct (option_string_eqb (NODE_ENV P) "development"); reflexivity.
Qed.

Lemma orString_twice a b : orString (Some (orString a b)) b = orString a b.
Proof.
  unfold orString. destruct a as [s |].
  - destruct (String.eqb s EmptyString) eqn:Hs.
    + destruct (String.eqb b EmptyString); reflexivity.
    + rewrite Hs. reflexivity.
  - destruct (String.eqb b EmptyString); reflexivity.
Qed.

(** X23.  The endpoints that configure the scheduler.  [status] replies 200
    with the status and a next run computed afresh, and changes nothing.
    [start] takes its
    schedule from the body, else from [CRON_SCHEDULE], else [0 2 * * *]; it
    replies 200 with a status that is enabled, shows that schedule and a next
    run computed from it, or 400 when node-cron rejects the schedule -- and
    then the scheduler is left stopped.  [stop] always replies 200.  [update]
    replies 400 and changes nothing when the schedule is missing or empty or
    [enabled] is not a boolean; with [enabled: false] it stops the job and
    replies 200 without looking at the schedule, which is neither validated
    nor stored; with [enabled: true] it behaves as [start]. *)
Theorem cron_config_endpoints_reply E P body w :
  let refused message :=
    [Response.mk 400 (ApiResponse.mk false message NoData None)] in
  let starts schedule done failed run :=
    if cron_validate E schedule
    then
      exists status w',
        run = (Ok [Response.mk 200 (ApiResponse.mk true done (StatusData status) None)], w')
        /\ cronTask w'
           = Some (ScheduledTask.mk schedule (ExecuteSync true)
                     (orString (CronRequestBody.timezone body) "UTC"))
        /\ CronJobStatus.enabled status = true
        /\ CronJobStatus.schedule status = schedule
        /\ CronJobStatus.nextRun status = Some (nextRunAfter E schedule (now w))
    else run = (Ok (refused failed), stopped w) in
  CronJobController.getStatus E P w
  = (Ok [Response.mk 200
           (ApiResponse.mk true "Cron job status retrieved successfully"
              (StatusData (CronJobStatus.set_nextRun (nextRunOf E w) (jobStatus w))) None)],
     w)
  /\ starts
       (orString (CronRequestBody.schedule body) (orString (CRON_SCHEDULE P) "0 2 * * *"))
       "Cron job started successfully" "Failed to start cron job"
       (CronJobController.startJob E P body w)
  /\ CronJobController.stopJob E P w
     = (Ok [Response.mk 200
              (ApiResponse.mk true "Cron job stopped successfully"
                 (StatusData (jobStatus (stopped w))) None)],
        stopped w)
  /\ match CronRequestBody.schedule body, CronRequestBody.enabled body with
     | Some schedule, Some enabled =>
         if String.eqb schedule EmptyString then
           CronJobController.updateConfig E P body w
           = (Ok (refused "Schedule and enabled status are required"), w)
         else if enabled then
           starts schedule "Cron job configuration updated successfully"
             "Failed to update cron job configuration"
             (CronJobController.updateConfig E P body w)
         else
           CronJobController.updateConfig E P body w
           = (Ok [Response.mk 200
                    (ApiResponse.mk true "Cron job configuration updated successfully"
                       (StatusData (jobStatus (stopped w))) None)],
              stopped w)
     | _, _ =>
         CronJobController.updateConfig E P body w
         = (Ok (refused "Schedule and enabled status are required"), w)
     end.
Proof.
  cbv zeta.
  assert (Hdev : forall message code,
            sendError P message code None
            = [Response.mk code (ApiResponse.mk false message NoData None)]).
  { intros message code. unfold sendError.
    destruct (option_string_eqb (NODE_ENV P) "development"); reflexivity. }
  split; [| split; [| split]].
  - unfold CronJobController.getStatus, tryCatch, bind. rewrite getStatus_run. reflexivity.
  - unfold CronJobController.startJob, tryCatch, bind. cbv zeta. rewrite startJob_run.
    cbn [CronJobConfig.schedule CronJobConfig.timezone].
    destruct (cron_validate E _).
    + rewrite getStatus_run, orString_twice.
      eexists. eexists. split; [reflexivity |]. repeat split.
    + cbn [ret]. rewrite Hdev. reflexivity.
  - unfold CronJobController.stopJob, tryCatch, bind. rewrite stopJob_run.
    rewrite getStatus_run. reflexivity.
  - unfold CronJobController.updateConfig, tryCatch.
    destruct (CronRequestBody.schedule body) as [schedule |];
      [| unfold ret; rewrite Hdev; reflexivity].
    destruct (CronRequestBody.enabled body) as [enabled |];
      [| unfold ret; rewrite Hdev; reflexivity].
    destruct (String.eqb schedule EmptyString); [unfold ret; rewrite Hdev; reflexivity |].
    cbv zeta. unfold bind. rewrite updateConfig_run. cbn [CronJobConfig.enabled].
    destruct enabled.
    + rewrite startJob_run. cbn [CronJobConfig.schedule CronJobConfig.timezone].
      destruct (cron_validate E schedule).
      * rewrite getStatus_run, orString_twice.
        eexists. eexists. split; [reflexivity |]. repeat split.
      * cbn [ret]. rewrite Hdev. reflexivity.
    + rewrite getStatus_run. reflexivity.
Qed.

(** ** The statistics of solved problems *)

Lemma increment_keys key buckets : map fst (increment key buckets) = map fst buckets.
Proof.
  induction buckets as [| [k n] rest IH]; simpl; [reflexivity |].
  destruct (String.eqb k key); simpl; [reflexivity | rewrite IH; reflexivity].
Qed.

Lemma increment_sum key buckets :
  In key (map fst buckets) ->
  list_sum (map snd (increment key buckets)) = S (list_sum (map snd buckets)).
Proof.
  induction buckets as [| [k n] rest IH]; simpl; [intros [] |].
  destruct (String.eqb k key) eqn:Hk; simpl.
  - reflexivity.
  - intros [H | H]; [apply String.eqb_neq in Hk; contradiction |].
    rewrite (IH H). lia.
Qed.

Lemma increment_count key k buckets :
  In k (map fst buckets) ->
  bucketCount key (increment k buckets)
  = if String.eqb k key then S (bucketCount key buckets) else bucketCount key buckets.
Proof.
  unfold bucketCount.
  induction buckets as [| [k0 n] rest IH]; simpl; [intros [] |].
  intros Hin. destruct (String.eqb k0 k) eqn:Hk0; simpl.
  - apply String.eqb_eq in Hk0. subst k0.
    destruct (String.eqb k key); reflexivity.
  - destruct Hin as [H | H]; [apply String.eqb_neq in Hk0; contradiction |].
    destruct (String.eqb k0 key) eqn:Hkey.
    + apply String.eqb_eq in Hkey. subst k0. rewrite String.eqb_sym, Hk0. reflexivity.
    + apply IH. exact H.
Qed.

Lemma bucketCount_empty key : bucketCount key emptyBuckets = 0%nat.
Proof.
  unfold bucketCount, emptyBuckets. cbn [find fst].
  repeat (destruct (String.eqb _ key); [reflexivity |]). reflexivity.
Qed.

Lemma bucketOf_key rating : In (bucketOf rating) (map fst emptyBuckets).
Proof.
  unfold bucketOf. destruct (truthy rating); cbn [negb]; [| simpl; tauto].
  destruct rating as [r |]; [| simpl; tauto].
  destruct (r <=? 1000); [simpl; tauto |].
  destruct (r <=? 1300); [simpl; tauto |].
  destruct (r <=? 1600); [simpl; tauto |].
  destruct (r <=? 1900); [simpl; tauto |].
  destruct (r <=? 2200); simpl; tauto.
Qed.

Lemma ratingBuckets_loop accepted : forall buckets,
  map fst buckets = map fst emptyBuckets ->
  let result :=
    fold_left (fun buckets sub =>
                 increment (bucketOf (Problem.rating (Submission.problem sub))) buckets)
              accepted buckets in
  map fst result = map fst emptyBuckets
  /\ list_sum (map snd result) = (list_sum (map snd buckets) + List.length accepted)%nat
  /\ forall key,
       bucketCount key result
       = (bucketCount key buckets
          + List.length
              (filter (fun sub =>
                         String.eqb (bucketOf (Problem.rating (Submission.problem sub))) key)
                      accepted))%nat.
Proof.
  induction accepted as [| sub rest IH]; intros buckets Hkeys; cbv zeta.
  - simpl. split; [exact Hkeys |]. split; [lia | intros key; lia].
  - cbn [fold_left].
    set (k := bucketOf (Problem.rating (Submission.problem sub))).
    assert (Hin : In k (map fst buckets)) by (rewrite Hkeys; apply bucketOf_key).
    destruct (IH (increment k buckets)) as [H1 [H2 H3]].
    { rewrite increment_keys. exact Hkeys. }
    split; [exact H1 |]. split.
    + rewrite H2, (increment_sum k buckets Hin). cbn [List.length]. lia.
    + intros key. rewrite H3, (increment_count key k buckets Hin). cbn [filter].
      fold k. destruct (String.eqb k key); cbn [List.length]; lia.
Qed.

Lemma fold_left_max l : forall a,
  a <= fold_left Z.max l a
  /\ Forall (fun r => r <= fold_left Z.max l a) l
  /\ (fold_left Z.max l a = a \/ In (fold_left Z.max l a) l).
Proof.
  induction l as [| x rest IH]; intros a; simpl.
  - split; [lia |]. split; [constructor | left; reflexivity].
  - destruct (IH (Z.max a x)) as [H1 [H2 H3]].
    split; [lia |]. split; [constructor; [lia | exact H2] |].
    destruct H3 as [H3 | H3]; [| right; right; exact H3].
    rewrite H3. destruct (Z.max_spec a x) as [[_ ->] | [_ ->]]; [right; left | left];
      reflexivity.
Qed.

(** X24.  The statistics that [getProblemStats] computes from the
    submissions it has loaded are consistent.  The rating buckets partition
    the accepted submissions: the object keeps its seven keys, each accepted
    submission is counted under exactly one of them, and the counts add up to
    the number of accepted submissions; a submission without a rating, or
    with rating [0], is counted as [Unrated].  The number of distinct
    problems never exceeds the number of accepted submissions.  The hardest
    rating is [0] when no accepted submission is rated; otherwise it is the
    rating of one of them and none is above it. *)
Theorem problem_statistics_are_consistent submissions :
  let accepted := acceptedSubmissions submissions in
  let buckets := ratingBuckets accepted in
  let ratings := ratingsOfSolved accepted in
  (List.length accepted <= List.length submissions)%nat
  /\ map fst buckets = map fst emptyBuckets
  /\ list_sum (map snd buckets) = List.length accepted
  /\ (forall key,
        bucketCount key buckets
        = List.length
            (filter (fun sub =>
                       String.eqb (bucketOf (Problem.rating (Submission.problem sub))) key)
                    accepted))
  /\ bucketCount "Unrated" buckets
     = List.length
         (filter (fun sub => negb (truthy (Problem.rating (Submission.problem sub))))
                 accepted)
  /\ (uniqueProblemsSolved accepted <= List.length accepted)%nat
  /\ Forall (fun r => r <= mostDifficultRating ratings) ratings
  /\ match ratings with
     | [] => mostDifficultRating ratings = 0
     | _ :: _ => In (mostDifficultRating ratings) ratings
     end.
Proof.
  intros accepted buckets ratings.
  destruct (ratingBuckets_loop accepted emptyBuckets eq_refl) as [Hkeys [Hsum Hcount]].
  fold (ratingBuckets accepted) in Hkeys, Hsum, Hcount. fold buckets in Hkeys, Hsum, Hcount.
  split; [apply filter_length_le |].
  split; [exact Hkeys |].
  split; [rewrite Hsum; reflexivity |].
  split; [intros key; rewrite Hcount, bucketCount_empty; reflexivity |].
  split.
  { rewrite Hcount, bucketCount_empty. cbn [Nat.add].
    f_equal. apply filter_ext. intros sub. unfold bucketOf.
    destruct (Problem.rating (Submission.problem sub)) as [r |]; [| reflexivity].
    destruct (truthy (Some r)); cbn [negb]; [| reflexivity].
    destruct (r <=? 1000); [reflexivity |].
    destruct (r <=? 1300); [reflexivity |].
    destruct (r <=? 1600); [reflexivity |].
    destruct (r <=? 1900); [reflexivity |].
    destruct (r <=? 2200); reflexivity. }
  split.
  { unfold uniqueProblemsSolved.
    rewrite <- (length_map problemKey accepted). apply NoDup_incl_length.
    - apply NoDup_nodup.
    - intros key Hin. apply nodup_In in Hin. exact Hin. }
  unfold mostDifficultRating. destruct ratings as [| r rest].
  - split; [constructor | reflexivity].
  - destruct (fold_left_max rest r) as [H1 [H2 H3]].
    split; [constructor; assumption |].
    destruct H3 as [-> | H3]; [left; reflexivity | right; exact H3].
Qed.

(** ** What a run of the job records *)

(** X25.  Every call of [executeSync] returns, and registers or removes no
    task and leaves [enabled] and the schedule as they are.  A call that
    finds a run in progress changes nothing.  Any other call leaves the job
    idle and records the run: [lastRun] is the time the call started,
    [nextRun] is computed afresh, and the result carries the time the run
    took and [success] exactly when it counts no error -- also when the query
    of the students failed. *)
Theorem executeSync_records_the_run E forceAll w :
  exists w',
    executeSync E forceAll w = (Ok tt, w')
    /\ cronTask w' = cronTask w
    /\ CronJobStatus.enabled (jobStatus w') = CronJobStatus.enabled (jobStatus w)
    /\ CronJobStatus.schedule (jobStatus w') = CronJobStatus.schedule (jobStatus w)
    /\ if CronJobStatus.isRunning (jobStatus w)
       then w' = w
       else
         CronJobStatus.isRunning (jobStatus w') = false
         /\ CronJobStatus.lastRun (jobStatus w') = Some (now w)
         /\ fst (getStatus E w') = Ok (jobStatus w')
         /\ exists r,
              CronJobStatus.lastResult (jobStatus w') = Some r
              /\ (LastResult.success r = true <-> LastResult.errors r = 0%nat)
              /\ LastResult.duration r = now w' - now w.
Proof.
  destruct (executeSync_status E forceAll w) as [w' [Hrun [Htask [Hen [Hsch Hcases]]]]].
  exists w'. split; [exact Hrun |]. split; [exact Htask |].
  split; [exact Hen |]. split; [exact Hsch |].
  destruct (CronJobStatus.isRunning (jobStatus w)); [exact Hcases |].
  destruct Hcases as [Hflag [Hlast [Hnext [r [Hres [Hsucc Hdur]]]]]].
  split; [exact Hflag |]. split; [exact Hlast |]. split.
  - rewrite getStatus_run, <- Hnext. destruct (jobStatus w'). reflexivity.
  - exists r. split; [exact Hres |]. split; [| exact Hdur].
    rewrite Hsucc. apply Nat.eqb_eq.
Qed.

(** The statistics count against 24 hours whatever the threshold of the job:
    with a threshold of one hour, a student synced two hours ago is selected
    by the manual trigger and not counted as needing an update. *)
Example getSyncStats_ignores_the_threshold :
  let E := mkEnv busyRemote (fun _ => None) (fun _ => true) (fun _ => true)
                 (fun _ t => t + 3600000) (Some (Int 1)) in
  let w := sampleWorld [sampleStudent "s1" "tourist" (Some 1500) (Some 1500) (Some 0)]
                       7200000 in
  option_map SyncStats.studentsNeedingUpdate
    (match fst (getSyncStats E w) with Ok stats => Some stats | Throw _ => None end)
  = Some 0%nat
  /\ option_map (@List.length _)
       (match fst (getStudentsNeedingUpdate E w) with
        | Ok selected => Some selected
        | Throw _ => None
        end)
     = Some 1%nat.
Proof. split; vm_compute; reflexivity. Qed.
